(** * Driver-command shim for Wireless Extensions: model and properties

    Shallow embedding of [wpa_supplicant_8_lib/driver_cmd_wext.c]:
    the CSCAN and PNO-setup buffer encoders, the country-code lookup and
    the command dispatcher [wpa_driver_wext_driver_cmd].

    Conventions.
    - C integers are [Z]; the casts of the source ([(u8)], [(u16)]) are
      written out as reductions modulo a power of two.  The cursor [bp]
      and the counters stay far below the range of [int].
    - A [char] buffer is a [list Z] whose length is its capacity.  A store
      outside the buffer has no defined behaviour in C; here it makes the
      computation yield [None].
    - C strings are [string]s (the characters before the terminating NUL).
    - Logging through [wpa_printf] has no effect on the program state and
      is left out. *)

From Stdlib Require Import ZArith Lia Bool Ascii String.
From stdpp Require Import base option list.

Open Scope Z_scope.

(** ** Macros of the headers

    The source includes [driver_cmd_wext.h], [driver_cmd_common.h],
    [wireless_copy.h], [defs.h]; the values of their macros are a
    parameter of the development. *)

Class wext_macros : Type := {
  WEXT_NUMBER_SCAN_CHANNELS_ETSI : Z;
  WEXT_NUMBER_SCAN_CHANNELS_MKK1 : Z;
  WEXT_CSCAN_HEADER : list Z;
  WEXT_CSCAN_HEADER_SIZE : Z;
  WEXT_CSCAN_CHANNEL_SECTION : Z;
  WEXT_CSCAN_PASV_DWELL_SECTION : Z;
  WEXT_CSCAN_HOME_DWELL_SECTION : Z;
  WEXT_CSCAN_TYPE_SECTION : Z;
  WEXT_CSCAN_TYPE_PASSIVE : Z;
  WEXT_CSCAN_PASV_DWELL_TIME_DEF : Z;
  WEXT_CSCAN_PASV_DWELL_TIME_MAX : Z;
  WEXT_CSCAN_HOME_DWELL_TIME : Z;
  WEXT_PNOSETUP_HEADER : list Z;
  WEXT_PNOSETUP_HEADER_SIZE : Z;
  WEXT_PNO_TLV_PREFIX : Z;
  WEXT_PNO_TLV_VERSION : Z;
  WEXT_PNO_TLV_SUBVERSION : Z;
  WEXT_PNO_TLV_RESERVED : Z;
  WEXT_PNO_AMOUNT : Z;
  WEXT_PNO_SSID_SECTION : Z;
  WEXT_PNO_SSID_HEADER_SIZE : Z;
  WEXT_PNO_SCAN_INTERVAL_SECTION : Z;
  WEXT_PNO_SCAN_INTERVAL_LENGTH : Z;
  WEXT_PNO_SCAN_INTERVAL : Z;
  WEXT_PNO_REPEAT_SECTION : Z;
  WEXT_PNO_REPEAT_LENGTH : Z;
  WEXT_PNO_REPEAT : Z;
  WEXT_PNO_MAX_REPEAT_SECTION : Z;
  WEXT_PNO_MAX_REPEAT_LENGTH : Z;
  WEXT_PNO_MAX_REPEAT : Z;
  WEXT_PNO_NONSSID_SECTIONS_SIZE : Z;
  WEXT_PNO_MAX_COMMAND_SIZE : Z;
  IW_ESSID_MAX_SIZE : Z;
  MAX_DRV_CMD_SIZE : Z;
  DRV_NUMBER_SEQUENTIAL_ERRORS : Z;
  WPA_SCANNING : Z;
  WPA_COMPLETED : Z
}.

(** Modelled from the spec: [RSSI_CMD] and [LINKSPEED_CMD] are macros of
    [driver_cmd_common.h], which is not part of the sources at hand.
    Section 4.2 lists the commands whose reply length is returned as
    RSSI, LINKSPEED, MACADDR, GETPOWER and GETBAND, in the order of the
    tests of the source, and has RSSI-APPROX rewritten to the RSSI query
    string. *)
Definition RSSI_CMD : string := "RSSI".
Definition LINKSPEED_CMD : string := "LINKSPEED".

(** ** Integer casts *)

Definition to_u8 (x : Z) : Z := x mod 256.
Definition to_u16 (x : Z) : Z := x mod 65536.
Definition to_u32 (x : Z) : Z := x mod 4294967296.

(** ** C strings *)

Definition char_code (c : ascii) : Z := Z.of_N (N_of_ascii c).

Definition tolower (c : Z) : Z :=
  if (65 <=? c) && (c <=? 90) then c + 32 else c.

Definition isspace (c : Z) : bool :=
  (c =? 32) || ((9 <=? c) && (c <=? 13)).

Definition isdigit (c : Z) : bool := (48 <=? c) && (c <=? 57).

Fixpoint bytes_of_string (s : string) : list Z :=
  match s with
  | EmptyString => []
  | String c r => char_code c :: bytes_of_string r
  end.

Definition strlen (s : string) : Z := Z.of_nat (String.length s).

(** [s + n]: the string that starts [n] characters into [s]. *)
Fixpoint str_drop (n : nat) (s : string) : string :=
  match n, s with
  | O, _ => s
  | S n', String _ r => str_drop n' r
  | S _, EmptyString => EmptyString
  end.

(** The string left when a NUL is stored at offset [n] of [s]. *)
Fixpoint str_take (n : nat) (s : string) : string :=
  match n, s with
  | O, _ => EmptyString
  | S n', String c r => String c (str_take n' r)
  | S _, EmptyString => EmptyString
  end.

(** The result is 0 exactly when the two strings agree up to case; its
    sign follows the first differing character. *)
Fixpoint os_strcasecmp (s1 s2 : string) : Z :=
  match s1, s2 with
  | EmptyString, EmptyString => 0
  | EmptyString, String c _ => 0 - tolower (char_code c)
  | String c _, EmptyString => tolower (char_code c)
  | String c1 r1, String c2 r2 =>
      if tolower (char_code c1) =? tolower (char_code c2)
      then os_strcasecmp r1 r2
      else tolower (char_code c1) - tolower (char_code c2)
  end.

Fixpoint os_strncasecmp (s1 s2 : string) (n : nat) : Z :=
  match n with
  | O => 0
  | S n' =>
      match s1, s2 with
      | EmptyString, EmptyString => 0
      | EmptyString, String c _ => 0 - tolower (char_code c)
      | String c _, EmptyString => tolower (char_code c)
      | String c1 r1, String c2 r2 =>
          if tolower (char_code c1) =? tolower (char_code c2)
          then os_strncasecmp r1 r2 n'
          else tolower (char_code c1) - tolower (char_code c2)
      end
  end.

(** Offset of the first occurrence of [needle] in [hay], if any. *)
Fixpoint os_strstr (hay needle : string) : option nat :=
  if String.prefix needle hay then Some O
  else match hay with
       | EmptyString => None
       | String _ r => S <$> os_strstr r needle
       end.

Fixpoint skip_space (s : string) : string :=
  match s with
  | String c r => if isspace (char_code c) then skip_space r else s
  | EmptyString => s
  end.

Fixpoint atoi_digits (acc : Z) (s : string) : Z :=
  match s with
  | String c r =>
      if isdigit (char_code c)
      then atoi_digits (acc * 10 + (char_code c - 48)) r
      else acc
  | EmptyString => acc
  end.

(** The number a string starts with: leading white space, an optional
    sign, then decimal digits. *)
Definition atoi_value (s : string) : Z :=
  match skip_space s with
  | String "-"%char r => - atoi_digits 0 r
  | String "+"%char r => atoi_digits 0 r
  | t => atoi_digits 0 t
  end.

(** Conversion to [int]: the value modulo 2^32, in the range of a signed
    32-bit integer. *)
Definition to_int (x : Z) : Z := (x + 2147483648) mod 4294967296 - 2147483648.

(** [strtol] has its result in the range of [long], 64 bits here: a number
    outside it comes back as [LONG_MIN] or [LONG_MAX]. *)
Definition strtol (s : string) : Z :=
  Z.max (-9223372036854775808) (Z.min 9223372036854775807 (atoi_value s)).

(** [atoi]: the result is an [int].  For a number in the range of [int] it
    is that number.  Beyond it ISO C leaves the result undefined; the model
    does what the C libraries do, [(int) strtol(s, NULL, 10)]. *)
Definition atoi (s : string) : Z := to_int (strtol s).

(** Contents of [dst] as a C string after [os_strncpy(dst, src, n)], for
    a destination array of at least [n] bytes.  When [src] is shorter than
    [n], its characters are stored and NULs after them up to [n] bytes:
    [dst] holds [src].  Otherwise the first [n] characters of [src] are
    stored and no NUL, so the old contents of [dst] from offset [n] on
    follow them.  When the old string ended before offset [n], what
    follows are bytes of the array past the old terminator, which the
    string the caller passed does not determine: the result of reading
    them is not defined here ([None]). *)
Definition os_strncpy (dst src : string) (n : Z) : option string :=
  if strlen src <? n then Some src
  else if n <=? strlen dst
       then Some (str_take (Z.to_nat n) src ++ str_drop (Z.to_nat n) dst)%string
       else None.

(** Contents of [dst] after [os_snprintf(dst, n, "COUNTRY %s", code)]:
    at most [n - 1] characters of the formatted text. *)
Definition os_snprintf_country (n : Z) (code : string) : string :=
  str_take (Z.to_nat (n - 1)) ("COUNTRY " ++ code)%string.

(** ** Buffers *)

Definition store (buf : list Z) (i : Z) (v : Z) : option (list Z) :=
  if (0 <=? i) && (i <? Z.of_nat (length buf))
  then Some (<[Z.to_nat i := v]> buf)
  else None.

(** [os_memcpy(&buf[off], src, |src|)]. *)
Fixpoint os_memcpy (buf : list Z) (off : Z) (src : list Z) : option (list Z) :=
  match src with
  | [] => Some buf
  | b :: r => buf' ← store buf off b; os_memcpy buf' (off + 1) r
  end.

(** The first [n] bytes of the array of a string literal (its characters
    and the terminating NUL); reading further is an over-read. *)
Definition literal_bytes (lit : list Z) (n : Z) : option (list Z) :=
  if (0 <=? n) && (n <=? Z.of_nat (length lit) + 1)
  then Some (take (Z.to_nat n) (lit ++ [0]))
  else None.

(** [strlen(buf)] on a buffer: offset of the first NUL; a buffer without
    NUL is read past its end. *)
Fixpoint buf_strlen (buf : list Z) : option Z :=
  match buf with
  | [] => None
  | b :: r => if b =? 0 then Some 0 else Z.succ <$> buf_strlen r
  end.

(** A buffer with its write cursor ([buf], [bp]); [putc] is [buf[bp++] = v]. *)
Definition cursor : Type := list Z * Z.

Definition putc (v : Z) (w : cursor) : option cursor :=
  buf' ← store w.1 w.2 v; Some (buf', w.2 + 1).

Definition put_bytes (src : list Z) (w : cursor) : option cursor :=
  buf' ← os_memcpy w.1 w.2 src; Some (buf', w.2 + Z.of_nat (length src)).

Section Shim.
Context `{M : wext_macros}.

(** ** wpa_driver_wext_set_cscan_params *)

(** The [for (; i > 0; i--)] loop that repeats the channel section. *)
Fixpoint cscan_repeat (i : nat) (channel buf_len : Z) (w : cursor) : option cursor :=
  match i with
  | O => Some w
  | S i' =>
      if w.2 + 12 >=? buf_len then Some w
      else
        w ← putc WEXT_CSCAN_CHANNEL_SECTION w;
        w ← putc channel w;
        cscan_repeat i' channel buf_len w
  end.

(** Parsing of the command parameters (lines 134-142): the command as
    left in place (cut at ",TIME=" when present), the passive dwell time
    and the channel, read at [cmd + 5].  The function is only called on a
    command that starts with CSCAN, so [cmd + 5] lies within it. *)
Definition cscan_parse (cmd : string) : string * Z * Z :=
  let '(cmd, pasv_dwell) :=
    match os_strstr cmd ",TIME=" with
    | Some k =>
        let pasv_dwell := to_u16 (atoi (str_drop (k + 6) cmd)) in
        (str_take k cmd,
         if pasv_dwell =? 0 then to_u16 WEXT_CSCAN_PASV_DWELL_TIME_DEF
         else pasv_dwell)
    | None => (cmd, to_u16 WEXT_CSCAN_PASV_DWELL_TIME_DEF)
    end in
  let channel := to_u8 (atoi (str_drop 5 cmd)) in
  (cmd, pasv_dwell, channel).

Definition wpa_driver_wext_set_cscan_params
    (buf : list Z) (buf_len : Z) (cmd : string) : option (list Z * string * Z) :=
  let '(cmd, pasv_dwell, channel) := cscan_parse cmd in
  let bp := WEXT_CSCAN_HEADER_SIZE in
  hdr ← literal_bytes WEXT_CSCAN_HEADER bp;
  buf ← os_memcpy buf 0 hdr;
  (* Set list of channels *)
  w ← putc WEXT_CSCAN_CHANNEL_SECTION (buf, bp);
  w ← putc channel w;
  '(w, pasv_dwell) ←
    (if negb (channel =? 0) then
       let i := (pasv_dwell - 1) ÷ WEXT_CSCAN_PASV_DWELL_TIME_DEF in
       w ← cscan_repeat (Z.to_nat i) channel buf_len w; Some (w, pasv_dwell)
     else
       Some (w, if pasv_dwell >? WEXT_CSCAN_PASV_DWELL_TIME_MAX
                then to_u16 WEXT_CSCAN_PASV_DWELL_TIME_MAX else pasv_dwell));
  (* Set passive dwell time *)
  w ← putc WEXT_CSCAN_PASV_DWELL_SECTION w;
  w ← (if negb (channel =? 0) then
         w ← putc (to_u8 WEXT_CSCAN_PASV_DWELL_TIME_DEF) w;
         putc (to_u8 (Z.shiftr WEXT_CSCAN_PASV_DWELL_TIME_DEF 8)) w
       else
         w ← putc (to_u8 pasv_dwell) w;
         putc (to_u8 (Z.shiftr pasv_dwell 8)) w);
  (* Set home dwell time *)
  w ← putc WEXT_CSCAN_HOME_DWELL_SECTION w;
  w ← putc (to_u8 WEXT_CSCAN_HOME_DWELL_TIME) w;
  w ← putc (to_u8 (Z.shiftr WEXT_CSCAN_HOME_DWELL_TIME 8)) w;
  (* Set cscan type *)
  w ← putc WEXT_CSCAN_TYPE_SECTION w;
  w ← putc WEXT_CSCAN_TYPE_PASSIVE w;
  Some (w.1, cmd, w.2).


(** ** wpa_driver_get_country_code *)

Definition wpa_driver_get_country_code (channels : Z) : string :=
  if channels =? WEXT_NUMBER_SCAN_CHANNELS_ETSI then "EU"
  else if channels =? WEXT_NUMBER_SCAN_CHANNELS_MKK1 then "JP"
  else "US".

(** ** Configured networks and the PNO-setup buffer *)

(** A [struct wpa_ssid] of the configuration list: the [disabled] flag and
    the SSID octets; [ssid_len] is the number of octets kept in [ssid]. *)
Record wpa_ssid : Type := { disabled : Z; ssid : list Z }.

Definition ssid_len (s : wpa_ssid) : Z := Z.of_nat (length (ssid s)).

Definition hex_digit (d : Z) : Z := if d <? 10 then 48 + d else 87 + d.

Fixpoint hex_aux (fuel : nat) (n : Z) (acc : list Z) : list Z :=
  match fuel with
  | O => acc
  | S f =>
      let acc' := hex_digit (n mod 16) :: acc in
      if n / 16 =? 0 then acc' else hex_aux f (n / 16) acc'
  end.

(** The characters printed by ["%x"] for an [int] argument. *)
Definition format_x (v : Z) : list Z := hex_aux 8 (to_u32 v) [].

(** [os_snprintf(&buf[off], size, "%x", v)]: at most [size - 1]
    characters, then a NUL. *)
Definition os_snprintf_x (buf : list Z) (off size v : Z) : option (list Z) :=
  if size <=? 0 then Some buf
  else os_memcpy buf off (take (Z.to_nat (size - 1)) (format_x v) ++ [0]).

(** The [while] loop over the configuration list (lines 226-239);
    [sizeof(buf)] is the capacity of the buffer under the cursor. *)
Fixpoint pno_ssid_loop (ssid_conf : list wpa_ssid) (i : Z) (w : cursor) : option cursor :=
  match ssid_conf with
  | [] => Some w
  | s :: next =>
      if negb (i <? WEXT_PNO_AMOUNT) then Some w
      else if w.2 + WEXT_PNO_SSID_HEADER_SIZE + IW_ESSID_MAX_SIZE
                + WEXT_PNO_NONSSID_SECTIONS_SIZE + 1 >=? Z.of_nat (length w.1)
      then Some w
      else if (disabled s =? 0) && (ssid_len s <=? IW_ESSID_MAX_SIZE) then
        w ← putc WEXT_PNO_SSID_SECTION w;
        w ← putc (ssid_len s) w;
        w ← put_bytes (ssid s) w;
        pno_ssid_loop next (i + 1) w
      else pno_ssid_loop next i w
  end.

(** The closing sections (lines 241-251): scan interval, repeat and
    maximum repeat, each a tag and a hexadecimal field. *)
Definition pno_closing (w : cursor) : option cursor :=
  w ← putc WEXT_PNO_SCAN_INTERVAL_SECTION w;
  buf ← os_snprintf_x w.1 w.2 (WEXT_PNO_SCAN_INTERVAL_LENGTH + 1) WEXT_PNO_SCAN_INTERVAL;
  w ← putc WEXT_PNO_REPEAT_SECTION (buf, w.2 + WEXT_PNO_SCAN_INTERVAL_LENGTH);
  buf ← os_snprintf_x w.1 w.2 (WEXT_PNO_REPEAT_LENGTH + 1) WEXT_PNO_REPEAT;
  w ← putc WEXT_PNO_MAX_REPEAT_SECTION (buf, w.2 + WEXT_PNO_REPEAT_LENGTH);
  buf ← os_snprintf_x w.1 w.2 (WEXT_PNO_MAX_REPEAT_LENGTH + 1) WEXT_PNO_MAX_REPEAT;
  Some (buf, w.2 + (WEXT_PNO_MAX_REPEAT_LENGTH + 1)).

(** Lines 219-251 of [wpa_driver_set_backgroundscan_params]: the buffer
    handed to the ioctl and its length [bp]. *)
Definition pno_setup_buffer (ssid_conf : list wpa_ssid) (buf : list Z) : option cursor :=
  let bp := WEXT_PNOSETUP_HEADER_SIZE in
  hdr ← literal_bytes WEXT_PNOSETUP_HEADER bp;
  buf ← os_memcpy buf 0 hdr;
  w ← putc WEXT_PNO_TLV_PREFIX (buf, bp);
  w ← putc WEXT_PNO_TLV_VERSION w;
  w ← putc WEXT_PNO_TLV_SUBVERSION w;
  w ← putc WEXT_PNO_TLV_RESERVED w;
  w ← pno_ssid_loop ssid_conf 0 w;
  pno_closing w.

(** ** Driver state, supplicant session and environment *)

(** The fields of [struct wpa_supplicant] the shim reads or has written. *)
Record wpa_supplicant : Type := {
  scanning : Z;
  wpa_state : Z;
  conf : option (list wpa_ssid)   (* [None]: [wpa_s->conf == NULL] *)
}.

Record wpa_driver_wext_data : Type := {
  driver_is_started : bool;
  bgscan_enabled : Z;
  errors : Z;
  scan_complete_events : Z;
  ctx : option wpa_supplicant     (* [None]: [drv->ctx == NULL] *)
}.

(** What the shim does to its collaborators, in order of occurrence. *)
Inductive event : Type :=
| DriverStateHanged                       (* wpa_msg(.., WPA_EVENT_DRIVER_STATE "HANGED") *)
| SetIfaceFlags (dev_up : Z)              (* linux_set_iface_flags *)
| IoctlPriv (data : list Z) (len : Z)     (* ioctl(.., SIOCSIWPRIV, &iwr) *)
| CancelScanTimeout                       (* eloop_cancel_timeout *)
| RegisterScanTimeout (secs : Z)          (* eloop_register_timeout *)
| NotifyScanning (flag : Z).              (* wpa_supplicant_notify_scanning *)

(** The kernel side: the status of a private ioctl and the bytes the
    driver leaves at the start of the payload; and the indeterminate
    initial contents of a local array. *)
Record environment : Type := {
  sys_ioctl : list Z -> Z -> Z * list Z;
  stack_byte : nat -> Z
}.

(** The payload after the ioctl: [reply] laid over the start of [buf],
    cut at the capacity of [buf]. *)
Definition kernel_write (buf reply : list Z) : list Z :=
  take (length buf) (reply ++ drop (length reply) buf).

(** A local [char] array of [size] bytes, as it is before any store. *)
Definition local_array (E : environment) (size : Z) : list Z :=
  map (stack_byte E) (seq 0 (Z.to_nat size)).

Definition set_errors (drv : wpa_driver_wext_data) (n : Z) : wpa_driver_wext_data :=
  {| driver_is_started := driver_is_started drv; bgscan_enabled := bgscan_enabled drv;
     errors := n; scan_complete_events := scan_complete_events drv; ctx := ctx drv |}.

Definition set_bgscan_enabled (drv : wpa_driver_wext_data) (n : Z) : wpa_driver_wext_data :=
  {| driver_is_started := driver_is_started drv; bgscan_enabled := n;
     errors := errors drv; scan_complete_events := scan_complete_events drv; ctx := ctx drv |}.

Definition set_driver_is_started (drv : wpa_driver_wext_data) (b : bool) : wpa_driver_wext_data :=
  {| driver_is_started := b; bgscan_enabled := bgscan_enabled drv;
     errors := errors drv; scan_complete_events := scan_complete_events drv; ctx := ctx drv |}.

Definition set_ctx (drv : wpa_driver_wext_data) (c : option wpa_supplicant) : wpa_driver_wext_data :=
  {| driver_is_started := driver_is_started drv; bgscan_enabled := bgscan_enabled drv;
     errors := errors drv; scan_complete_events := scan_complete_events drv; ctx := c |}.

(** The error-counter bookkeeping after the PNO-setup ioctl returned
    [ret] (lines 260-269). *)
Definition count_ioctl_result (ret : Z) (drv : wpa_driver_wext_data) (log : list event)
  : wpa_driver_wext_data * list event :=
  if ret <? 0 then
    let drv := set_errors drv (errors drv + 1) in
    if errors drv >? DRV_NUMBER_SEQUENTIAL_ERRORS
    then (set_errors drv 0, log ++ [DriverStateHanged])
    else (drv, log)
  else (set_errors drv 0, log).

(** ** wpa_driver_set_backgroundscan_params *)

Definition wpa_driver_set_backgroundscan_params
    (E : environment) (priv : option wpa_driver_wext_data) (log : list event)
  : option (option wpa_driver_wext_data * list event * Z) :=
  match priv with
  | None => Some (priv, log, -1)
  | Some drv =>
      match ctx drv with
      | None => Some (priv, log, -1)
      | Some wpa_s =>
          match conf wpa_s with
          | None => Some (priv, log, -1)
          | Some ssid_conf =>
              '(buf, bp) ← pno_setup_buffer ssid_conf (local_array E WEXT_PNO_MAX_COMMAND_SIZE);
              let len := to_u16 bp in
              let ret := (sys_ioctl E buf len).1 in
              let log := log ++ [IoctlPriv buf len] in
              let '(drv, log) := count_ioctl_result ret drv log in
              Some (Some drv, log, ret)
          end
      end
  end.

(** ** wpa_driver_wext_set_scan_timeout *)

Definition wpa_driver_wext_set_scan_timeout
    (drv : wpa_driver_wext_data) (log : list event) : list event :=
  let timeout := if negb (scan_complete_events drv =? 0) then 30 else 10 in
  log ++ [CancelScanTimeout; RegisterScanTimeout timeout].

(** Modelled from the spec: [wpa_supplicant_notify_scanning] is declared in
    [scan.h] and defined outside this file; by section 4.2 a successful
    CSCAN "marks the session as scanning", so the call stores the flag in
    the session and is recorded as a notification. *)
Definition wpa_supplicant_notify_scanning
    (wpa_s : wpa_supplicant) (flag : Z) (log : list event) : wpa_supplicant * list event :=
  ({| scanning := flag; wpa_state := wpa_state wpa_s; conf := conf wpa_s |},
   log ++ [NotifyScanning flag]).

(** ** wpa_driver_wext_driver_cmd *)

(** What a call leaves behind: the driver data, the command string (it is
    rewritten in place), the reply buffer, the collaborators' log and the
    returned status. *)
Record outcome : Type := {
  o_drv : wpa_driver_wext_data;
  o_cmd : string;
  o_buf : list Z;
  o_log : list event;
  o_ret : Z
}.

(** The command-specific rewriting (lines 288-312).  [inl]: the function
    returns at once; [inr]: it goes on to the ioctl with the driver data,
    the log, the command and [ret]. *)
Definition driver_cmd_rewrite
    (E : environment) (drv : wpa_driver_wext_data) (log : list event)
    (cmd : string) (buf : list Z) (ret : Z)
  : option (outcome + wpa_driver_wext_data * list event * string * Z) :=
  if os_strcasecmp cmd "RSSI-APPROX" =? 0 then
    cmd ← os_strncpy cmd RSSI_CMD MAX_DRV_CMD_SIZE;
    Some (inr (drv, log, cmd, ret))
  else if os_strncasecmp cmd "SCAN-CHANNELS" 13 =? 0 then
    let no_of_chan := atoi (str_drop 13 cmd) in
    Some (inr (drv, log,
               os_snprintf_country MAX_DRV_CMD_SIZE (wpa_driver_get_country_code no_of_chan),
               ret))
  else if os_strcasecmp cmd "STOP" =? 0 then
    Some (inr (drv, log ++ [SetIfaceFlags 0], cmd, ret))
  else if os_strcasecmp cmd "RELOAD" =? 0 then
    Some (inl {| o_drv := drv; o_cmd := cmd; o_buf := buf;
                 o_log := log ++ [DriverStateHanged]; o_ret := ret |})
  else if os_strcasecmp cmd "BGSCAN-START" =? 0 then
    '(priv, log, ret) ← wpa_driver_set_backgroundscan_params E (Some drv) log;
    let drv := default drv priv in
    if ret <? 0 then
      Some (inl {| o_drv := drv; o_cmd := cmd; o_buf := buf; o_log := log; o_ret := ret |})
    else
      cmd ← os_strncpy cmd "PNOFORCE 1" MAX_DRV_CMD_SIZE;
      Some (inr (set_bgscan_enabled drv 1, log, cmd, ret))
  else if os_strcasecmp cmd "BGSCAN-STOP" =? 0 then
    cmd ← os_strncpy cmd "PNOFORCE 0" MAX_DRV_CMD_SIZE;
    Some (inr (set_bgscan_enabled drv 0, log, cmd, ret))
  else Some (inr (drv, log, cmd, ret)).

(** Lines 331-370: what follows the private ioctl, whose status is
    [ioctl_ret].  The debug message of line 368 has [strlen(buf)] among
    its arguments, so the success branch reads the reply buffer up to its
    first NUL on every path. *)
Definition driver_cmd_finish
    (ioctl_ret : Z) (drv : wpa_driver_wext_data) (log : list event)
    (cmd : string) (buf : list Z) : option outcome :=
  let ret := ioctl_ret in
  (* All command fail. (Allways OK for USB Dongle) *)
  let ret := 0 in
  if ret <? 0 then
    let drv := set_errors drv (errors drv + 1) in
    let '(drv, log) :=
      if errors drv >? DRV_NUMBER_SEQUENTIAL_ERRORS
      then (set_errors drv 0, log ++ [DriverStateHanged])
      else (drv, log) in
    Some {| o_drv := drv; o_cmd := cmd; o_buf := buf; o_log := log; o_ret := ret |}
  else
    let drv := set_errors drv 0 in
    let ret := 0 in
    '(drv, log, ret) ←
      (if (os_strcasecmp cmd RSSI_CMD =? 0) || (os_strcasecmp cmd LINKSPEED_CMD =? 0)
          || (os_strcasecmp cmd "MACADDR" =? 0) || (os_strcasecmp cmd "GETPOWER" =? 0)
          || (os_strcasecmp cmd "GETBAND" =? 0) then
         ret ← buf_strlen buf;
         Some (drv, log, ret)
       else if os_strcasecmp cmd "START" =? 0 then
         Some (set_driver_is_started drv true, log ++ [SetIfaceFlags 1], ret)
       else if os_strcasecmp cmd "STOP" =? 0 then
         Some (set_driver_is_started drv false, log, ret)
       else if os_strncasecmp cmd "CSCAN" 5 =? 0 then
         let log := wpa_driver_wext_set_scan_timeout drv log in
         wpa_s ← ctx drv;
         let '(wpa_s, log) := wpa_supplicant_notify_scanning wpa_s 1 log in
         Some (set_ctx drv (Some wpa_s), log, ret)
       else
         Some (drv, log, ret));
    (* wpa_printf(MSG_DEBUG, "%s %s len = %d, %d", __func__, buf, ret, strlen(buf)) *)
    _ ← buf_strlen buf;
    Some {| o_drv := drv; o_cmd := cmd; o_buf := buf; o_log := log; o_ret := ret |}.

Definition wpa_driver_wext_driver_cmd
    (E : environment) (drv : wpa_driver_wext_data) (log : list event)
    (cmd : string) (buf : list Z) (buf_len : Z) : option outcome :=
  let ret := 0 in
  if negb (driver_is_started drv) && negb (os_strcasecmp cmd "START" =? 0) then
    Some {| o_drv := drv; o_cmd := cmd; o_buf := buf; o_log := log; o_ret := -1 |}
  else
    r ← driver_cmd_rewrite E drv log cmd buf ret;
    match r with
    | inl out => Some out
    | inr (drv, log, cmd, ret) =>
        buf ← os_memcpy buf 0 (bytes_of_string cmd ++ [0]);
        let data_length := to_u16 buf_len in
        r ← (if os_strncasecmp cmd "CSCAN" 5 =? 0 then
               wpa_s ← ctx drv;
               if (scanning wpa_s =? 0)
                  && ((wpa_state wpa_s <=? WPA_SCANNING) || (wpa_state wpa_s >=? WPA_COMPLETED))
               then
                 '(buf, cmd, n) ← wpa_driver_wext_set_cscan_params buf buf_len cmd;
                 Some (inr (buf, cmd, to_u16 n))
               else
                 Some (inl {| o_drv := drv; o_cmd := cmd; o_buf := buf;
                              o_log := log; o_ret := ret |})
             else Some (inr (buf, cmd, data_length)));
        match r with
        | inl out => Some out
        | inr (buf, cmd, data_length) =>
            let '(ioctl_ret, reply) := sys_ioctl E buf data_length in
            let log := log ++ [IoctlPriv buf data_length] in
            driver_cmd_finish ioctl_ret drv log cmd (kernel_write buf reply)
        end
    end.

End Shim.

(** ** A valuation of the macros

    The values the macros carry in the stock Android headers of this
    library ([driver_cmd_wext.h], [driver_cmd_common.h]) and of
    wpa_supplicant ([IW_ESSID_MAX_SIZE], [enum wpa_states]).  It serves as
    the concrete instance at which the general statements are exercised. *)
Definition android_macros : wext_macros := {|
  WEXT_NUMBER_SCAN_CHANNELS_ETSI := 13;
  WEXT_NUMBER_SCAN_CHANNELS_MKK1 := 14;
  WEXT_CSCAN_HEADER := [67; 83; 67; 65; 78; 32; 83; 1; 0; 0; 83; 0];
  WEXT_CSCAN_HEADER_SIZE := 12;
  WEXT_CSCAN_CHANNEL_SECTION := 67;
  WEXT_CSCAN_PASV_DWELL_SECTION := 80;
  WEXT_CSCAN_HOME_DWELL_SECTION := 72;
  WEXT_CSCAN_TYPE_SECTION := 84;
  WEXT_CSCAN_TYPE_PASSIVE := 1;
  WEXT_CSCAN_PASV_DWELL_TIME_DEF := 250;
  WEXT_CSCAN_PASV_DWELL_TIME_MAX := 3000;
  WEXT_CSCAN_HOME_DWELL_TIME := 130;
  WEXT_PNOSETUP_HEADER := [80; 78; 79; 83; 69; 84; 85; 80; 32];
  WEXT_PNOSETUP_HEADER_SIZE := 9;
  WEXT_PNO_TLV_PREFIX := 83;
  WEXT_PNO_TLV_VERSION := 49;
  WEXT_PNO_TLV_SUBVERSION := 50;
  WEXT_PNO_TLV_RESERVED := 48;
  WEXT_PNO_AMOUNT := 16;
  WEXT_PNO_SSID_SECTION := 83;
  WEXT_PNO_SSID_HEADER_SIZE := 2;
  WEXT_PNO_SCAN_INTERVAL_SECTION := 84;
  WEXT_PNO_SCAN_INTERVAL_LENGTH := 2;
  WEXT_PNO_SCAN_INTERVAL := 30;
  WEXT_PNO_REPEAT_SECTION := 82;
  WEXT_PNO_REPEAT_LENGTH := 1;
  WEXT_PNO_REPEAT := 4;
  WEXT_PNO_MAX_REPEAT_SECTION := 77;
  WEXT_PNO_MAX_REPEAT_LENGTH := 1;
  WEXT_PNO_MAX_REPEAT := 3;
  WEXT_PNO_NONSSID_SECTIONS_SIZE := 7;
  WEXT_PNO_MAX_COMMAND_SIZE := 565;
  IW_ESSID_MAX_SIZE := 32;
  MAX_DRV_CMD_SIZE := 248;
  DRV_NUMBER_SEQUENTIAL_ERRORS := 4;
  WPA_SCANNING := 3;
  WPA_COMPLETED := 9
|}.

(** ** The layout of a CSCAN buffer

    Section 3 of the specification describes the buffer as a fixed header
    followed by typed sections, each a one-byte tag and a fixed-size
    value.  [encode_cscan_sections] is that description; the theorems
    below compare the bytes stored by the C code with it. *)

Inductive cscan_section : Type :=
| ChannelSection (channel : Z)
| PasvDwellSection (dwell : Z)
| HomeDwellSection (dwell : Z)
| TypeSection (scan_type : Z).

Definition is_pasv_dwell (s : cscan_section) : bool :=
  match s with PasvDwellSection _ => true | _ => false end.
Definition is_home_dwell (s : cscan_section) : bool :=
  match s with HomeDwellSection _ => true | _ => false end.
Definition is_scan_type (s : cscan_section) : bool :=
  match s with TypeSection _ => true | _ => false end.
Definition is_channel (s : cscan_section) : bool :=
  match s with ChannelSection _ => true | _ => false end.

(** A 16-bit value read back from its low and high octet. *)
Definition le16 (lo hi : Z) : Z := lo + 256 * hi.

Section Layouts.
Context `{M : wext_macros}.

Definition encode_cscan_section (s : cscan_section) : list Z :=
  match s with
  | ChannelSection c => [WEXT_CSCAN_CHANNEL_SECTION; c]
  | PasvDwellSection t => [WEXT_CSCAN_PASV_DWELL_SECTION; to_u8 t; to_u8 (Z.shiftr t 8)]
  | HomeDwellSection t => [WEXT_CSCAN_HOME_DWELL_SECTION; to_u8 t; to_u8 (Z.shiftr t 8)]
  | TypeSection t => [WEXT_CSCAN_TYPE_SECTION; t]
  end.

Definition encode_cscan_sections (l : list cscan_section) : list Z :=
  concat (map encode_cscan_section l).

(** The sections of a CSCAN buffer with [n] channel sections. *)
Definition cscan_sections (n : nat) (channel pasv_dwell : Z) : list cscan_section :=
  replicate n (ChannelSection channel)
  ++ [PasvDwellSection pasv_dwell;
      HomeDwellSection WEXT_CSCAN_HOME_DWELL_TIME;
      TypeSection WEXT_CSCAN_TYPE_PASSIVE].

(** The bytes a CSCAN request is made of: the header, [S n] channel
    sections and the three closing sections. *)
Definition cscan_layout (n : nat) (channel pasv_dwell : Z) : list Z :=
  WEXT_CSCAN_HEADER ++ encode_cscan_sections (cscan_sections (S n) channel pasv_dwell).

(** Number of repetitions the capacity check of the loop lets through
    when the cursor is at [bp]. *)
Definition cscan_fit (bp buf_len : Z) : Z := Z.max 0 ((buf_len - bp - 11) / 2).

(** Number of extra channel sections for a non-zero channel. *)
Definition cscan_repetitions (pasv_dwell buf_len : Z) : Z :=
  Z.min ((pasv_dwell - 1) ÷ WEXT_CSCAN_PASV_DWELL_TIME_DEF)
        (cscan_fit (WEXT_CSCAN_HEADER_SIZE + 2) buf_len).

(** What the CSCAN encoder needs of the macros: the header size is the
    size of the header literal, and the dwell times are 16-bit values,
    the default one positive. *)
Definition cscan_macros_ok : Prop :=
  WEXT_CSCAN_HEADER_SIZE = Z.of_nat (length WEXT_CSCAN_HEADER)
  /\ 0 < WEXT_CSCAN_PASV_DWELL_TIME_DEF < 65536
  /\ 0 <= WEXT_CSCAN_PASV_DWELL_TIME_MAX < 65536.

End Layouts.

(** Number of sections of a list that satisfy [p]. *)
Definition count_sections (p : cscan_section -> bool) (l : list cscan_section) : nat :=
  length (List.filter p l).

(** ** The layout of a PNO-setup buffer *)

Section PnoLayouts.
Context `{M : wext_macros}.

(** An entry gets an SSID section when it is enabled and its SSID is not
    longer than [IW_ESSID_MAX_SIZE]. *)
Definition pno_eligible (s : wpa_ssid) : bool :=
  (disabled s =? 0) && (ssid_len s <=? IW_ESSID_MAX_SIZE).

(** An SSID section: tag, length octet, SSID octets. *)
Definition encode_pno_ssid (s : wpa_ssid) : list Z :=
  [WEXT_PNO_SSID_SECTION; ssid_len s] ++ ssid s.

Definition encode_pno_ssids (l : list wpa_ssid) : list Z :=
  concat (map encode_pno_ssid l).

(** Header and TLV preamble. *)
Definition pno_preamble : list Z :=
  WEXT_PNOSETUP_HEADER
  ++ [WEXT_PNO_TLV_PREFIX; WEXT_PNO_TLV_VERSION; WEXT_PNO_TLV_SUBVERSION;
      WEXT_PNO_TLV_RESERVED].

(** The capacity check of the loop with the cursor at [bp]: [true] when
    the loop is left. *)
Definition pno_no_room (bp : Z) : bool :=
  bp + WEXT_PNO_SSID_HEADER_SIZE + IW_ESSID_MAX_SIZE
     + WEXT_PNO_NONSSID_SECTIONS_SIZE + 1 >=? WEXT_PNO_MAX_COMMAND_SIZE.

(** The entries that get a section when the loop runs from counter [i]
    and cursor [bp]. *)
Fixpoint pno_selected (ssid_conf : list wpa_ssid) (i bp : Z) : list wpa_ssid :=
  match ssid_conf with
  | [] => []
  | s :: next =>
      if negb (i <? WEXT_PNO_AMOUNT) then []
      else if pno_no_room bp then []
      else if pno_eligible s
           then s :: pno_selected next (i + 1) (bp + 2 + ssid_len s)
           else pno_selected next i bp
  end.

(** What the PNO encoder needs of the macros: the header size is the size
    of the header literal; an SSID header takes the two octets the code
    stores; the size of the closing sections is the sum of their tags and
    fields; and the buffer holds at least header, preamble and closing
    sections. *)
Definition pno_macros_ok : Prop :=
  WEXT_PNOSETUP_HEADER_SIZE = Z.of_nat (length WEXT_PNOSETUP_HEADER)
  /\ 2 <= WEXT_PNO_SSID_HEADER_SIZE
  /\ 0 <= WEXT_PNO_SCAN_INTERVAL_LENGTH
  /\ 0 <= WEXT_PNO_REPEAT_LENGTH
  /\ 0 <= WEXT_PNO_MAX_REPEAT_LENGTH
  /\ WEXT_PNO_NONSSID_SECTIONS_SIZE
     = (1 + WEXT_PNO_SCAN_INTERVAL_LENGTH) + (1 + WEXT_PNO_REPEAT_LENGTH)
       + (1 + WEXT_PNO_MAX_REPEAT_LENGTH)
  /\ WEXT_PNOSETUP_HEADER_SIZE + 4 + WEXT_PNO_NONSSID_SECTIONS_SIZE + 1
     <= WEXT_PNO_MAX_COMMAND_SIZE.

(** Number of bytes the SSID sections of [sel] take. *)
Definition pno_ssids_size (sel : list wpa_ssid) : Z :=
  Z.of_nat (length (encode_pno_ssids sel)).

(** The statement "the encoder emits the SSID sections of exactly the
    first [WEXT_PNO_AMOUNT] eligible entries, in list order": on every
    buffer of [WEXT_PNO_MAX_COMMAND_SIZE] bytes the encoder returns, the
    bytes after header and preamble are those sections, and the closing
    sections follow at once. *)
Definition pno_emits_amount (ssid_conf : list wpa_ssid) : Prop :=
  forall buf : list Z,
    Z.of_nat (length buf) = WEXT_PNO_MAX_COMMAND_SIZE ->
    let body := pno_preamble
                ++ encode_pno_ssids (take (Z.to_nat WEXT_PNO_AMOUNT)
                                          (List.filter pno_eligible ssid_conf)) in
    exists (buf' : list Z) (bp : Z),
      pno_setup_buffer ssid_conf buf = Some (buf', bp)
      /\ take (length body) buf' = body
      /\ bp = Z.of_nat (length body) + WEXT_PNO_NONSSID_SECTIONS_SIZE + 1.

End PnoLayouts.

(** [buf'] has the capacity of [buf] and agrees with it below offset [n0]. *)
Definition same_below (n0 : Z) (buf buf' : list Z) : Prop :=
  length buf' = length buf
  /\ forall n : nat, Z.of_nat n <= n0 -> take n buf' = take n buf.

(** An enabled network with a 32-octet SSID. *)
Definition long_ssid_network : wpa_ssid := {| disabled := 0; ssid := replicate 32 65 |}.

(** ** Commands compared up to case

    [lower_prefix lit cmd]: [cmd] starts with the characters of [lit], up
    to case.  [lit_clash n a b]: the literals [a] and [b] differ, up to
    case, at a position below [n] that both reach. *)
Fixpoint lower_prefix (lit cmd : string) : Prop :=
  match lit with
  | EmptyString => True
  | String l lit' =>
      match cmd with
      | String c cmd' =>
          tolower (char_code c) = tolower (char_code l) /\ lower_prefix lit' cmd'
      | EmptyString => False
      end
  end.

Fixpoint lit_clash (n : nat) (a b : string) : bool :=
  match n with
  | O => false
  | S n' =>
      match a, b with
      | String x a', String y b' =>
          if tolower (char_code x) =? tolower (char_code y)
          then lit_clash n' a' b' else true
      | _, _ => false
      end
  end.

Fixpoint lit_nonzero (lit : string) : bool :=
  match lit with
  | EmptyString => true
  | String l lit' => negb (tolower (char_code l) =? 0) && lit_nonzero lit'
  end.

(** An enabled network with a 4-octet SSID. *)
Definition short_ssid_network : wpa_ssid := {| disabled := 0; ssid := [104; 111; 109; 101] |}.

(** No character of the literal is a comma. *)
Fixpoint lit_no_comma (lit : string) : bool :=
  match lit with
  | EmptyString => true
  | String l lit' => negb (tolower (char_code l) =? 44) && lit_no_comma lit'
  end.

(** The kernel leaves a NUL in a payload that had one. *)
Definition keeps_nul (E : environment) : Prop :=
  forall (b : list Z) (n : Z), In 0 b -> In 0 (kernel_write b (sys_ioctl E b n).2).

Definition is_hanged (e : event) : bool :=
  match e with DriverStateHanged => true | _ => false end.

(** Number of "driver hung" notifications in a log. *)
Definition hanged_count (log : list event) : nat := length (List.filter is_hanged log).

(** [n] calls of [wpa_driver_set_backgroundscan_params] in a row. *)
Fixpoint repeat_backgroundscan `{M : wext_macros}
    (n : nat) (E : environment) (priv : option wpa_driver_wext_data) (log : list event)
  : option (option wpa_driver_wext_data * list event) :=
  match n with
  | O => Some (priv, log)
  | S n' =>
      '(priv, log, _) ← wpa_driver_set_backgroundscan_params E priv log;
      repeat_backgroundscan n' E priv log
  end.

(** A kernel whose private ioctl always fails with -1 and leaves the
    payload alone; local arrays start out zeroed. *)
Definition failing_kernel : environment :=
  {| sys_ioctl := fun _ _ => (-1, []); stack_byte := fun _ => 0 |}.

(** A session that is idle in state [WPA_COMPLETED] of the Android
    valuation, with an empty network list, and a started driver attached
    to it whose error counter stands at [n]. *)
Definition idle_session : wpa_supplicant :=
  {| scanning := 0; wpa_state := 9; conf := Some [] |}.

Definition started_driver (n : Z) : wpa_driver_wext_data :=
  {| driver_is_started := true; bgscan_enabled := 0; errors := n;
     scan_complete_events := 1; ctx := Some idle_session |}.

(** A stopped driver attached to the idle session. *)
Definition stopped_driver : wpa_driver_wext_data :=
  {| driver_is_started := false; bgscan_enabled := 0; errors := 0;
     scan_complete_events := 1; ctx := Some idle_session |}.

(** A started driver whose session is scanning. *)
Definition scanning_session : wpa_supplicant :=
  {| scanning := 1; wpa_state := 9; conf := Some [] |}.

Definition scanning_driver : wpa_driver_wext_data :=
  {| driver_is_started := true; bgscan_enabled := 0; errors := 0;
     scan_complete_events := 1; ctx := Some scanning_session |}.

(** A cursor that has written [pre] and has [rest] ahead of it. *)
Definition at_cursor (pre rest : list Z) : cursor :=
  (pre ++ rest, Z.of_nat (length pre)).

(** ** wpa_driver_wext_combo_scan

    The scan request goes through the ioctl [SIOCSIWSCAN]; its argument is
    a [struct iwreq] that may point to a [struct iw_scan_req].  The macros
    of the system headers ([net/if.h], [net/if_arp.h], the wireless
    extensions) are a parameter, like those of the library headers. *)

Class linux_macros : Type := {
  IFNAMSIZ : Z;
  ARPHRD_ETHER : Z;
  ETH_ALEN : Z;
  SA_DATA_LEN : Z;            (* size of [sa_data] in [struct sockaddr] *)
  IW_SCAN_THIS_ESSID : Z;
  SIZEOF_IW_SCAN_REQ : Z      (* [sizeof(struct iw_scan_req)] *)
}.

(** The fields of [struct iw_scan_req] the function stores to; the others
    stay at the zero the [os_memset] puts there. *)
Record iw_scan_req : Type := {
  req_essid_len : Z;
  req_bssid_sa_family : Z;
  req_bssid_sa_data : list Z;
  req_essid : list Z
}.

Record iwreq : Type := {
  ifr_name : string;
  u_data_pointer : option iw_scan_req;   (* [None]: the pointer is NULL *)
  u_data_length : Z;
  u_data_flags : Z
}.

(** [params->ssids[0]]: the SSID octets ([None]: a NULL pointer) and the
    length given with them. *)
Record wpa_driver_scan_ssid : Type := {
  sc_ssid : option (list Z);
  sc_ssid_len : Z
}.

(** What a scan request does, in order of occurrence: the ioctl, and the
    calls to the event loop. *)
Inductive scan_effect : Type :=
| ScanIoctl (iwr : iwreq)                 (* ioctl(.., SIOCSIWSCAN, &iwr) *)
| ScanTimer (e : event).

(** Contents of [dst] after [os_strlcpy(dst, src, n)]: at most [n - 1]
    characters of [src]. *)
Definition os_strlcpy (src : string) (n : Z) : string :=
  str_take (Z.to_nat (n - 1)) src.

(** The first [n] bytes of an array; reading more than it holds is an
    over-read. *)
Definition read_bytes (src : list Z) (n : Z) : option (list Z) :=
  if (0 <=? n) && (n <=? Z.of_nat (length src))
  then Some (take (Z.to_nat n) src)
  else None.

Section ComboScan.
Context `{M : wext_macros} `{L : linux_macros}.

(** The request built for a scan of one SSID (lines 89-96). *)
Definition combo_scan_request (ssid : list Z) (ssid_len : Z) : option iw_scan_req :=
  sa_data ← os_memcpy (replicate (Z.to_nat SA_DATA_LEN) 0) 0
                      (replicate (Z.to_nat ETH_ALEN) 255);
  src ← read_bytes ssid ssid_len;
  essid ← os_memcpy (replicate (Z.to_nat IW_ESSID_MAX_SIZE) 0) 0 src;
  Some {| req_essid_len := to_u8 ssid_len;
          req_bssid_sa_family := ARPHRD_ETHER;
          req_bssid_sa_data := sa_data;
          req_essid := essid |}.

Definition wpa_driver_wext_combo_scan
    (ioctl_scan : iwreq -> Z) (ifname : string) (drv : wpa_driver_wext_data)
    (params : wpa_driver_scan_ssid) (log : list scan_effect)
  : option (list scan_effect * Z) :=
  let ret := 0 in
  let ssid := sc_ssid params in
  let ssid_len := sc_ssid_len params in
  if ssid_len >? IW_ESSID_MAX_SIZE then Some (log, -1)
  else
    let name := os_strlcpy ifname IFNAMSIZ in
    let wildcard :=
      {| ifr_name := name; u_data_pointer := None; u_data_length := 0; u_data_flags := 0 |} in
    iwr ← match ssid with
          | Some octets =>
              if negb (ssid_len =? 0) then
                req ← combo_scan_request octets ssid_len;
                Some {| ifr_name := name; u_data_pointer := Some req;
                        u_data_length := to_u16 SIZEOF_IW_SCAN_REQ;
                        u_data_flags := to_u16 IW_SCAN_THIS_ESSID |}
              else Some wildcard
          | None => Some wildcard
          end;
    let ret := if ioctl_scan iwr <? 0 then -1 else ret in
    let timeout := if negb (scan_complete_events drv =? 0) then 30 else 10 in
    Some (log ++ [ScanIoctl iwr; ScanTimer CancelScanTimeout;
                  ScanTimer (RegisterScanTimeout timeout)], ret).

(** What the request builder needs of the macros: the hardware address
    fits the [sa_data] array. *)
Definition linux_macros_ok : Prop :=
  0 <= ETH_ALEN <= SA_DATA_LEN /\ 0 <= IW_ESSID_MAX_SIZE.

End ComboScan.

(** The values of the Linux ABI, as a valuation of the system macros. *)
Definition linux_abi : linux_macros := {|
  IFNAMSIZ := 16;
  ARPHRD_ETHER := 1;
  ETH_ALEN := 6;
  SA_DATA_LEN := 14;
  IW_SCAN_THIS_ESSID := 2;
  SIZEOF_IW_SCAN_REQ := 316
|}.

(** Modelled from the spec: the event loop ([eloop.h]) is a collaborator
    outside the sources at hand.  By sections 4.3 and 5 a cancellation
    removes the scan timeouts scheduled before it for the driver context
    (none being a no-op), and a registration schedules a new one-shot
    timeout.  [pending_scan_timeouts log pending]: the timeouts pending
    after the events of [log], from those pending before. *)
Fixpoint pending_scan_timeouts (log : list event) (pending : list Z) : list Z :=
  match log with
  | [] => pending
  | CancelScanTimeout :: rest => pending_scan_timeouts rest []
  | RegisterScanTimeout secs :: rest => pending_scan_timeouts rest (pending ++ [secs])
  | _ :: rest => pending_scan_timeouts rest pending
  end.

(** The event-loop calls among the effects of scan requests. *)
Fixpoint scan_timer_events (effects : list scan_effect) : list event :=
  match effects with
  | [] => []
  | ScanTimer e :: rest => e :: scan_timer_events rest
  | ScanIoctl _ :: rest => scan_timer_events rest
  end.

(** The scan timeout the driver asks for. *)
Definition scan_timeout_secs (drv : wpa_driver_wext_data) : Z :=
  if negb (scan_complete_events drv =? 0) then 30 else 10.

(** A kernel whose private ioctl succeeds and answers with the text
    "rssi -60" and its NUL; local arrays start out zeroed. *)
Definition answering_kernel : environment :=
  {| sys_ioctl := fun _ _ => (0, bytes_of_string "rssi -60" ++ [0]);
     stack_byte := fun _ => 0 |}.

(** The commands whose return value is the length of the driver's reply
    (lines 350-354). *)
Definition query_commands : list string :=
  [RSSI_CMD; LINKSPEED_CMD; "MACADDR"; "GETPOWER"; "GETBAND"]%string.

(** What the stage after the ioctl does nothing special for: a command
    that is no query, not START, not STOP and no CSCAN request. *)
Definition plain_after_ioctl (c : string) : bool :=
  negb (existsb (fun q => os_strcasecmp c q =? 0) query_commands)
  && negb (os_strcasecmp c "START" =? 0)
  && negb (os_strcasecmp c "STOP" =? 0)
  && negb (os_strncasecmp c "CSCAN" 5 =? 0).

(** A command none of the tests of the dispatcher recognises. *)
Definition plain_command (cmd : string) : bool :=
  negb (os_strcasecmp cmd "RSSI-APPROX" =? 0)
  && negb (os_strncasecmp cmd "SCAN-CHANNELS" 13 =? 0)
  && negb (os_strcasecmp cmd "RELOAD" =? 0)
  && negb (os_strcasecmp cmd "BGSCAN-START" =? 0)
  && negb (os_strcasecmp cmd "BGSCAN-STOP" =? 0)
  && plain_after_ioctl cmd.

(** What a command leaves alone in the driver data and the session:
    [same_wiring drv drv'] holds when the two agree on
    [scan_complete_events] and are attached to sessions (or both to none)
    that agree on the supplicant state and on the configuration. *)
Definition same_wiring (drv drv' : wpa_driver_wext_data) : Prop :=
  scan_complete_events drv' = scan_complete_events drv
  /\ wpa_state <$> ctx drv' = wpa_state <$> ctx drv
  /\ conf <$> ctx drv' = conf <$> ctx drv.

(** ** The closing sections of a PNO-setup buffer *)

Section PnoClosingLayout.
Context `{M : wext_macros}.

(** A hexadecimal field of [len] characters for the value [v]. *)
Definition pno_hex_field (len v : Z) : list Z := take (Z.to_nat len) (format_x v).

(** Scan interval, repeat and maximum repeat, each a tag and its
    hexadecimal field, and the NUL that ends the request. *)
Definition pno_closing_layout : list Z :=
  [WEXT_PNO_SCAN_INTERVAL_SECTION]
  ++ pno_hex_field WEXT_PNO_SCAN_INTERVAL_LENGTH WEXT_PNO_SCAN_INTERVAL
  ++ [WEXT_PNO_REPEAT_SECTION]
  ++ pno_hex_field WEXT_PNO_REPEAT_LENGTH WEXT_PNO_REPEAT
  ++ [WEXT_PNO_MAX_REPEAT_SECTION]
  ++ pno_hex_field WEXT_PNO_MAX_REPEAT_LENGTH WEXT_PNO_MAX_REPEAT
  ++ [0].

(** Each value has at least as many hexadecimal digits as its field is
    long, so that the field is filled. *)
Definition pno_fields_filled : Prop :=
  WEXT_PNO_SCAN_INTERVAL_LENGTH <= Z.of_nat (length (format_x WEXT_PNO_SCAN_INTERVAL))
  /\ WEXT_PNO_REPEAT_LENGTH <= Z.of_nat (length (format_x WEXT_PNO_REPEAT))
  /\ WEXT_PNO_MAX_REPEAT_LENGTH <= Z.of_nat (length (format_x WEXT_PNO_MAX_REPEAT)).

End PnoClosingLayout.

(** A started driver that is attached to no session. *)
Definition detached_driver : wpa_driver_wext_data :=
  {| driver_is_started := true; bgscan_enabled := 0; errors := 0;
     scan_complete_events := 0; ctx := None |}.

(** * Properties *)

(** ** Sequential writes *)

Lemma store_at (pre rest : list Z) (x v : Z) :
  store (pre ++ x :: rest) (Z.of_nat (length pre)) v = Some (pre ++ v :: rest).
Proof.
  unfold store.
  rewrite length_app; cbn [length].
  destruct (Z.leb_spec 0 (Z.of_nat (length pre))); [|lia].
  destruct (Z.ltb_spec (Z.of_nat (length pre)) (Z.of_nat (length pre + S (length rest)))); [|lia].
  cbn. rewrite Nat2Z.id.
  f_equal. rewrite insert_app_r_alt by lia.
  now rewrite Nat.sub_diag.
Qed.

Lemma putc_at (pre rest : list Z) (v : Z) :
  (0 < length rest)%nat ->
  putc v (at_cursor pre rest) = Some (at_cursor (pre ++ [v]) (drop 1 rest)).
Proof.
  destruct rest as [|x rest]; cbn [length]; [lia|intros _].
  unfold putc, at_cursor; cbn [fst snd].
  rewrite store_at. cbn.
  rewrite drop_0, <- app_assoc, length_app. cbn [length app].
  do 2 f_equal. lia.
Qed.

Lemma os_memcpy_at (src pre rest : list Z) :
  (length src <= length rest)%nat ->
  os_memcpy (pre ++ rest) (Z.of_nat (length pre)) src
  = Some ((pre ++ src) ++ drop (length src) rest).
Proof.
  revert pre rest.
  induction src as [|b src IH]; intros pre rest Hlen; cbn [os_memcpy length] in *.
  - now rewrite drop_0, app_nil_r.
  - destruct rest as [|x rest]; cbn [length] in Hlen; [lia|].
    rewrite store_at. cbn [mbind option_bind].
    replace (pre ++ b :: rest) with ((pre ++ [b]) ++ rest) by now rewrite <- app_assoc.
    replace (Z.of_nat (length pre) + 1) with (Z.of_nat (length (pre ++ [b])))
      by (rewrite length_app; cbn [length]; lia).
    rewrite IH by lia.
    cbn [drop]. now rewrite <- !app_assoc.
Qed.

Lemma put_bytes_at (src pre rest : list Z) :
  (length src <= length rest)%nat ->
  put_bytes src (at_cursor pre rest)
  = Some (at_cursor (pre ++ src) (drop (length src) rest)).
Proof.
  intros Hlen. unfold put_bytes, at_cursor; cbn [fst snd].
  rewrite os_memcpy_at by exact Hlen. cbn.
  rewrite length_app. do 2 f_equal. lia.
Qed.

Lemma literal_bytes_exact (lit : list Z) :
  literal_bytes lit (Z.of_nat (length lit)) = Some lit.
Proof.
  unfold literal_bytes.
  destruct (Z.leb_spec 0 (Z.of_nat (length lit))); [|lia].
  destruct (Z.leb_spec (Z.of_nat (length lit)) (Z.of_nat (length lit) + 1)); [|lia].
  cbn. rewrite Nat2Z.id. f_equal.
  now rewrite take_app_length.
Qed.

Ltac step_putc :=
  rewrite putc_at by (rewrite ?length_drop; lia);
  cbn [mbind option_bind];
  rewrite ?drop_drop.

(** ** The CSCAN encoder *)

Section CscanProofs.
Context `{M : wext_macros}.

Lemma cscan_repeat_at (i : nat) (channel : Z) : forall pre rest : list Z,
  exists k : nat,
    Z.of_nat k = Z.min (Z.of_nat i)
                   (cscan_fit (Z.of_nat (length pre)) (Z.of_nat (length pre + length rest)))
    /\ cscan_repeat i channel (Z.of_nat (length pre + length rest)) (at_cursor pre rest)
       = Some (at_cursor (pre ++ encode_cscan_sections (replicate k (ChannelSection channel)))
                         (drop (2 * k) rest)).
Proof.
  induction i as [|i IH]; intros pre rest.
  - exists O. split.
    + unfold cscan_fit. lia.
    + cbn. now rewrite drop_0, app_nil_r.
  - cbn [cscan_repeat]. unfold at_cursor at 1. cbn [snd].
    destruct (Z.geb_spec (Z.of_nat (length pre) + 12) (Z.of_nat (length pre + length rest)))
      as [Hge|Hlt].
    + exists O. split.
      * unfold cscan_fit. Z.div_mod_to_equations. lia.
      * cbn. now rewrite drop_0, app_nil_r.
    + fold (at_cursor pre rest).
      rewrite putc_at by lia. cbn [mbind option_bind].
      rewrite putc_at by (rewrite length_drop; lia). cbn [mbind option_bind].
      destruct (IH ((pre ++ [WEXT_CSCAN_CHANNEL_SECTION]) ++ [channel]) (drop 1 (drop 1 rest)))
        as (k & Hk & Hrun).
      assert (Hlen : (length ((pre ++ [WEXT_CSCAN_CHANNEL_SECTION]) ++ [channel])
                      + length (drop 1 (drop 1 rest)) = length pre + length rest)%nat).
      { rewrite !length_app, !length_drop. cbn [length]. lia. }
      rewrite Hlen in Hrun, Hk.
      exists (S k). split.
      * rewrite !length_app in Hk. cbn [length] in Hk.
        unfold cscan_fit in *. Z.div_mod_to_equations. lia.
      * rewrite Hrun. f_equal.
        rewrite !drop_drop.
        replace (1 + (1 + 2 * k))%nat with (2 * S k)%nat by lia.
        unfold encode_cscan_sections.
        cbn [replicate map concat encode_cscan_section].
        now rewrite <- !app_assoc.
Qed.

Lemma cscan_layout_length (n : nat) (channel pasv_dwell : Z) :
  length (cscan_layout n channel pasv_dwell)
  = (length WEXT_CSCAN_HEADER + 2 * n + 10)%nat.
Proof.
  unfold cscan_layout, cscan_sections, encode_cscan_sections.
  rewrite length_app, map_app, concat_app, length_app.
  cbn [map concat encode_cscan_section length app replicate].
  assert (Hrep : forall k, length (concat (map encode_cscan_section
                     (replicate k (ChannelSection channel)))) = (2 * k)%nat).
  { induction k as [|k IHk]; cbn [replicate map concat encode_cscan_section length app]; lia. }
  rewrite Hrep. lia.
Qed.

(** The tail of the encoder, from the passive-dwell tag on. *)
Lemma cscan_tail_at (pre rest : list Z) (a b : Z) (cmd : string) :
  (8 <= length rest)%nat ->
  (w ← putc WEXT_CSCAN_PASV_DWELL_SECTION (at_cursor pre rest);
   w ← (w ← putc a w; putc b w);
   w ← putc WEXT_CSCAN_HOME_DWELL_SECTION w;
   w ← putc (to_u8 WEXT_CSCAN_HOME_DWELL_TIME) w;
   w ← putc (to_u8 (Z.shiftr WEXT_CSCAN_HOME_DWELL_TIME 8)) w;
   w ← putc WEXT_CSCAN_TYPE_SECTION w;
   w ← putc WEXT_CSCAN_TYPE_PASSIVE w;
   Some (w.1, cmd, w.2))
  = let tail := [WEXT_CSCAN_PASV_DWELL_SECTION; a; b;
                 WEXT_CSCAN_HOME_DWELL_SECTION; to_u8 WEXT_CSCAN_HOME_DWELL_TIME;
                 to_u8 (Z.shiftr WEXT_CSCAN_HOME_DWELL_TIME 8);
                 WEXT_CSCAN_TYPE_SECTION; WEXT_CSCAN_TYPE_PASSIVE] in
    Some ((pre ++ tail) ++ drop 8 rest, cmd, Z.of_nat (length (pre ++ tail))).
Proof.
  intros Hlen.
  do 8 step_putc.
  cbn [fst snd at_cursor Nat.add].
  unfold at_cursor. cbn [fst snd].
  now rewrite <- !app_assoc.
Qed.

Lemma set_cscan_params_layout (buf : list Z) (cmd cmd' : string) (dwell channel : Z) :
  cscan_macros_ok ->
  cscan_parse cmd = (cmd', dwell, channel) ->
  WEXT_CSCAN_HEADER_SIZE + 10 <= Z.of_nat (length buf) ->
  let n := if channel =? 0 then O
           else Z.to_nat (cscan_repetitions dwell (Z.of_nat (length buf))) in
  let d := if channel =? 0 then Z.min dwell WEXT_CSCAN_PASV_DWELL_TIME_MAX
           else WEXT_CSCAN_PASV_DWELL_TIME_DEF in
  let lay := cscan_layout n channel d in
  wpa_driver_wext_set_cscan_params buf (Z.of_nat (length buf)) cmd
  = Some (lay ++ drop (length lay) buf, cmd', Z.of_nat (length lay))
  /\ (length lay <= length buf)%nat.
Proof.
  intros (Hhdr & Hdef & Hmax) Hparse Hcap n d lay.
  assert (Hlay : length lay = (length WEXT_CSCAN_HEADER + 2 * n + 10)%nat)
    by apply cscan_layout_length.
  unfold wpa_driver_wext_set_cscan_params. rewrite Hparse.
  rewrite Hhdr in *. rewrite literal_bytes_exact. cbn [mbind option_bind].
  pose proof (os_memcpy_at WEXT_CSCAN_HEADER [] buf) as Hcpy.
  cbn [app length] in Hcpy. change (Z.of_nat 0) with 0 in Hcpy. rewrite Hcpy by lia.
  clear Hcpy. cbn [mbind option_bind].
  set (hdr := WEXT_CSCAN_HEADER) in *.
  change (hdr ++ drop (length hdr) buf, Z.of_nat (length hdr))
    with (at_cursor hdr (drop (length hdr) buf)).
  do 2 step_putc.
  destruct (Z.eqb_spec channel 0) as [Hz|Hnz]; cbn [negb mbind option_bind].
  - rewrite cscan_tail_at by (rewrite length_drop; lia).
    cbn zeta.
    assert (Hd : (if dwell >? WEXT_CSCAN_PASV_DWELL_TIME_MAX
                  then to_u16 WEXT_CSCAN_PASV_DWELL_TIME_MAX else dwell) = d).
    { subst d. destruct (Z.gtb_spec dwell WEXT_CSCAN_PASV_DWELL_TIME_MAX).
      - unfold to_u16. rewrite Z.mod_small by lia. lia.
      - lia. }
    rewrite Hd.
    match goal with |- Some (?l ++ _, _, _) = _ /\ _ => assert (Heq : l = lay) end.
    { subst lay n. unfold cscan_layout, cscan_sections, encode_cscan_sections. fold hdr.
      cbn [replicate map concat encode_cscan_section app].
      now rewrite <- !app_assoc. }
    rewrite Heq, drop_drop. subst n.
    clearbody lay hdr.
    split; [|lia].
    now replace (length hdr + 1 + 1 + 8)%nat with (length lay) by lia.
  - set (i := Z.to_nat ((dwell - 1) ÷ WEXT_CSCAN_PASV_DWELL_TIME_DEF)).
    set (pre := (hdr ++ [WEXT_CSCAN_CHANNEL_SECTION]) ++ [channel]).
    set (rest := drop (length hdr + 1 + 1) buf).
    destruct (cscan_repeat_at i channel pre rest) as (k & Hk & Hrun).
    assert (Hpre : length pre = (length hdr + 2)%nat).
    { subst pre. rewrite !length_app. cbn [length]. lia. }
    assert (Hrest : length rest = (length buf - length hdr - 2)%nat).
    { subst rest. rewrite !length_drop. lia. }
    replace (length pre + length rest)%nat with (length buf) in Hrun, Hk by lia.
    rewrite Hrun. cbn [mbind option_bind].
    assert (Hfit : 0 <= cscan_fit (Z.of_nat (length pre)) (Z.of_nat (length buf)))
      by (unfold cscan_fit; lia).
    assert (Hroom : (2 * k + 8 <= length rest)%nat).
    { unfold cscan_fit in Hk. Z.div_mod_to_equations. lia. }
    assert (Hkn : n = k).
    { subst n. unfold cscan_repetitions. rewrite Hhdr.
      replace (Z.of_nat (length hdr) + 2) with (Z.of_nat (length pre)) by lia.
      subst i. lia. }
    rewrite cscan_tail_at by (rewrite length_drop; lia).
    cbn zeta.
    match goal with |- Some (?l ++ _, _, _) = _ /\ _ => assert (Heq : l = lay) end.
    { subst lay. rewrite Hkn.
      unfold cscan_layout, cscan_sections, encode_cscan_sections. fold hdr.
      rewrite map_app, concat_app.
      cbn [replicate map concat encode_cscan_section app].
      subst pre d. now rewrite <- !app_assoc. }
    rewrite Heq. subst rest. rewrite !drop_drop.
    rewrite length_drop in Hroom.
    clearbody lay hdr.
    split; [|lia].
    now replace (length hdr + 1 + 1 + (2 * k + 8))%nat with (length lay) by lia.
Qed.

Lemma set_cscan_params_written (buf : list Z) (cmd cmd' : string) (dwell channel : Z) :
  cscan_macros_ok ->
  cscan_parse cmd = (cmd', dwell, channel) ->
  WEXT_CSCAN_HEADER_SIZE + 10 <= Z.of_nat (length buf) ->
  let n := if channel =? 0 then O
           else Z.to_nat (cscan_repetitions dwell (Z.of_nat (length buf))) in
  let d := if channel =? 0 then Z.min dwell WEXT_CSCAN_PASV_DWELL_TIME_MAX
           else WEXT_CSCAN_PASV_DWELL_TIME_DEF in
  exists (buf' : list Z) (bp : Z),
    wpa_driver_wext_set_cscan_params buf (Z.of_nat (length buf)) cmd = Some (buf', cmd', bp)
    /\ 0 <= bp <= Z.of_nat (length buf)
    /\ length buf' = length buf
    /\ take (Z.to_nat bp) buf' = cscan_layout n channel d
    /\ drop (Z.to_nat bp) buf' = drop (Z.to_nat bp) buf.
Proof.
  intros Hok Hparse Hcap n d.
  destruct (set_cscan_params_layout buf cmd cmd' dwell channel Hok Hparse Hcap) as [Hrun Hle].
  fold n d in Hrun, Hle.
  set (lay := cscan_layout n channel d) in *. clearbody lay.
  exists (lay ++ drop (length lay) buf), (Z.of_nat (length lay)).
  rewrite Nat2Z.id.
  split; [exact Hrun|].
  split; [lia|].
  split; [rewrite length_app, length_drop; lia|].
  split; [now rewrite take_app_length|].
  now rewrite drop_app_length.
Qed.

Lemma cscan_parse_dwell_range (cmd cmd' : string) (dwell channel : Z) :
  cscan_parse cmd = (cmd', dwell, channel) -> 0 <= dwell < 65536 /\ 0 <= channel < 256.
Proof.
  unfold cscan_parse.
  destruct (os_strstr cmd ",TIME=") as [k|].
  - destruct (Z.eqb_spec (to_u16 (atoi (str_drop (k + 6) cmd))) 0);
      intros [= _ <- <-]; unfold to_u16, to_u8; split; apply Z.mod_pos_bound; lia.
  - intros [= _ <- <-]; unfold to_u16, to_u8; split; apply Z.mod_pos_bound; lia.
Qed.

Lemma cscan_parse_dwell_pos (cmd cmd' : string) (dwell channel : Z) :
  cscan_macros_ok ->
  cscan_parse cmd = (cmd', dwell, channel) -> 0 < dwell.
Proof.
  intros (_ & Hdef & _). unfold cscan_parse.
  assert (Hd : to_u16 WEXT_CSCAN_PASV_DWELL_TIME_DEF = WEXT_CSCAN_PASV_DWELL_TIME_DEF)
    by (unfold to_u16; apply Z.mod_small; lia).
  rewrite Hd.
  destruct (os_strstr cmd ",TIME=") as [k|].
  - destruct (Z.eqb_spec (to_u16 (atoi (str_drop (k + 6) cmd))) 0) as [|Hne];
      intros [= _ <- _]; [lia|].
    unfold to_u16 in *.
    pose proof (Z.mod_pos_bound (atoi (str_drop (k + 6) cmd)) 65536). lia.
  - intros [= _ <- _]; lia.
Qed.

Lemma le16_bytes (v : Z) :
  0 <= v < 65536 ->
  le16 (to_u8 v) (to_u8 (Z.shiftr v 8)) = v
  /\ 0 <= to_u8 v < 256 /\ 0 <= to_u8 (Z.shiftr v 8) < 256.
Proof.
  intros Hv. unfold le16, to_u8.
  rewrite Z.shiftr_div_pow2 by lia. change (2 ^ 8) with 256.
  Z.div_mod_to_equations. lia.
Qed.

Lemma count_channel_sections (p : cscan_section -> bool) (n : nat) (c : Z) :
  p (ChannelSection c) = false ->
  List.filter p (replicate n (ChannelSection c)) = [].
Proof.
  intros Hp. induction n as [|n IH]; cbn [replicate List.filter]; [easy|].
  now rewrite Hp.
Qed.

Lemma cscan_sections_closing (n : nat) (channel d : Z) :
  count_sections is_pasv_dwell (cscan_sections n channel d) = 1%nat
  /\ count_sections is_home_dwell (cscan_sections n channel d) = 1%nat
  /\ count_sections is_scan_type (cscan_sections n channel d) = 1%nat
  /\ count_sections is_channel (cscan_sections n channel d) = n.
Proof.
  unfold count_sections, cscan_sections.
  rewrite !List.filter_app, !count_channel_sections by reflexivity.
  repeat split; try reflexivity.
  cbn [List.filter is_channel app]. rewrite app_nil_r.
  induction n as [|n IH]; cbn [replicate List.filter is_channel length]; congruence.
Qed.

(** C3: when the buffer holds the header and the minimum sections, the
    CSCAN encoder stores within the buffer: it returns a count [bp] not
    larger than the capacity, the first [bp] bytes of the buffer are the
    header followed by the encoded sections, the bytes from [bp] on are
    left as they were, and the sections are channel sections closed by
    exactly one passive-dwell, one home-dwell and one scan-type section.
    This holds for every command, hence for every channel C>0 and dwell
    time D>0. *)
Theorem cscan_params_within_capacity
    (buf : list Z) (cmd cmd' : string) (dwell channel : Z) :
  cscan_macros_ok ->
  cscan_parse cmd = (cmd', dwell, channel) ->
  WEXT_CSCAN_HEADER_SIZE + 10 <= Z.of_nat (length buf) ->
  exists (buf' : list Z) (bp : Z) (n : nat) (d : Z),
    wpa_driver_wext_set_cscan_params buf (Z.of_nat (length buf)) cmd = Some (buf', cmd', bp)
    /\ 0 <= bp <= Z.of_nat (length buf)
    /\ length buf' = length buf
    /\ take (Z.to_nat bp) buf'
       = WEXT_CSCAN_HEADER ++ encode_cscan_sections (cscan_sections (S n) channel d)
    /\ drop (Z.to_nat bp) buf' = drop (Z.to_nat bp) buf
    /\ cscan_sections (S n) channel d
       = replicate (S n) (ChannelSection channel)
         ++ [PasvDwellSection d; HomeDwellSection WEXT_CSCAN_HOME_DWELL_TIME;
             TypeSection WEXT_CSCAN_TYPE_PASSIVE]
    /\ count_sections is_pasv_dwell (cscan_sections (S n) channel d) = 1%nat
    /\ count_sections is_home_dwell (cscan_sections (S n) channel d) = 1%nat
    /\ count_sections is_scan_type (cscan_sections (S n) channel d) = 1%nat.
Proof.
  intros Hok Hparse Hcap.
  destruct (set_cscan_params_written buf cmd cmd' dwell channel Hok Hparse Hcap)
    as (buf' & bp & Hrun & Hbp & Hlen & Htake & Hdrop).
  eexists buf', bp, _, _.
  split; [exact Hrun|]. split; [exact Hbp|]. split; [exact Hlen|].
  split; [exact Htake|]. split; [exact Hdrop|]. split; [reflexivity|].
  destruct (cscan_sections_closing
              (S (if channel =? 0 then O
                  else Z.to_nat (cscan_repetitions dwell (Z.of_nat (length buf)))))
              channel
              (if channel =? 0 then Z.min dwell WEXT_CSCAN_PASV_DWELL_TIME_MAX
               else WEXT_CSCAN_PASV_DWELL_TIME_DEF)) as (H1 & H2 & H3 & _).
  auto.
Qed.

(** C9: for a command whose parsed channel is 0 the encoder writes the
    header, a single channel section with channel byte 0 and the three
    closing sections; the value of the passive-dwell section is the
    parsed dwell time clamped to [WEXT_CSCAN_PASV_DWELL_TIME_MAX], stored
    low octet first. *)
Theorem cscan_all_channels_clamps_dwell
    (buf : list Z) (cmd cmd' : string) (dwell : Z) :
  cscan_macros_ok ->
  cscan_parse cmd = (cmd', dwell, 0) ->
  WEXT_CSCAN_HEADER_SIZE + 10 <= Z.of_nat (length buf) ->
  exists (buf' : list Z) (bp lo hi : Z),
    wpa_driver_wext_set_cscan_params buf (Z.of_nat (length buf)) cmd = Some (buf', cmd', bp)
    /\ take (Z.to_nat bp) buf'
       = WEXT_CSCAN_HEADER
         ++ [WEXT_CSCAN_CHANNEL_SECTION; 0]
         ++ [WEXT_CSCAN_PASV_DWELL_SECTION; lo; hi]
         ++ encode_cscan_section (HomeDwellSection WEXT_CSCAN_HOME_DWELL_TIME)
         ++ encode_cscan_section (TypeSection WEXT_CSCAN_TYPE_PASSIVE)
    /\ 0 <= lo < 256 /\ 0 <= hi < 256
    /\ le16 lo hi = Z.min dwell WEXT_CSCAN_PASV_DWELL_TIME_MAX.
Proof.
  intros Hok Hparse Hcap.
  destruct (set_cscan_params_written buf cmd cmd' dwell 0 Hok Hparse Hcap)
    as (buf' & bp & Hrun & _ & _ & Htake & _).
  cbn [Z.eqb] in Htake.
  destruct (cscan_parse_dwell_range _ _ _ _ Hparse) as [Hd _].
  destruct Hok as (_ & _ & Hmax).
  set (v := Z.min dwell WEXT_CSCAN_PASV_DWELL_TIME_MAX) in *.
  destruct (le16_bytes v) as (Hle & Hlo & Hhi); [subst v; lia|].
  exists buf', bp, (to_u8 v), (to_u8 (Z.shiftr v 8)).
  split; [exact Hrun|].
  split; [|now repeat split].
  rewrite Htake. reflexivity.
Qed.

(** C10: for a command whose parsed channel is not 0 the passive-dwell
    section always carries [WEXT_CSCAN_PASV_DWELL_TIME_DEF], whatever the
    parsed dwell time; the dwell time only sets the number of channel
    sections, one plus [(dwell - 1) / WEXT_CSCAN_PASV_DWELL_TIME_DEF]
    repetitions, cut down to what the capacity check lets through. *)
Theorem cscan_channel_dwell_is_default
    (buf : list Z) (cmd cmd' : string) (dwell channel : Z) :
  cscan_macros_ok ->
  cscan_parse cmd = (cmd', dwell, channel) ->
  channel <> 0 ->
  WEXT_CSCAN_HEADER_SIZE + 10 <= Z.of_nat (length buf) ->
  let reps := Z.min ((dwell - 1) ÷ WEXT_CSCAN_PASV_DWELL_TIME_DEF)
                    (Z.max 0 ((Z.of_nat (length buf) - (WEXT_CSCAN_HEADER_SIZE + 2) - 11) / 2)) in
  exists (buf' : list Z) (bp lo hi : Z),
    wpa_driver_wext_set_cscan_params buf (Z.of_nat (length buf)) cmd = Some (buf', cmd', bp)
    /\ take (Z.to_nat bp) buf'
       = WEXT_CSCAN_HEADER
         ++ encode_cscan_sections (replicate (S (Z.to_nat reps)) (ChannelSection channel))
         ++ [WEXT_CSCAN_PASV_DWELL_SECTION; lo; hi]
         ++ encode_cscan_section (HomeDwellSection WEXT_CSCAN_HOME_DWELL_TIME)
         ++ encode_cscan_section (TypeSection WEXT_CSCAN_TYPE_PASSIVE)
    /\ 0 <= lo < 256 /\ 0 <= hi < 256
    /\ le16 lo hi = WEXT_CSCAN_PASV_DWELL_TIME_DEF
    /\ 0 <= reps.
Proof.
  intros Hok Hparse Hnz Hcap reps.
  destruct (set_cscan_params_written buf cmd cmd' dwell channel Hok Hparse Hcap)
    as (buf' & bp & Hrun & _ & _ & Htake & _).
  destruct (Z.eqb_spec channel 0) as [|_]; [contradiction|].
  pose proof (cscan_parse_dwell_pos _ _ _ _ Hok Hparse) as Hd.
  destruct Hok as (_ & Hdef & _).
  destruct (le16_bytes WEXT_CSCAN_PASV_DWELL_TIME_DEF) as (Hle & Hlo & Hhi); [lia|].
  exists buf', bp, (to_u8 WEXT_CSCAN_PASV_DWELL_TIME_DEF),
    (to_u8 (Z.shiftr WEXT_CSCAN_PASV_DWELL_TIME_DEF 8)).
  split; [exact Hrun|].
  split.
  - rewrite Htake. unfold cscan_layout, cscan_sections, encode_cscan_sections.
    rewrite map_app, concat_app. reflexivity.
  - repeat split; try tauto; try lia.
    subst reps. apply Z.min_glb; [|lia].
    apply Z.quot_pos; lia.
Qed.

End CscanProofs.

(** ** The PNO-setup encoder *)

Section PnoProofs.
Context `{M : wext_macros}.

Lemma pno_ssid_loop_at (ssid_conf : list wpa_ssid) : forall (i : Z) (pre rest : list Z),
  pno_macros_ok ->
  Z.of_nat (length pre + length rest) = WEXT_PNO_MAX_COMMAND_SIZE ->
  Z.of_nat (length pre) + WEXT_PNO_NONSSID_SECTIONS_SIZE + 1 <= WEXT_PNO_MAX_COMMAND_SIZE ->
  let out := encode_pno_ssids (pno_selected ssid_conf i (Z.of_nat (length pre))) in
  pno_ssid_loop ssid_conf i (at_cursor pre rest)
  = Some (at_cursor (pre ++ out) (drop (length out) rest))
  /\ Z.of_nat (length pre + length out) + WEXT_PNO_NONSSID_SECTIONS_SIZE + 1
     <= WEXT_PNO_MAX_COMMAND_SIZE.
Proof.
  induction ssid_conf as [|s next IH]; intros i pre rest Hok Hcap Hinv; cbn zeta.
  - cbn. rewrite drop_0, app_nil_r. split; [reflexivity|lia].
  - cbn [pno_ssid_loop pno_selected].
    destruct (negb (i <? WEXT_PNO_AMOUNT)).
    { cbn. rewrite drop_0, app_nil_r. split; [reflexivity|lia]. }
    unfold pno_no_room.
    change (length (at_cursor pre rest).1) with (length (pre ++ rest)).
    rewrite length_app, Hcap.
    change ((at_cursor pre rest).2) with (Z.of_nat (length pre)).
    match goal with |- context [?a >=? ?b] => destruct (Z.geb_spec a b) as [Hfull|Hroom] end.
    { cbn. rewrite drop_0, app_nil_r. split; [reflexivity|lia]. }
    unfold pno_eligible.
    destruct (Z.eqb_spec (disabled s) 0) as [Hen|Hdis]; cbn [andb]; [|now apply IH].
    destruct (Z.leb_spec (ssid_len s) IW_ESSID_MAX_SIZE) as [Hlen|Hlong]; [|now apply IH].
    destruct Hok as (Hh & Hshs & Hil & Hrl & Hml & Hnon & Hmin).
    assert (Hsl : ssid_len s = Z.of_nat (length (ssid s))) by reflexivity.
    do 2 step_putc.
    rewrite put_bytes_at by (rewrite length_drop; lia).
    cbn [mbind option_bind]. rewrite drop_drop.
    set (pre' := ((pre ++ [WEXT_PNO_SSID_SECTION]) ++ [ssid_len s]) ++ ssid s).
    set (rest' := drop (1 + 1 + length (ssid s)) rest).
    assert (Hpre' : length pre' = (length pre + 2 + length (ssid s))%nat).
    { subst pre'. rewrite !length_app. cbn [length]. lia. }
    assert (Hrest' : length rest' = (length rest - 2 - length (ssid s))%nat).
    { subst rest'. rewrite length_drop. lia. }
    destruct (IH (i + 1) pre' rest') as [Hrun Hpost].
    { repeat split; assumption. }
    { lia. }
    { lia. }
    replace (Z.of_nat (length pre) + 2 + ssid_len s) with (Z.of_nat (length pre')) by lia.
    set (sel := pno_selected next (i + 1) (Z.of_nat (length pre'))) in *.
    rewrite Hrun.
    unfold encode_pno_ssids in *. cbn [map concat].
    set (out := concat (map encode_pno_ssid sel)) in *.
    unfold encode_pno_ssid at 1 2.
    split.
    + subst pre' rest'. rewrite drop_drop. f_equal.
      replace (length (([WEXT_PNO_SSID_SECTION; ssid_len s] ++ ssid s) ++ out))
        with (1 + 1 + length (ssid s) + length out)%nat
        by (rewrite !length_app; cbn [length]; lia).
      now rewrite <- !app_assoc.
    + clearbody pre' rest' out sel.
      unfold encode_pno_ssid. rewrite !length_app. cbn [length]. lia.
Qed.

Lemma same_below_refl (n0 : Z) (buf : list Z) : same_below n0 buf buf.
Proof. now split. Qed.

Lemma same_below_trans (n0 n1 n2 : Z) (b0 b1 b2 : list Z) :
  n0 <= n1 -> n0 <= n2 ->
  same_below n1 b0 b1 -> same_below n2 b1 b2 -> same_below n0 b0 b2.
Proof.
  intros Hle1 Hle2 [Hl1 Ht1] [Hl2 Ht2]. split; [congruence|].
  intros n Hn. rewrite Ht2 by lia. apply Ht1. lia.
Qed.

Lemma store_in_range (buf : list Z) (i v : Z) :
  0 <= i < Z.of_nat (length buf) ->
  exists buf', store buf i v = Some buf' /\ same_below i buf buf'.
Proof.
  intros Hi. unfold store.
  destruct (Z.leb_spec 0 i); [|lia].
  destruct (Z.ltb_spec i (Z.of_nat (length buf))); [|lia].
  eexists. split; [reflexivity|]. split.
  - apply length_insert.
  - intros n Hn. apply take_insert_ge. lia.
Qed.

Lemma os_memcpy_in_range (src : list Z) : forall (buf : list Z) (off : Z),
  0 <= off -> off + Z.of_nat (length src) <= Z.of_nat (length buf) ->
  exists buf', os_memcpy buf off src = Some buf' /\ same_below off buf buf'.
Proof.
  induction src as [|b src IH]; intros buf off Hoff Hfit; cbn [os_memcpy length] in *.
  - exists buf. split; [reflexivity|apply same_below_refl].
  - destruct (store_in_range buf off b) as (b1 & Hst & Hsb); [lia|].
    rewrite Hst. cbn [mbind option_bind].
    destruct (IH b1 (off + 1)) as (b2 & Hcp & Hsb2); [lia|destruct Hsb; lia|].
    exists b2. split; [exact Hcp|].
    apply (same_below_trans off off (off + 1) buf b1 b2); [lia|lia|exact Hsb|exact Hsb2].
Qed.

Lemma os_snprintf_x_in_range (buf : list Z) (off size v : Z) :
  0 <= off -> off + size <= Z.of_nat (length buf) ->
  exists buf', os_snprintf_x buf off size v = Some buf' /\ same_below off buf buf'.
Proof.
  intros Hoff Hfit. unfold os_snprintf_x.
  destruct (Z.leb_spec size 0).
  - exists buf. split; [reflexivity|apply same_below_refl].
  - apply os_memcpy_in_range; [lia|].
    rewrite length_app, length_take. cbn [length]. lia.
Qed.

Lemma putc_in_range (w : cursor) (v : Z) :
  0 <= w.2 < Z.of_nat (length w.1) ->
  exists buf', putc v w = Some (buf', w.2 + 1) /\ same_below w.2 w.1 buf'.
Proof.
  intros Hw. unfold putc.
  destruct (store_in_range w.1 w.2 v Hw) as (b & Hst & Hsb).
  rewrite Hst. now exists b.
Qed.

Lemma pno_closing_in_range (w : cursor) :
  pno_macros_ok ->
  0 <= w.2 ->
  w.2 + WEXT_PNO_NONSSID_SECTIONS_SIZE + 1 <= Z.of_nat (length w.1) ->
  exists buf',
    pno_closing w = Some (buf', w.2 + WEXT_PNO_NONSSID_SECTIONS_SIZE + 1)
    /\ same_below w.2 w.1 buf'.
Proof.
  intros (Hh & Hshs & Hil & Hrl & Hml & Hnon & Hmin) Hbp Hfit.
  destruct w as [b0 bp]. cbn [fst snd] in *.
  unfold pno_closing.
  destruct (putc_in_range (b0, bp) WEXT_PNO_SCAN_INTERVAL_SECTION) as (b1 & -> & S1);
    [cbn [fst snd]; lia|]. cbn [mbind option_bind fst snd] in *.
  assert (L1 : length b1 = length b0) by apply S1.
  destruct (os_snprintf_x_in_range b1 (bp + 1) (WEXT_PNO_SCAN_INTERVAL_LENGTH + 1)
              WEXT_PNO_SCAN_INTERVAL) as (b2 & -> & S2); [lia|lia|].
  cbn [mbind option_bind fst snd].
  assert (L2 : length b2 = length b0) by (destruct S2; congruence).
  destruct (putc_in_range (b2, bp + 1 + WEXT_PNO_SCAN_INTERVAL_LENGTH) WEXT_PNO_REPEAT_SECTION)
    as (b3 & -> & S3); [cbn [fst snd]; lia|]. cbn [mbind option_bind fst snd] in *.
  assert (L3 : length b3 = length b0) by (destruct S3; congruence).
  destruct (os_snprintf_x_in_range b3 (bp + 1 + WEXT_PNO_SCAN_INTERVAL_LENGTH + 1)
              (WEXT_PNO_REPEAT_LENGTH + 1) WEXT_PNO_REPEAT) as (b4 & -> & S4); [lia|lia|].
  cbn [mbind option_bind fst snd].
  assert (L4 : length b4 = length b0) by (destruct S4; congruence).
  destruct (putc_in_range (b4, bp + 1 + WEXT_PNO_SCAN_INTERVAL_LENGTH + 1 + WEXT_PNO_REPEAT_LENGTH)
              WEXT_PNO_MAX_REPEAT_SECTION) as (b5 & -> & S5); [cbn [fst snd]; lia|].
  cbn [mbind option_bind fst snd] in *.
  assert (L5 : length b5 = length b0) by (destruct S5; congruence).
  destruct (os_snprintf_x_in_range b5
              (bp + 1 + WEXT_PNO_SCAN_INTERVAL_LENGTH + 1 + WEXT_PNO_REPEAT_LENGTH + 1)
              (WEXT_PNO_MAX_REPEAT_LENGTH + 1) WEXT_PNO_MAX_REPEAT) as (b6 & -> & S6); [lia|lia|].
  cbn [mbind option_bind fst snd].
  exists b6. split.
  - do 2 f_equal. lia.
  - assert (T2 : same_below bp b0 b2)
      by (eapply (same_below_trans bp bp); [| |exact S1|exact S2]; lia).
    assert (T3 : same_below bp b0 b3)
      by (eapply (same_below_trans bp bp); [| |exact T2|exact S3]; lia).
    assert (T4 : same_below bp b0 b4)
      by (eapply (same_below_trans bp bp); [| |exact T3|exact S4]; lia).
    assert (T5 : same_below bp b0 b5)
      by (eapply (same_below_trans bp bp); [| |exact T4|exact S5]; lia).
    eapply (same_below_trans bp bp); [| |exact T5|exact S6]; lia.
Qed.

(** The run of the PNO encoder on a buffer of [WEXT_PNO_MAX_COMMAND_SIZE]
    bytes: header, preamble and the sections of the selected entries,
    then the closing sections. *)
Lemma pno_setup_buffer_run (ssid_conf : list wpa_ssid) (buf : list Z) :
  pno_macros_ok ->
  Z.of_nat (length buf) = WEXT_PNO_MAX_COMMAND_SIZE ->
  let body := pno_preamble
              ++ encode_pno_ssids (pno_selected ssid_conf 0 (WEXT_PNOSETUP_HEADER_SIZE + 4)) in
  exists buf',
    pno_setup_buffer ssid_conf buf
    = Some (buf', Z.of_nat (length body) + WEXT_PNO_NONSSID_SECTIONS_SIZE + 1)
    /\ length buf' = length buf
    /\ take (length body) buf' = body
    /\ Z.of_nat (length body) + WEXT_PNO_NONSSID_SECTIONS_SIZE + 1 <= WEXT_PNO_MAX_COMMAND_SIZE.
Proof.
  intros Hok Hcap body.
  pose proof Hok as (Hh & Hshs & Hil & Hrl & Hml & Hnon & Hmin).
  unfold pno_setup_buffer.
  rewrite Hh in *. rewrite literal_bytes_exact. cbn [mbind option_bind].
  pose proof (os_memcpy_at WEXT_PNOSETUP_HEADER [] buf) as Hcpy.
  cbn [app length] in Hcpy. change (Z.of_nat 0) with 0 in Hcpy. rewrite Hcpy by lia.
  clear Hcpy. cbn [mbind option_bind].
  set (hdr := WEXT_PNOSETUP_HEADER) in *.
  change (hdr ++ drop (length hdr) buf, Z.of_nat (length hdr))
    with (at_cursor hdr (drop (length hdr) buf)).
  do 4 step_putc.
  set (pre := (((hdr ++ [WEXT_PNO_TLV_PREFIX]) ++ [WEXT_PNO_TLV_VERSION])
               ++ [WEXT_PNO_TLV_SUBVERSION]) ++ [WEXT_PNO_TLV_RESERVED]).
  set (rest := drop (length hdr + 1 + 1 + 1 + 1) buf).
  assert (Hpre : length pre = (length hdr + 4)%nat).
  { subst pre. rewrite !length_app. cbn [length]. lia. }
  assert (Hrest : length rest = (length buf - length hdr - 4)%nat).
  { subst rest. rewrite length_drop. lia. }
  assert (Epre : pre = pno_preamble).
  { subst pre. unfold pno_preamble. fold hdr. now rewrite <- !app_assoc. }
  destruct (pno_ssid_loop_at ssid_conf 0 pre rest Hok) as [Hloop Hpost]; [lia|lia|].
  replace (Z.of_nat (length pre)) with (Z.of_nat (length hdr) + 4) in Hloop, Hpost by lia.
  set (out := encode_pno_ssids (pno_selected ssid_conf 0 (Z.of_nat (length hdr) + 4))) in *.
  rewrite Hloop. cbn [mbind option_bind].
  destruct (pno_closing_in_range (at_cursor (pre ++ out) (drop (length out) rest)) Hok)
    as (b & Hclose & Hlen & Htake).
  { cbn [at_cursor snd]. lia. }
  { cbn [at_cursor fst snd]. rewrite !length_app, length_drop. lia. }
  cbn [at_cursor fst snd] in Hclose, Hlen, Htake.
  assert (Ebody : body = pre ++ out) by (subst body out; now rewrite Epre, Hh).
  clearbody body out pre rest hdr.
  exists b. split; [|split; [|split]].
  - rewrite Hclose. do 2 f_equal. rewrite Ebody. lia.
  - rewrite Hlen, !length_app, length_drop. lia.
  - rewrite Ebody. rewrite Htake by lia.
    now rewrite take_app_length.
  - rewrite Ebody, length_app. lia.
Qed.

Lemma pno_no_room_mono (x y : Z) :
  x <= y -> pno_no_room y = false -> pno_no_room x = false.
Proof.
  unfold pno_no_room. intros Hxy.
  destruct (Z.geb_spec (y + WEXT_PNO_SSID_HEADER_SIZE + IW_ESSID_MAX_SIZE
                        + WEXT_PNO_NONSSID_SECTIONS_SIZE + 1) WEXT_PNO_MAX_COMMAND_SIZE);
    [discriminate|intros _].
  destruct (Z.geb_spec (x + WEXT_PNO_SSID_HEADER_SIZE + IW_ESSID_MAX_SIZE
                        + WEXT_PNO_NONSSID_SECTIONS_SIZE + 1) WEXT_PNO_MAX_COMMAND_SIZE);
    [lia|reflexivity].
Qed.

Lemma pno_ssids_size_cons (s : wpa_ssid) (sel : list wpa_ssid) :
  pno_ssids_size (s :: sel) = 2 + ssid_len s + pno_ssids_size sel.
Proof.
  unfold pno_ssids_size, encode_pno_ssids, encode_pno_ssid, ssid_len.
  cbn [map concat]. rewrite !length_app. cbn [length]. lia.
Qed.

Lemma pno_ssids_size_nonneg (sel : list wpa_ssid) : 0 <= pno_ssids_size sel.
Proof. unfold pno_ssids_size. lia. Qed.

(** The selected entries are the first eligible ones, in list order, and
    there are at most [WEXT_PNO_AMOUNT - i] of them. *)
Lemma pno_selected_prefix (ssid_conf : list wpa_ssid) : forall i bp : Z,
  exists k : nat,
    pno_selected ssid_conf i bp = take k (List.filter pno_eligible ssid_conf)
    /\ Z.of_nat k <= Z.max 0 (WEXT_PNO_AMOUNT - i).
Proof.
  induction ssid_conf as [|s next IH]; intros i bp; cbn [pno_selected List.filter].
  - exists O. split; [reflexivity|lia].
  - destruct (Z.ltb_spec i WEXT_PNO_AMOUNT); cbn [negb].
    2:{ exists O. split; [reflexivity|lia]. }
    destruct (pno_no_room bp).
    { exists O. split; [reflexivity|lia]. }
    destruct (pno_eligible s).
    + destruct (IH (i + 1) (bp + 2 + ssid_len s)) as (k & Hk & Hle).
      exists (S k). cbn [take]. split; [now rewrite Hk|lia].
    + destruct (IH i bp) as (k & Hk & Hle). exists k. split; [exact Hk|lia].
Qed.

(** When the capacity check still passes after [n - 1] sections, the
    first [n = WEXT_PNO_AMOUNT - i] eligible entries are all selected. *)
Lemma pno_selected_full (ssid_conf : list wpa_ssid) : forall (n : nat) (i bp : Z),
  Z.of_nat n = Z.max 0 (WEXT_PNO_AMOUNT - i) ->
  (n = O \/ pno_no_room (bp + pno_ssids_size (take (n - 1) (List.filter pno_eligible ssid_conf)))
            = false) ->
  pno_selected ssid_conf i bp = take n (List.filter pno_eligible ssid_conf).
Proof.
  induction ssid_conf as [|s next IH]; intros n i bp Hn Hroom; cbn [pno_selected List.filter].
  - now rewrite take_nil.
  - destruct (Z.ltb_spec i WEXT_PNO_AMOUNT); cbn [negb].
    2:{ replace n with O by lia. reflexivity. }
    destruct Hroom as [->|Hroom]; [lia|].
    destruct n as [|n]; [lia|].
    cbn [Nat.sub] in Hroom. rewrite Nat.sub_0_r in Hroom.
    assert (Hbp : pno_no_room bp = false).
    { eapply pno_no_room_mono; [|exact Hroom].
      match goal with |- _ <= _ + pno_ssids_size ?l => pose proof (pno_ssids_size_nonneg l) end.
      lia. }
    rewrite Hbp.
    cbn [List.filter] in Hroom.
    destruct (pno_eligible s).
    + cbn [take]. f_equal.
      apply IH; [lia|].
      destruct n as [|n]; [now left|right].
      cbn [take] in Hroom. rewrite pno_ssids_size_cons in Hroom.
      cbn [Nat.sub]. rewrite Nat.sub_0_r.
      now replace (bp + 2 + ssid_len s + pno_ssids_size (take n (List.filter pno_eligible next)))
        with (bp + (2 + ssid_len s + pno_ssids_size (take n (List.filter pno_eligible next))))
        by lia.
    + apply IH; [lia|].
      right. cbn [Nat.sub]. now rewrite Nat.sub_0_r.
Qed.

(** A section is only added at a cursor at which the capacity check
    passes. *)
Lemma pno_selected_room (ssid_conf : list wpa_ssid) : forall (i bp : Z) (j : nat),
  (j < length (pno_selected ssid_conf i bp))%nat ->
  pno_no_room (bp + pno_ssids_size (take j (pno_selected ssid_conf i bp))) = false.
Proof.
  induction ssid_conf as [|s next IH]; intros i bp j; cbn [pno_selected].
  - cbn [length]. lia.
  - destruct (negb (i <? WEXT_PNO_AMOUNT)); [cbn [length]; lia|].
    destruct (pno_no_room bp) eqn:Hroom; [cbn [length]; lia|].
    destruct (pno_eligible s); [|apply IH].
    destruct j as [|j]; cbn [length take]; intros Hj.
    + unfold pno_ssids_size. cbn. now rewrite Z.add_0_r.
    + rewrite pno_ssids_size_cons.
      replace (bp + (2 + ssid_len s + pno_ssids_size
                 (take j (pno_selected next (i + 1) (bp + 2 + ssid_len s)))))
        with (bp + 2 + ssid_len s + pno_ssids_size
                 (take j (pno_selected next (i + 1) (bp + 2 + ssid_len s)))) by lia.
      apply IH. lia.
Qed.

(** The loop is left at the first of: the end of the eligible entries,
    the counter at [WEXT_PNO_AMOUNT], a cursor at which the capacity
    check fails. *)
Lemma pno_selected_exact (ssid_conf : list wpa_ssid) : forall i bp : Z,
  exists k : nat,
    pno_selected ssid_conf i bp = take k (List.filter pno_eligible ssid_conf)
    /\ Z.of_nat k <= Z.max 0 (WEXT_PNO_AMOUNT - i)
    /\ (k <= length (List.filter pno_eligible ssid_conf))%nat
    /\ (forall j : nat, (j < k)%nat ->
          pno_no_room (bp + pno_ssids_size (take j (List.filter pno_eligible ssid_conf)))
          = false)
    /\ ((k < length (List.filter pno_eligible ssid_conf))%nat ->
        i + Z.of_nat k < WEXT_PNO_AMOUNT ->
        pno_no_room (bp + pno_ssids_size (take k (List.filter pno_eligible ssid_conf)))
        = true).
Proof.
  assert (Hnil : forall bp : Z, bp + pno_ssids_size [] = bp)
    by (intros bp; unfold pno_ssids_size; cbn; lia).
  induction ssid_conf as [|s next IH]; intros i bp; cbn [pno_selected List.filter].
  - exists O. cbn [length take]. repeat split; lia.
  - destruct (Z.ltb_spec i WEXT_PNO_AMOUNT); cbn [negb].
    2:{ exists O. cbn [take]. repeat split; lia. }
    destruct (pno_no_room bp) eqn:Hbp.
    { exists O. cbn [take]. split; [reflexivity|]. split; [lia|]. split; [lia|].
      split; [intros j Hj; lia|]. intros _ _. now rewrite Hnil. }
    destruct (pno_eligible s).
    + destruct (IH (i + 1) (bp + 2 + ssid_len s)) as (k & Hk & Hle & Hlen & Hroom & Hstop).
      exists (S k). cbn [take length]. split; [now rewrite Hk|]. split; [lia|].
      split; [lia|]. split.
      * intros [|j] Hj; cbn [take]; [now rewrite Hnil|].
        rewrite pno_ssids_size_cons.
        replace (bp + (2 + ssid_len s
                       + pno_ssids_size (take j (List.filter pno_eligible next))))
          with (bp + 2 + ssid_len s
                + pno_ssids_size (take j (List.filter pno_eligible next))) by lia.
        apply Hroom. lia.
      * intros Hmore Hcount. rewrite pno_ssids_size_cons.
        replace (bp + (2 + ssid_len s
                       + pno_ssids_size (take k (List.filter pno_eligible next))))
          with (bp + 2 + ssid_len s
                + pno_ssids_size (take k (List.filter pno_eligible next))) by lia.
        apply Hstop; lia.
    + destruct (IH i bp) as (k & Hk & Hle & Hlen & Hroom & Hstop).
      exists k. split; [exact Hk|]. split; [lia|]. split; [exact Hlen|].
      split; [exact Hroom|exact Hstop].
Qed.

Lemma pno_preamble_length :
  pno_macros_ok -> Z.of_nat (length pno_preamble) = WEXT_PNOSETUP_HEADER_SIZE + 4.
Proof.
  intros (Hh & _). unfold pno_preamble. rewrite length_app. cbn [length]. lia.
Qed.

(** C4: on its buffer of [WEXT_PNO_MAX_COMMAND_SIZE] bytes the PNO-setup
    encoder never stores outside the buffer, for any list of configured
    networks: it returns, the buffer keeps its size, and the count [bp] of
    bytes written (header, TLV preamble, SSID sections, the three closing
    sections) is at most [WEXT_PNO_MAX_COMMAND_SIZE].  Every SSID section
    was added at a cursor that left room for a maximal SSID section, the
    closing sections and one more byte. *)
Theorem pno_setup_within_capacity (ssid_conf : list wpa_ssid) (buf : list Z) :
  pno_macros_ok ->
  Z.of_nat (length buf) = WEXT_PNO_MAX_COMMAND_SIZE ->
  exists (buf' : list Z) (bp : Z) (sel : list wpa_ssid),
    pno_setup_buffer ssid_conf buf = Some (buf', bp)
    /\ length buf' = length buf
    /\ 0 <= bp <= WEXT_PNO_MAX_COMMAND_SIZE
    /\ bp = Z.of_nat (length pno_preamble) + pno_ssids_size sel
            + WEXT_PNO_NONSSID_SECTIONS_SIZE + 1
    /\ take (length (pno_preamble ++ encode_pno_ssids sel)) buf'
       = pno_preamble ++ encode_pno_ssids sel
    /\ forall j : nat, (j < length sel)%nat ->
         Z.of_nat (length pno_preamble) + pno_ssids_size (take j sel)
         + WEXT_PNO_SSID_HEADER_SIZE + IW_ESSID_MAX_SIZE
         + WEXT_PNO_NONSSID_SECTIONS_SIZE + 1 < WEXT_PNO_MAX_COMMAND_SIZE.
Proof.
  intros Hok Hcap.
  destruct (pno_setup_buffer_run ssid_conf buf Hok Hcap) as (buf' & Hrun & Hlen & Htake & Hle).
  pose proof (pno_preamble_length Hok) as Hpre.
  set (sel := pno_selected ssid_conf 0 (WEXT_PNOSETUP_HEADER_SIZE + 4)) in *.
  exists buf', (Z.of_nat (length (pno_preamble ++ encode_pno_ssids sel))
                + WEXT_PNO_NONSSID_SECTIONS_SIZE + 1), sel.
  split; [exact Hrun|]. split; [exact Hlen|].
  destruct Hok as (Hh & Hshs & Hil & Hrl & Hml & Hnon & Hmin).
  split; [lia|].
  split; [unfold pno_ssids_size; rewrite length_app; lia|].
  split; [exact Htake|].
  intros j Hj.
  pose proof (pno_selected_room ssid_conf 0 (WEXT_PNOSETUP_HEADER_SIZE + 4) j Hj) as Hroom.
  fold sel in Hroom. unfold pno_no_room in Hroom.
  rewrite Hpre.
  match type of Hroom with (?a >=? ?b) = false => destruct (Z.geb_spec a b) end;
    [discriminate|lia].
Qed.

(** C5, as the code has it: the encoder emits the SSID sections of the
    first [k] eligible entries of the list, in list order; entries that
    are disabled or longer than [IW_ESSID_MAX_SIZE] take no slot.  The
    number [k] is where the loop is left: at most [WEXT_PNO_AMOUNT] and at
    most the number of eligible entries; the capacity check of line 228
    passes at the cursor of each of the [k] sections; and when eligible
    entries are left and [k] is below [WEXT_PNO_AMOUNT], the capacity
    check fails at the cursor after the [k] sections, so that the loop
    stops earlier.  When the list has at least [WEXT_PNO_AMOUNT] eligible
    entries and the capacity check still passes after the first
    [WEXT_PNO_AMOUNT - 1] of them, exactly [WEXT_PNO_AMOUNT] sections are
    emitted. *)
Theorem pno_setup_ssid_sections (ssid_conf : list wpa_ssid) (buf : list Z) :
  pno_macros_ok ->
  Z.of_nat (length buf) = WEXT_PNO_MAX_COMMAND_SIZE ->
  let eligible := List.filter pno_eligible ssid_conf in
  let cursor := fun j : nat =>
    WEXT_PNOSETUP_HEADER_SIZE + 4 + pno_ssids_size (take j eligible) in
  (exists (buf' : list Z) (bp : Z) (k : nat),
      let body := pno_preamble ++ encode_pno_ssids (take k eligible) in
      pno_setup_buffer ssid_conf buf = Some (buf', bp)
      /\ Z.of_nat k <= Z.max 0 WEXT_PNO_AMOUNT
      /\ take (length body) buf' = body
      /\ bp = Z.of_nat (length body) + WEXT_PNO_NONSSID_SECTIONS_SIZE + 1
      /\ (k <= length eligible)%nat
      /\ (forall j : nat, (j < k)%nat -> pno_no_room (cursor j) = false)
      /\ ((k < length eligible)%nat -> Z.of_nat k < WEXT_PNO_AMOUNT ->
          pno_no_room (cursor k) = true))
  /\ (WEXT_PNO_AMOUNT <= Z.of_nat (length eligible) ->
      pno_no_room (cursor (Z.to_nat WEXT_PNO_AMOUNT - 1)%nat) = false ->
      pno_emits_amount ssid_conf).
Proof.
  intros Hok Hcap eligible cursor. split.
  - destruct (pno_setup_buffer_run ssid_conf buf Hok Hcap) as (buf' & Hrun & _ & Htake & _).
    destruct (pno_selected_exact ssid_conf 0 (WEXT_PNOSETUP_HEADER_SIZE + 4))
      as (k & Hk & Hle & Hlen & Hroom & Hstop).
    rewrite Hk in Hrun, Htake. fold eligible in Hrun, Htake, Hlen, Hroom, Hstop.
    exists buf', (Z.of_nat (length (pno_preamble ++ encode_pno_ssids (take k eligible)))
                  + WEXT_PNO_NONSSID_SECTIONS_SIZE + 1), k.
    cbn zeta. split; [exact Hrun|].
    split; [now rewrite Z.sub_0_r in Hle|].
    split; [exact Htake|]. split; [reflexivity|]. split; [exact Hlen|].
    split; [exact Hroom|].
    intros Hmore Hcount. apply Hstop; [exact Hmore|lia].
  - intros Hmany Hroom buf0 Hcap0. cbn zeta.
    destruct (pno_setup_buffer_run ssid_conf buf0 Hok Hcap0) as (buf' & Hrun & _ & Htake & _).
    assert (Hsel : pno_selected ssid_conf 0 (WEXT_PNOSETUP_HEADER_SIZE + 4)
                   = take (Z.to_nat WEXT_PNO_AMOUNT) eligible)
      by (apply pno_selected_full; [lia|right; exact Hroom]).
    rewrite Hsel in Hrun, Htake.
    eexists buf', _. split; [exact Hrun|]. split; [exact Htake|reflexivity].
Qed.

End PnoProofs.

(** ** Case-insensitive comparison *)

Lemma strcasecmp_prefix (lit : string) : forall cmd : string,
  lit_nonzero lit = true -> os_strcasecmp cmd lit = 0 -> lower_prefix lit cmd.
Proof.
  induction lit as [|l lit IH]; intros cmd Hnz Hcmp; cbn [lower_prefix]; [exact I|].
  cbn [lit_nonzero] in Hnz. apply andb_true_iff in Hnz as [Hl Hnz].
  apply negb_true_iff, Z.eqb_neq in Hl.
  destruct cmd as [|c cmd]; cbn [os_strcasecmp] in Hcmp; [lia|].
  destruct (Z.eqb_spec (tolower (char_code c)) (tolower (char_code l))); [|lia].
  split; [assumption|]. now apply IH.
Qed.

Lemma strncasecmp_prefix (lit : string) : forall cmd : string,
  lit_nonzero lit = true ->
  os_strncasecmp cmd lit (String.length lit) = 0 -> lower_prefix lit cmd.
Proof.
  induction lit as [|l lit IH]; intros cmd Hnz Hcmp; cbn [lower_prefix]; [exact I|].
  cbn [lit_nonzero] in Hnz. apply andb_true_iff in Hnz as [Hl Hnz].
  apply negb_true_iff, Z.eqb_neq in Hl.
  cbn [String.length] in Hcmp.
  destruct cmd as [|c cmd]; cbn [os_strncasecmp] in Hcmp; [lia|].
  destruct (Z.eqb_spec (tolower (char_code c)) (tolower (char_code l))); [|lia].
  split; [assumption|]. now apply IH.
Qed.

Lemma strcasecmp_clash (n : nat) : forall a b cmd : string,
  lower_prefix a cmd -> lit_clash n a b = true -> (os_strcasecmp cmd b =? 0) = false.
Proof.
  induction n as [|n IH]; intros a b cmd Hpre Hclash; cbn [lit_clash] in Hclash;
    [discriminate|].
  destruct a as [|x a]; [discriminate|]. destruct b as [|y b]; [discriminate|].
  cbn [lower_prefix] in Hpre. destruct cmd as [|c cmd]; [contradiction|].
  destruct Hpre as [Hc Hpre]. cbn [os_strcasecmp]. rewrite Hc.
  destruct (Z.eqb_spec (tolower (char_code x)) (tolower (char_code y))).
  - now apply (IH a).
  - apply Z.eqb_neq. lia.
Qed.

Lemma strncasecmp_clash (n : nat) : forall a b cmd : string,
  lower_prefix a cmd -> lit_clash n a b = true -> (os_strncasecmp cmd b n =? 0) = false.
Proof.
  induction n as [|n IH]; intros a b cmd Hpre Hclash; cbn [lit_clash] in Hclash;
    [discriminate|].
  destruct a as [|x a]; [discriminate|]. destruct b as [|y b]; [discriminate|].
  cbn [lower_prefix] in Hpre. destruct cmd as [|c cmd]; [contradiction|].
  destruct Hpre as [Hc Hpre]. cbn [os_strncasecmp]. rewrite Hc.
  destruct (Z.eqb_spec (tolower (char_code x)) (tolower (char_code y))).
  - now apply (IH a).
  - apply Z.eqb_neq. lia.
Qed.

Lemma strncasecmp_clash_le (n m : nat) : forall a b cmd : string,
  (n <= m)%nat ->
  lower_prefix a cmd -> lit_clash n a b = true -> (os_strncasecmp cmd b m =? 0) = false.
Proof.
  revert m. induction n as [|n IH]; intros m a b cmd Hle Hpre Hclash; cbn [lit_clash] in Hclash;
    [discriminate|].
  destruct m as [|m]; [lia|].
  destruct a as [|x a]; [discriminate|]. destruct b as [|y b]; [discriminate|].
  cbn [lower_prefix] in Hpre. destruct cmd as [|c cmd]; [contradiction|].
  destruct Hpre as [Hc Hpre]. cbn [os_strncasecmp]. rewrite Hc.
  destruct (Z.eqb_spec (tolower (char_code x)) (tolower (char_code y))).
  - apply (IH m a); [lia|assumption|assumption].
  - apply Z.eqb_neq. lia.
Qed.

Lemma str_take_all (s : string) : forall n : nat,
  (String.length s <= n)%nat -> str_take n s = s.
Proof.
  induction s as [|c s IH]; intros [|n] Hn; cbn [str_take String.length] in *;
    try reflexivity; try lia.
  f_equal. apply IH. lia.
Qed.

Lemma bytes_of_string_length (s : string) :
  length (bytes_of_string s) = String.length s.
Proof. induction s as [|c s IH]; cbn [bytes_of_string length String.length]; congruence. Qed.

(** Copying a command and its NUL to the start of a buffer that holds it. *)
Lemma memcpy_command (buf : list Z) (cmd : string) :
  strlen cmd + 1 <= Z.of_nat (length buf) ->
  os_memcpy buf 0 (bytes_of_string cmd ++ [0])
  = Some ((bytes_of_string cmd ++ [0]) ++ drop (String.length cmd + 1) buf).
Proof.
  unfold strlen. intros Hfit.
  pose proof (os_memcpy_at (bytes_of_string cmd ++ [0]) [] buf) as H.
  cbn [app length] in H. change (Z.of_nat 0) with 0 in H.
  rewrite length_app, bytes_of_string_length in H. cbn [length] in H.
  apply H. lia.
Qed.

Lemma str_take_length (s : string) : forall n : nat,
  (String.length (str_take n s) <= String.length s)%nat.
Proof.
  induction s as [|c s IH]; intros [|n]; cbn [str_take String.length]; try lia.
  specialize (IH n). lia.
Qed.

Lemma lower_prefix_take (lit : string) : forall (c : string) (k : nat),
  lower_prefix lit c -> (String.length lit <= k)%nat -> lower_prefix lit (str_take k c).
Proof.
  induction lit as [|l lit IH]; intros c k Hpre Hk; cbn [lower_prefix] in *; [exact I|].
  destruct c as [|x c]; [contradiction|]. destruct Hpre as [Hx Hpre].
  cbn [String.length] in Hk. destruct k as [|k]; [lia|].
  cbn [str_take]. split; [exact Hx|]. apply IH; [exact Hpre|lia].
Qed.

(** ",TIME=" is not found inside a prefix that has no comma. *)
Lemma strstr_past_prefix (lit : string) : forall (c : string) (k : nat),
  lower_prefix lit c -> lit_no_comma lit = true ->
  os_strstr c ",TIME=" = Some k -> (String.length lit <= k)%nat.
Proof.
  induction lit as [|l lit IH]; intros c k Hpre Hnc Hfind; cbn [String.length]; [lia|].
  cbn [lower_prefix] in Hpre. destruct c as [|x c]; [contradiction|].
  destruct Hpre as [Hx Hpre].
  cbn [lit_no_comma] in Hnc. apply andb_true_iff in Hnc as [Hl Hnc].
  apply negb_true_iff, Z.eqb_neq in Hl.
  cbn [os_strstr String.prefix] in Hfind.
  destruct (ascii_dec "," x) as [<-|_].
  { exfalso. apply Hl. rewrite <- Hx. reflexivity. }
  destruct (os_strstr c ",TIME=") as [k'|] eqn:Hc; cbn in Hfind; [|discriminate].
  injection Hfind as <-. specialize (IH c k' Hpre Hnc Hc). lia.
Qed.

Lemma buf_strlen_some (b : list Z) : In 0 b -> exists n : Z, buf_strlen b = Some n.
Proof.
  induction b as [|x b IH]; cbn [In buf_strlen]; [contradiction|].
  intros [->|Hin]; [now exists 0|].
  destruct (x =? 0); [now exists 0|].
  destruct (IH Hin) as (n & ->). now eexists.
Qed.

Lemma str_append_length (a b : string) :
  String.length (a ++ b) = (String.length a + String.length b)%nat.
Proof.
  induction a as [|c a IH]; [reflexivity|].
  change (String.length (String c (a ++ b)) = S (String.length a + String.length b)).
  cbn [String.length]. now rewrite IH.
Qed.

Lemma str_take_exact (s : string) : forall n : nat,
  (n <= String.length s)%nat -> String.length (str_take n s) = n.
Proof.
  induction s as [|c s IH]; intros [|n] Hn; cbn [str_take String.length] in *;
    try reflexivity; try lia.
  rewrite IH by lia. reflexivity.
Qed.

Lemma str_drop_length (s : string) : forall n : nat,
  String.length (str_drop n s) = (String.length s - n)%nat.
Proof.
  induction s as [|c s IH]; intros [|n]; cbn [str_drop String.length]; try reflexivity.
  apply IH.
Qed.

Lemma lower_prefix_length (lit : string) : forall cmd : string,
  lower_prefix lit cmd -> (String.length lit <= String.length cmd)%nat.
Proof.
  induction lit as [|l lit IH]; intros cmd Hpre; cbn [String.length]; [lia|].
  cbn [lower_prefix] in Hpre. destruct cmd as [|c cmd]; [contradiction|].
  destruct Hpre as [_ Hpre]. specialize (IH cmd Hpre). cbn [String.length]. lia.
Qed.

(** A literal copied with room for its NUL replaces the command. *)
Lemma os_strncpy_fits (dst src : string) (n : Z) :
  strlen src < n -> os_strncpy dst src n = Some src.
Proof.
  intros Hn. unfold os_strncpy. destruct (Z.ltb_spec (strlen src) n); [reflexivity|lia].
Qed.

(** A literal copied over a command that is at least as long yields a
    string, and one that is not longer than the two. *)
Lemma os_strncpy_over (dst src : string) (n : Z) :
  (String.length src <= String.length dst)%nat ->
  exists c : string,
    os_strncpy dst src n = Some c
    /\ (String.length c <= String.length dst)%nat.
Proof.
  intros Hlen. unfold os_strncpy, strlen.
  destruct (Z.ltb_spec (Z.of_nat (String.length src)) n); [now exists src|].
  destruct (Z.leb_spec n (Z.of_nat (String.length dst))); [|lia].
  eexists. split; [reflexivity|].
  rewrite str_append_length, str_drop_length, str_take_exact by lia. lia.
Qed.

(** ** The dispatcher *)

Ltac strncpy_case H :=
  match type of H with
  | context [os_strncpy ?d ?src ?n] =>
      let c := fresh "c" in
      let Hcpy := fresh "Hcpy" in
      destruct (os_strncpy d src n) as [c|] eqn:Hcpy; cbn [mbind option_bind] in H;
      [|discriminate H]
  end.

Section DispatchProofs.
Context `{M : wext_macros}.

Lemma buf_strlen_nonneg (buf : list Z) : forall n : Z, buf_strlen buf = Some n -> 0 <= n.
Proof.
  induction buf as [|b buf IH]; intros n; cbn [buf_strlen]; [discriminate|].
  destruct (b =? 0); [intros [= <-]; lia|].
  destruct (buf_strlen buf) as [m|]; cbn; [|discriminate].
  intros [= <-]. specialize (IH m eq_refl). lia.
Qed.

Lemma hanged_count_app (l1 l2 : list event) :
  hanged_count (l1 ++ l2) = (hanged_count l1 + hanged_count l2)%nat.
Proof. unfold hanged_count. now rewrite List.filter_app, length_app. Qed.

(** The stage after the ioctl does not look at the status of the ioctl. *)
Lemma driver_cmd_finish_ignores_status
    (r : Z) (drv : wpa_driver_wext_data) (log : list event) (cmd : string) (buf : list Z) :
  driver_cmd_finish r drv log cmd buf = driver_cmd_finish 0 drv log cmd buf.
Proof. reflexivity. Qed.

Ltac finish_fields :=
  cbn [o_ret o_drv o_log o_cmd o_buf errors set_errors set_driver_is_started set_ctx
       wpa_supplicant_notify_scanning];
  rewrite ?hanged_count_app; cbn; repeat split; lia.

Ltac exists_payload p :=
  eexists _, p; split; [reflexivity|]; cbn; repeat split; reflexivity.

(** Without a NUL in the reply buffer the stage after the ioctl reads
    past the buffer, whatever the command. *)
Lemma driver_cmd_finish_no_nul
    (r : Z) (drv : wpa_driver_wext_data) (log : list event) (cmd : string) (buf : list Z) :
  buf_strlen buf = None -> driver_cmd_finish r drv log cmd buf = None.
Proof.
  intros Hn. unfold driver_cmd_finish. cbn [Z.ltb Z.compare]. rewrite Hn.
  destruct (_ || _); [reflexivity|].
  destruct (os_strcasecmp cmd "START" =? 0); [reflexivity|].
  destruct (os_strcasecmp cmd "STOP" =? 0); [reflexivity|].
  destruct (os_strncasecmp cmd "CSCAN" 5 =? 0); [|reflexivity].
  change (ctx (set_errors drv 0)) with (ctx drv).
  now destruct (ctx drv).
Qed.

Lemma driver_cmd_finish_nul
    (r : Z) (drv : wpa_driver_wext_data) (log : list event) (cmd : string) (buf : list Z)
    (out : outcome) :
  driver_cmd_finish r drv log cmd buf = Some out -> exists n : Z, buf_strlen buf = Some n.
Proof.
  intros Hrun. destruct (buf_strlen buf) as [n|] eqn:Hn; [now exists n|].
  rewrite (driver_cmd_finish_no_nul r drv log cmd buf Hn) in Hrun. discriminate.
Qed.

(** It always takes the success branch: a status that is not negative,
    the error counter back at 0, no "driver hung" notification. *)
Lemma driver_cmd_finish_outcome
    (r : Z) (drv : wpa_driver_wext_data) (log : list event) (cmd : string) (buf : list Z)
    (out : outcome) :
  driver_cmd_finish r drv log cmd buf = Some out ->
  0 <= o_ret out /\ errors (o_drv out) = 0
  /\ hanged_count (o_log out) = hanged_count log
  /\ o_cmd out = cmd /\ o_buf out = buf.
Proof.
  intros Hrun. destruct (driver_cmd_finish_nul _ _ _ _ _ _ Hrun) as (n & Hn).
  revert Hrun. unfold driver_cmd_finish. cbn [Z.ltb Z.compare]. rewrite Hn.
  destruct (_ || _).
  - cbn [mbind option_bind].
    intros [= <-]. cbn. pose proof (buf_strlen_nonneg buf n Hn). now repeat split.
  - destruct (os_strcasecmp cmd "START" =? 0).
    { cbn [mbind option_bind]. intros [= <-]. finish_fields. }
    destruct (os_strcasecmp cmd "STOP" =? 0).
    { cbn [mbind option_bind]. intros [= <-]. finish_fields. }
    destruct (os_strncasecmp cmd "CSCAN" 5 =? 0).
    + change (ctx (set_errors drv 0)) with (ctx drv).
      destruct (ctx drv) as [wpa_s|]; cbn [mbind option_bind]; [|discriminate].
      unfold wpa_supplicant_notify_scanning, wpa_driver_wext_set_scan_timeout.
      cbn [mbind option_bind]. intros [= <-]. finish_fields.
    + cbn [mbind option_bind]. intros [= <-]. finish_fields.
Qed.

(** A command that clashes with every rewritten command is passed on as
    it is. *)
Lemma driver_cmd_rewrite_passthrough
    (a : string) (E : environment) (drv : wpa_driver_wext_data) (log : list event)
    (cmd : string) (buf : list Z) (ret : Z) :
  lower_prefix a cmd ->
  lit_clash 13 a "RSSI-APPROX" = true ->
  lit_clash 13 a "SCAN-CHANNELS" = true ->
  lit_clash 13 a "STOP" = true ->
  lit_clash 13 a "RELOAD" = true ->
  lit_clash 13 a "BGSCAN-START" = true ->
  lit_clash 13 a "BGSCAN-STOP" = true ->
  driver_cmd_rewrite E drv log cmd buf ret = Some (inr (drv, log, cmd, ret)).
Proof.
  intros Hpre H1 H2 H3 H4 H5 H6. unfold driver_cmd_rewrite.
  rewrite (strcasecmp_clash 13 a "RSSI-APPROX" cmd Hpre H1).
  rewrite (strncasecmp_clash 13 a "SCAN-CHANNELS" cmd Hpre H2).
  rewrite (strcasecmp_clash 13 a "STOP" cmd Hpre H3).
  rewrite (strcasecmp_clash 13 a "RELOAD" cmd Hpre H4).
  rewrite (strcasecmp_clash 13 a "BGSCAN-START" cmd Hpre H5).
  rewrite (strcasecmp_clash 13 a "BGSCAN-STOP" cmd Hpre H6).
  reflexivity.
Qed.

(** A command that clashes with every query command is not a query. *)
Lemma not_a_query (a cmd : string) :
  lower_prefix a cmd ->
  lit_clash 13 a RSSI_CMD = true ->
  lit_clash 13 a LINKSPEED_CMD = true ->
  lit_clash 13 a "MACADDR" = true ->
  lit_clash 13 a "GETPOWER" = true ->
  lit_clash 13 a "GETBAND" = true ->
  (os_strcasecmp cmd RSSI_CMD =? 0) || (os_strcasecmp cmd LINKSPEED_CMD =? 0)
  || (os_strcasecmp cmd "MACADDR" =? 0) || (os_strcasecmp cmd "GETPOWER" =? 0)
  || (os_strcasecmp cmd "GETBAND" =? 0) = false.
Proof.
  intros Hpre H1 H2 H3 H4 H5.
  rewrite (strcasecmp_clash 13 a RSSI_CMD cmd Hpre H1).
  rewrite (strcasecmp_clash 13 a LINKSPEED_CMD cmd Hpre H2).
  rewrite (strcasecmp_clash 13 a "MACADDR" cmd Hpre H3).
  rewrite (strcasecmp_clash 13 a "GETPOWER" cmd Hpre H4).
  rewrite (strcasecmp_clash 13 a "GETBAND" cmd Hpre H5).
  reflexivity.
Qed.

(** After the ioctl, START sets [driver_is_started] and brings the
    interface up; STOP clears [driver_is_started]. *)
Lemma driver_cmd_finish_start
    (r : Z) (d : wpa_driver_wext_data) (l : list event) (c : string) (b : list Z) :
  os_strcasecmp c "START" = 0 ->
  In 0 b ->
  driver_cmd_finish r d l c b
  = Some {| o_drv := set_driver_is_started (set_errors d 0) true; o_cmd := c; o_buf := b;
            o_log := l ++ [SetIfaceFlags 1]; o_ret := 0 |}.
Proof.
  intros Hcmp Hnul. destruct (buf_strlen_some b Hnul) as (n & Hn).
  assert (Hpre : lower_prefix "START" c) by (now apply strcasecmp_prefix).
  unfold driver_cmd_finish. cbn [Z.ltb Z.compare].
  rewrite (not_a_query "START") by (exact Hpre || reflexivity).
  now rewrite Hcmp, Hn.
Qed.

Lemma driver_cmd_finish_stop
    (r : Z) (d : wpa_driver_wext_data) (l : list event) (c : string) (b : list Z) :
  os_strcasecmp c "STOP" = 0 ->
  In 0 b ->
  driver_cmd_finish r d l c b
  = Some {| o_drv := set_driver_is_started (set_errors d 0) false; o_cmd := c; o_buf := b;
            o_log := l; o_ret := 0 |}.
Proof.
  intros Hcmp Hnul. destruct (buf_strlen_some b Hnul) as (n & Hn).
  assert (Hpre : lower_prefix "STOP" c) by (now apply strcasecmp_prefix).
  unfold driver_cmd_finish. cbn [Z.ltb Z.compare].
  rewrite (not_a_query "STOP") by (exact Hpre || reflexivity).
  rewrite (strcasecmp_clash 13 "STOP" "START" c Hpre eq_refl).
  now rewrite Hcmp, Hn.
Qed.

Lemma buf_strlen_without_nul (b : list Z) : ~ In 0 b -> buf_strlen b = None.
Proof.
  induction b as [|x b IH]; cbn [In buf_strlen]; [reflexivity|].
  intros Hnot. destruct (Z.eqb_spec x 0) as [->|_]; [tauto|].
  rewrite IH by tauto. reflexivity.
Qed.

(** C6: in the Stopped state every command other than START (compared up
    to case) is answered with -1 and nothing else happens: the driver
    data, the command, the buffer and the log are as before.  START
    passes the guard whatever the state of the driver and whatever status
    the ioctl answers; it is handed to the ioctl unchanged, and when the
    reply buffer holds a NUL after the ioctl the call returns 0 and leaves
    [driver_is_started] set, after bringing the interface up.  When the
    driver has left no NUL in the reply buffer, the [strlen(buf)] of line
    368 reads past its end. *)
Theorem driver_cmd_stopped_state
    (E : environment) (drv : wpa_driver_wext_data) (log : list event)
    (cmd : string) (buf : list Z) (buf_len : Z) :
  driver_is_started drv = false ->
  (os_strcasecmp cmd "START" <> 0 ->
   wpa_driver_wext_driver_cmd E drv log cmd buf buf_len
   = Some {| o_drv := drv; o_cmd := cmd; o_buf := buf; o_log := log; o_ret := -1 |})
  /\ (os_strcasecmp cmd "START" = 0 ->
      strlen cmd + 1 <= Z.of_nat (length buf) ->
      let payload := (bytes_of_string cmd ++ [0]) ++ drop (String.length cmd + 1) buf in
      let reply := kernel_write payload (sys_ioctl E payload (to_u16 buf_len)).2 in
      (In 0 reply ->
       exists out : outcome,
         wpa_driver_wext_driver_cmd E drv log cmd buf buf_len = Some out
         /\ driver_is_started (o_drv out) = true
         /\ o_ret out = 0
         /\ o_cmd out = cmd
         /\ o_buf out = reply
         /\ o_log out = log ++ [IoctlPriv payload (to_u16 buf_len); SetIfaceFlags 1])
      /\ (~ In 0 reply -> wpa_driver_wext_driver_cmd E drv log cmd buf buf_len = None)).
Proof.
  intros Hstopped. split.
  - intros Hne. apply Z.eqb_neq in Hne.
    unfold wpa_driver_wext_driver_cmd. rewrite Hstopped. cbn [negb andb]. now rewrite Hne.
  - intros Hstart Hfit payload reply.
    unfold wpa_driver_wext_driver_cmd. rewrite Hstopped, Hstart. cbn [Z.eqb negb andb].
    assert (Hpre : lower_prefix "START" cmd) by (now apply strcasecmp_prefix).
    rewrite (driver_cmd_rewrite_passthrough "START") by (exact Hpre || reflexivity).
    cbn [mbind option_bind].
    rewrite memcpy_command by exact Hfit. cbn [mbind option_bind].
    rewrite (strncasecmp_clash_le 5 5 "START" "CSCAN" cmd) by (lia || exact Hpre || reflexivity).
    cbn [mbind option_bind]. fold payload. subst reply.
    destruct (sys_ioctl E payload (to_u16 buf_len)) as [ioctl_ret reply]. cbn [snd].
    split.
    + intros Hnul. rewrite (driver_cmd_finish_start _ _ _ _ _ Hstart Hnul).
      eexists. split; [reflexivity|]. cbn [o_drv o_ret o_cmd o_buf o_log].
      repeat split. now rewrite <- app_assoc.
    + intros Hnone. apply driver_cmd_finish_no_nul. now apply buf_strlen_without_nul.
Qed.

(** C7: for a started driver, a CSCAN command that arrives while the
    session is scanning, or while the supplicant state lies strictly
    between [WPA_SCANNING] and [WPA_COMPLETED], returns 0 and does
    nothing: the log is as before (no ioctl, no scan timeout, no scanning
    notification) and the driver data, the session with its scanning flag
    included, is unchanged.  The command has been copied to the reply
    buffer by then. *)
Theorem cscan_while_scanning_is_noop
    (E : environment) (drv : wpa_driver_wext_data) (log : list event)
    (cmd : string) (buf : list Z) (buf_len : Z) (wpa_s : wpa_supplicant) :
  driver_is_started drv = true ->
  os_strncasecmp cmd "CSCAN" 5 = 0 ->
  ctx drv = Some wpa_s ->
  strlen cmd + 1 <= Z.of_nat (length buf) ->
  scanning wpa_s <> 0
  \/ (WPA_SCANNING < wpa_state wpa_s /\ wpa_state wpa_s < WPA_COMPLETED) ->
  wpa_driver_wext_driver_cmd E drv log cmd buf buf_len
  = Some {| o_drv := drv; o_cmd := cmd;
            o_buf := (bytes_of_string cmd ++ [0]) ++ drop (String.length cmd + 1) buf;
            o_log := log; o_ret := 0 |}.
Proof.
  intros Hstarted Hcscan Hctx Hfit Hbusy.
  unfold wpa_driver_wext_driver_cmd. rewrite Hstarted. cbn [negb andb].
  assert (Hpre : lower_prefix "CSCAN" cmd) by (now apply strncasecmp_prefix).
  rewrite (driver_cmd_rewrite_passthrough "CSCAN") by (exact Hpre || reflexivity).
  cbn [mbind option_bind].
  rewrite memcpy_command by exact Hfit. cbn [mbind option_bind].
  rewrite Hcscan, Hctx. cbn [Z.eqb mbind option_bind].
  assert (Hgate : (scanning wpa_s =? 0)
                  && ((wpa_state wpa_s <=? WPA_SCANNING) || (wpa_state wpa_s >=? WPA_COMPLETED))
                  = false).
  { destruct Hbusy as [Hscan|[Hlo Hhi]].
    - apply Z.eqb_neq in Hscan. now rewrite Hscan.
    - destruct (Z.leb_spec (wpa_state wpa_s) WPA_SCANNING); [lia|].
      destruct (Z.geb_spec (wpa_state wpa_s) WPA_COMPLETED); [lia|].
      apply andb_false_r. }
  rewrite Hgate. reflexivity.
Qed.

Lemma country_code_cases (n : Z) :
  wpa_driver_get_country_code n = "EU"%string
  \/ wpa_driver_get_country_code n = "JP"%string
  \/ wpa_driver_get_country_code n = "US"%string.
Proof.
  unfold wpa_driver_get_country_code.
  destruct (n =? _); [now left|]. destruct (n =? _); [right; now left|right; now right].
Qed.

(** For a number in the range of [int], [atoi] yields that number. *)
Lemma atoi_in_range (s : string) :
  -2147483648 <= atoi_value s <= 2147483647 -> atoi s = atoi_value s.
Proof.
  intros Hrange. unfold atoi, strtol, to_int.
  rewrite Z.min_r, Z.max_r by lia.
  rewrite Z.mod_small by lia. lia.
Qed.

(** For a command that is nothing special after the ioctl the call ends
    with status 0 and the error counter at 0, once the reply buffer has
    been read up to its NUL. *)
Lemma driver_cmd_finish_other
    (r : Z) (d : wpa_driver_wext_data) (l : list event) (c : string) (b : list Z) :
  (os_strcasecmp c RSSI_CMD =? 0) || (os_strcasecmp c LINKSPEED_CMD =? 0)
  || (os_strcasecmp c "MACADDR" =? 0) || (os_strcasecmp c "GETPOWER" =? 0)
  || (os_strcasecmp c "GETBAND" =? 0) = false ->
  (os_strcasecmp c "START" =? 0) = false ->
  (os_strcasecmp c "STOP" =? 0) = false ->
  (os_strncasecmp c "CSCAN" 5 =? 0) = false ->
  In 0 b ->
  driver_cmd_finish r d l c b
  = Some {| o_drv := set_errors d 0; o_cmd := c; o_buf := b; o_log := l; o_ret := 0 |}.
Proof.
  intros Hq Hstart Hstop Hcscan Hnul. destruct (buf_strlen_some b Hnul) as (n & Hn).
  unfold driver_cmd_finish. cbn [Z.ltb Z.compare].
  now rewrite Hq, Hstart, Hstop, Hcscan, Hn.
Qed.

(** What happens to a started driver's SCAN-CHANNELS command: it is
    rewritten to COUNTRY and the code looked up for the number after the
    prefix, and handed to the ioctl in that form. *)
Lemma scan_channels_rewrite
    (E : environment) (drv : wpa_driver_wext_data) (log : list event)
    (cmd : string) (buf : list Z) (buf_len : Z) :
  driver_is_started drv = true ->
  os_strncasecmp cmd "SCAN-CHANNELS" 13 = 0 ->
  11 <= MAX_DRV_CMD_SIZE ->
  11 <= Z.of_nat (length buf) ->
  let sent := ("COUNTRY " ++ wpa_driver_get_country_code (atoi (str_drop 13 cmd)))%string in
  let payload := (bytes_of_string sent ++ [0]) ++ drop 11 buf in
  let reply := kernel_write payload (sys_ioctl E payload (to_u16 buf_len)).2 in
  (In 0 reply ->
   wpa_driver_wext_driver_cmd E drv log cmd buf buf_len
   = Some {| o_drv := set_errors drv 0; o_cmd := sent; o_buf := reply;
             o_log := log ++ [IoctlPriv payload (to_u16 buf_len)]; o_ret := 0 |})
  /\ (~ In 0 reply -> wpa_driver_wext_driver_cmd E drv log cmd buf buf_len = None).
Proof.
  intros Hstarted Hscan Hmax Hfit sent payload reply. subst reply payload sent.
  unfold wpa_driver_wext_driver_cmd. rewrite Hstarted. cbn [negb andb].
  assert (Hpre : lower_prefix "SCAN-CHANNELS" cmd) by (now apply strncasecmp_prefix).
  unfold driver_cmd_rewrite.
  rewrite (strcasecmp_clash 13 "SCAN-CHANNELS" "RSSI-APPROX" cmd Hpre eq_refl).
  rewrite Hscan. cbn [Z.eqb mbind option_bind].
  assert (Hcmd : forall code : string,
            String.length code = 2%nat ->
            os_snprintf_country MAX_DRV_CMD_SIZE code = ("COUNTRY " ++ code)%string).
  { intros code Hcode. unfold os_snprintf_country. apply str_take_all.
    cbn [String.append String.length]. lia. }
  destruct (country_code_cases (atoi (str_drop 13 cmd))) as [H|[H|H]]; rewrite H;
    rewrite Hcmd by reflexivity;
    (rewrite memcpy_command by (unfold strlen; cbn; lia));
    cbn [mbind option_bind];
    match goal with |- context [os_strncasecmp ?c "CSCAN" 5 =? 0] =>
      change (os_strncasecmp c "CSCAN" 5 =? 0) with false end;
    cbn [mbind option_bind];
    match goal with |- context [(String.length ?x + 1)%nat] =>
      change (String.length x + 1)%nat with 11%nat end;
    match goal with |- context [sys_ioctl E ?p ?n] =>
      destruct (sys_ioctl E p n) as [ioctl_ret answer] end;
    cbn [snd];
    (split;
     [intros Hnul; rewrite driver_cmd_finish_other by (reflexivity || exact Hnul);
      reflexivity
     |intros Hnone; apply driver_cmd_finish_no_nul; apply buf_strlen_without_nul;
      exact Hnone]).
Qed.

(** C8, as the code has it.  The count that [atoi] reads after
    SCAN-CHANNELS, which is the number written there when that number is
    in the range of [int], selects the country: EU when it is
    [WEXT_NUMBER_SCAN_CHANNELS_ETSI], JP when it is
    [WEXT_NUMBER_SCAN_CHANNELS_MKK1] and not the ETSI count, US for every
    other count.  A command with the count 14 is therefore rewritten to
    COUNTRY EU exactly when the header defines the ETSI count as 14.  The
    rewritten command is sent, and the call returns 0 whatever status the
    ioctl answers when the reply buffer holds a NUL afterwards; when it
    holds none, the [strlen(buf)] of line 368 reads past its end. *)
Theorem scan_channels_country_codes
    (E : environment) (drv : wpa_driver_wext_data) (log : list event)
    (cmd : string) (buf : list Z) (buf_len : Z) :
  driver_is_started drv = true ->
  os_strncasecmp cmd "SCAN-CHANNELS" 13 = 0 ->
  11 <= MAX_DRV_CMD_SIZE ->
  11 <= Z.of_nat (length buf) ->
  let count := atoi (str_drop 13 cmd) in
  let code :=
    if count =? WEXT_NUMBER_SCAN_CHANNELS_ETSI then "EU"%string
    else if count =? WEXT_NUMBER_SCAN_CHANNELS_MKK1 then "JP"%string else "US"%string in
  let payload := (bytes_of_string ("COUNTRY " ++ code) ++ [0]) ++ drop 11 buf in
  let reply := kernel_write payload (sys_ioctl E payload (to_u16 buf_len)).2 in
  (-2147483648 <= atoi_value (str_drop 13 cmd) <= 2147483647 ->
   count = atoi_value (str_drop 13 cmd))
  /\ (In 0 reply ->
      exists out : outcome,
        wpa_driver_wext_driver_cmd E drv log cmd buf buf_len = Some out
        /\ o_ret out = 0
        /\ o_buf out = reply
        /\ o_log out = log ++ [IoctlPriv payload (to_u16 buf_len)]
        /\ o_cmd out = ("COUNTRY " ++ code)%string
        /\ (count = WEXT_NUMBER_SCAN_CHANNELS_ETSI -> o_cmd out = "COUNTRY EU"%string)
        /\ (count = WEXT_NUMBER_SCAN_CHANNELS_MKK1 ->
            count <> WEXT_NUMBER_SCAN_CHANNELS_ETSI -> o_cmd out = "COUNTRY JP"%string)
        /\ (count <> WEXT_NUMBER_SCAN_CHANNELS_ETSI ->
            count <> WEXT_NUMBER_SCAN_CHANNELS_MKK1 -> o_cmd out = "COUNTRY US"%string)
        /\ (count = 14 ->
            (o_cmd out = "COUNTRY EU"%string <-> WEXT_NUMBER_SCAN_CHANNELS_ETSI = 14)))
  /\ (~ In 0 reply -> wpa_driver_wext_driver_cmd E drv log cmd buf buf_len = None).
Proof.
  intros Hstarted Hscan Hmax Hfit count code payload reply.
  split; [exact (atoi_in_range (str_drop 13 cmd))|].
  destruct (scan_channels_rewrite E drv log cmd buf buf_len Hstarted Hscan Hmax Hfit)
    as [Hrun Hfault].
  fold count in Hrun, Hfault.
  unfold wpa_driver_get_country_code in Hrun, Hfault.
  fold code in Hrun, Hfault. fold payload in Hrun, Hfault. fold reply in Hrun, Hfault.
  split; [|exact Hfault].
  intros Hnul. specialize (Hrun Hnul).
  eexists. split; [exact Hrun|]. cbn [o_ret o_buf o_log o_cmd].
  split; [reflexivity|]. split; [reflexivity|]. split; [reflexivity|].
  split; [reflexivity|].
  subst code.
  destruct (Z.eqb_spec count WEXT_NUMBER_SCAN_CHANNELS_ETSI) as [He|He];
    destruct (Z.eqb_spec count WEXT_NUMBER_SCAN_CHANNELS_MKK1) as [Hm|Hm];
    repeat split; intros; try reflexivity; try congruence; try discriminate.
Qed.

(** *** The error counter *)

Lemma count_ioctl_result_spec (ret : Z) (drv : wpa_driver_wext_data) (log : list event) :
  (ret < 0 -> errors drv + 1 <= DRV_NUMBER_SEQUENTIAL_ERRORS ->
   count_ioctl_result ret drv log = (set_errors drv (errors drv + 1), log))
  /\ (ret < 0 -> DRV_NUMBER_SEQUENTIAL_ERRORS < errors drv + 1 ->
      count_ioctl_result ret drv log = (set_errors drv 0, log ++ [DriverStateHanged]))
  /\ (0 <= ret -> count_ioctl_result ret drv log = (set_errors drv 0, log)).
Proof.
  unfold count_ioctl_result. cbn [errors set_errors].
  destruct (Z.ltb_spec ret 0);
    destruct (Z.gtb_spec (errors drv + 1) DRV_NUMBER_SEQUENTIAL_ERRORS);
    repeat split; intros; try lia; reflexivity.
Qed.

Lemma local_array_length (E : environment) (size : Z) :
  0 <= size -> Z.of_nat (length (local_array E size)) = size.
Proof. intros H. unfold local_array. rewrite length_map, length_seq. lia. Qed.

(** With a session and a network list at hand, the PNO-setup function
    builds its buffer, issues the ioctl and counts its status. *)
Lemma set_backgroundscan_params_run
    (E : environment) (drv : wpa_driver_wext_data) (log : list event)
    (wpa_s : wpa_supplicant) (ssid_conf : list wpa_ssid) :
  pno_macros_ok ->
  ctx drv = Some wpa_s ->
  conf wpa_s = Some ssid_conf ->
  exists (buf : list Z) (len : Z),
    let ret := (sys_ioctl E buf len).1 in
    let r := count_ioctl_result ret drv (log ++ [IoctlPriv buf len]) in
    wpa_driver_set_backgroundscan_params E (Some drv) log = Some (Some r.1, r.2, ret).
Proof.
  intros Hok Hctx Hconf. unfold wpa_driver_set_backgroundscan_params.
  rewrite Hctx, Hconf.
  assert (Hsize : 0 <= WEXT_PNO_MAX_COMMAND_SIZE).
  { destruct Hok as (Hh & Hshs & Hil & Hrl & Hml & Hnon & Hmin). lia. }
  destruct (pno_setup_buffer_run ssid_conf (local_array E WEXT_PNO_MAX_COMMAND_SIZE) Hok
              (local_array_length E _ Hsize)) as (buf & Hrun & _).
  rewrite Hrun. cbn [mbind option_bind].
  match goal with |- context [sys_ioctl E buf ?n] => exists buf, n end.
  cbn zeta.
  destruct (count_ioctl_result _ _ _) as [d l]. reflexivity.
Qed.

Lemma set_errors_idem (drv : wpa_driver_wext_data) (a b : Z) :
  set_errors (set_errors drv a) b = set_errors drv b.
Proof. reflexivity. Qed.

(** Failing PNO-setup ioctls in a row: as long as the threshold is not
    passed the counter grows by one each time and no notification is
    sent; the failure that takes it past the threshold sends one and
    resets it. *)
Lemma repeat_backgroundscan_failures (E : environment) (wpa_s : wpa_supplicant)
    (ssid_conf : list wpa_ssid) (k : nat) :
  pno_macros_ok ->
  conf wpa_s = Some ssid_conf ->
  (forall (b : list Z) (n : Z), (sys_ioctl E b n).1 < 0) ->
  forall (drv : wpa_driver_wext_data) (log : list event),
    ctx drv = Some wpa_s ->
    errors drv + Z.of_nat (S k) = DRV_NUMBER_SEQUENTIAL_ERRORS + 1 ->
    exists log',
      repeat_backgroundscan (S k) E (Some drv) log = Some (Some (set_errors drv 0), log')
      /\ hanged_count log' = S (hanged_count log).
Proof.
  intros Hok Hconf Hfail.
  induction k as [|k IH]; intros drv log Hctx Herr;
    destruct (set_backgroundscan_params_run E drv log wpa_s ssid_conf Hok Hctx Hconf)
      as (buf & len & Hrun); cbn zeta in Hrun;
    cbn [repeat_backgroundscan]; rewrite Hrun; cbn [mbind option_bind];
    destruct (count_ioctl_result_spec (sys_ioctl E buf len).1 drv (log ++ [IoctlPriv buf len]))
      as (Hinc & Hhang & _).
  - rewrite Hhang by (try apply Hfail; lia). cbn [fst snd].
    eexists. split; [reflexivity|].
    rewrite !hanged_count_app. cbn. lia.
  - rewrite Hinc by (try apply Hfail; lia). cbn [fst snd].
    destruct (IH (set_errors drv (errors drv + 1)) (log ++ [IoctlPriv buf len]))
      as (log' & Hrep & Hcount); [exact Hctx|cbn [errors set_errors]; lia|].
    rewrite set_errors_idem in Hrep.
    exists log'. split; [exact Hrep|].
    rewrite Hcount, hanged_count_app. cbn. lia.
Qed.

(** C2, as the code has it.  In [wpa_driver_set_backgroundscan_params]
    the status of the PNO-setup ioctl drives the error counter: a failure
    adds one; the failure that takes the counter past
    [DRV_NUMBER_SEQUENTIAL_ERRORS] sends exactly one HANGED notification
    and resets the counter to 0, so that threshold + 1 failures in a row
    from 0 send one notification and end at 0; a success resets the
    counter to 0.  In [wpa_driver_wext_driver_cmd] the status of the
    private-command ioctl is discarded: whatever it was, the counter is
    reset to 0 and no notification is sent. *)
Theorem error_counter_policy
    (E : environment) (drv : wpa_driver_wext_data) (log : list event)
    (wpa_s : wpa_supplicant) (ssid_conf : list wpa_ssid) :
  pno_macros_ok ->
  ctx drv = Some wpa_s ->
  conf wpa_s = Some ssid_conf ->
  (exists (buf : list Z) (len : Z) (drv' : wpa_driver_wext_data) (log' : list event),
      let ret := (sys_ioctl E buf len).1 in
      let log1 := log ++ [IoctlPriv buf len] in
      wpa_driver_set_backgroundscan_params E (Some drv) log = Some (Some drv', log', ret)
      /\ (ret < 0 -> errors drv + 1 <= DRV_NUMBER_SEQUENTIAL_ERRORS ->
          errors drv' = errors drv + 1 /\ log' = log1)
      /\ (ret < 0 -> DRV_NUMBER_SEQUENTIAL_ERRORS < errors drv + 1 ->
          errors drv' = 0 /\ log' = log1 ++ [DriverStateHanged])
      /\ (0 <= ret -> errors drv' = 0 /\ log' = log1))
  /\ ((forall (b : list Z) (n : Z), (sys_ioctl E b n).1 < 0) ->
      errors drv = 0 -> 0 <= DRV_NUMBER_SEQUENTIAL_ERRORS ->
      exists (drv' : wpa_driver_wext_data) (log' : list event),
        repeat_backgroundscan (S (Z.to_nat DRV_NUMBER_SEQUENTIAL_ERRORS)) E (Some drv) log
        = Some (Some drv', log')
        /\ errors drv' = 0
        /\ hanged_count log' = S (hanged_count log))
  /\ (forall (r : Z) (l : list event) (cmd : string) (buf : list Z) (out : outcome),
        driver_cmd_finish r drv l cmd buf = Some out ->
        errors (o_drv out) = 0 /\ hanged_count (o_log out) = hanged_count l).
Proof.
  intros Hok Hctx Hconf. split; [|split].
  - destruct (set_backgroundscan_params_run E drv log wpa_s ssid_conf Hok Hctx Hconf)
      as (buf & len & Hrun). cbn zeta in Hrun.
    destruct (count_ioctl_result_spec (sys_ioctl E buf len).1 drv (log ++ [IoctlPriv buf len]))
      as (Hinc & Hhang & Hsucc).
    eexists buf, len, _, _. cbn zeta. split; [exact Hrun|].
    split; [|split].
    + intros H1 H2. now rewrite Hinc by assumption.
    + intros H1 H2. now rewrite Hhang by assumption.
    + intros H1. now rewrite Hsucc by assumption.
  - intros Hfail Herr Hthr.
    destruct (repeat_backgroundscan_failures E wpa_s ssid_conf
                (Z.to_nat DRV_NUMBER_SEQUENTIAL_ERRORS) Hok Hconf Hfail drv log Hctx)
      as (log' & Hrep & Hcount); [lia|].
    now exists (set_errors drv 0), log'.
  - intros r l cmd buf out Hfin.
    destruct (driver_cmd_finish_outcome r drv l cmd buf out Hfin) as (_ & He & Hh & _).
    now split.
Qed.

(** *** The status of the private ioctl *)

(** What the rewriting stage hands on: an early return only with a
    status that is not negative, unless the PNO step failed. *)
Lemma driver_cmd_rewrite_cases
    (E : environment) (drv : wpa_driver_wext_data) (log : list event)
    (cmd : string) (buf : list Z)
    (r : outcome + wpa_driver_wext_data * list event * string * Z) :
  driver_cmd_rewrite E drv log cmd buf 0 = Some r ->
  (os_strcasecmp cmd "BGSCAN-START" = 0 ->
   forall priv' log' ret,
     wpa_driver_set_backgroundscan_params E (Some drv) log = Some (priv', log', ret) ->
     0 <= ret) ->
  match r with
  | inl out =>
      0 <= o_ret out /\ errors (o_drv out) = errors drv
      /\ (hanged_count (o_log out) = hanged_count log \/ os_strcasecmp cmd "RELOAD" = 0)
  | inr (d, l, _, ret) =>
      0 <= ret /\ hanged_count l = hanged_count log
      /\ (errors d = 0 \/ errors d = errors drv)
  end.
Proof.
  unfold driver_cmd_rewrite. intros Hrun Hpno.
  destruct (os_strcasecmp cmd "RSSI-APPROX" =? 0).
  { strncpy_case Hrun. injection Hrun as <-. repeat split; auto; lia. }
  destruct (os_strncasecmp cmd "SCAN-CHANNELS" 13 =? 0).
  { injection Hrun as <-. repeat split; auto; lia. }
  destruct (os_strcasecmp cmd "STOP" =? 0).
  { injection Hrun as <-. rewrite hanged_count_app. cbn. repeat split; auto; lia. }
  destruct (Z.eqb_spec (os_strcasecmp cmd "RELOAD") 0).
  { injection Hrun as <-. cbn. repeat split; auto; lia. }
  destruct (Z.eqb_spec (os_strcasecmp cmd "BGSCAN-START") 0) as [Hbg|_].
  - specialize (Hpno Hbg).
    destruct (wpa_driver_set_backgroundscan_params E (Some drv) log)
      as [[[priv' log'] ret]|] eqn:Hset; cbn [mbind option_bind] in Hrun; [|discriminate].
    specialize (Hpno priv' log' ret eq_refl).
    destruct (Z.ltb_spec ret 0); [lia|].
    strncpy_case Hrun.
    injection Hrun as <-. cbn [set_bgscan_enabled errors].
    unfold wpa_driver_set_backgroundscan_params in Hset.
    destruct (ctx drv) as [wpa_s|]; [|inversion Hset; subst; lia].
    destruct (conf wpa_s) as [ssid_conf|]; [|inversion Hset; subst; lia].
    destruct (pno_setup_buffer _ _) as [[b bp]|]; cbn [mbind option_bind] in Hset;
      [|discriminate].
    destruct (count_ioctl_result_spec (sys_ioctl E b (to_u16 bp)).1 drv
                (log ++ [IoctlPriv b (to_u16 bp)])) as (_ & _ & Hsucc).
    destruct (count_ioctl_result _ _ _) as [d l].
    injection Hset as <- <- <-.
    injection (Hsucc ltac:(lia)) as -> ->.
    cbn [default errors set_errors]. rewrite hanged_count_app. cbn.
    repeat split; auto; lia.
  - destruct (os_strcasecmp cmd "BGSCAN-STOP" =? 0); [strncpy_case Hrun|];
      injection Hrun as <-; cbn; repeat split; auto; lia.
Qed.

(** A call that yields an outcome after passing the Stopped-state guard
    and, for BGSCAN-START, the PNO step: its status is not negative, the
    error counter is at 0 or as it was, and a HANGED notification is sent
    only for RELOAD. *)
Lemma driver_cmd_status_nonneg
    (E : environment) (drv : wpa_driver_wext_data) (log : list event)
    (cmd : string) (buf : list Z) (buf_len : Z) (out : outcome) :
  wpa_driver_wext_driver_cmd E drv log cmd buf buf_len = Some out ->
  driver_is_started drv = true \/ os_strcasecmp cmd "START" = 0 ->
  (os_strcasecmp cmd "BGSCAN-START" = 0 ->
   forall priv' log' ret,
     wpa_driver_set_backgroundscan_params E (Some drv) log = Some (priv', log', ret) ->
     0 <= ret) ->
  0 <= o_ret out
  /\ (errors (o_drv out) = 0 \/ errors (o_drv out) = errors drv)
  /\ (hanged_count (o_log out) = hanged_count log \/ os_strcasecmp cmd "RELOAD" = 0)
  /\ (forall (r : Z) (d : wpa_driver_wext_data) (l : list event) (c : string) (b : list Z),
        driver_cmd_finish r d l c b = driver_cmd_finish 0 d l c b)
  /\ (forall (r : Z) (d : wpa_driver_wext_data) (l : list event) (c : string) (b : list Z)
             (o : outcome),
        driver_cmd_finish r d l c b = Some o ->
        0 <= o_ret o /\ errors (o_drv o) = 0 /\ hanged_count (o_log o) = hanged_count l).
Proof.
  intros Hrun Hguard Hpno.
  assert (Hfin : forall r d l c b o,
            driver_cmd_finish r d l c b = Some o ->
            0 <= o_ret o /\ errors (o_drv o) = 0 /\ hanged_count (o_log o) = hanged_count l).
  { intros r d l c b o Ho.
    destruct (driver_cmd_finish_outcome r d l c b o Ho) as (H1 & H2 & H3 & _). auto. }
  cut (0 <= o_ret out
       /\ (errors (o_drv out) = 0 \/ errors (o_drv out) = errors drv)
       /\ (hanged_count (o_log out) = hanged_count log \/ os_strcasecmp cmd "RELOAD" = 0)).
  { intros (H1 & H2 & H3). repeat split; auto; eapply Hfin; eassumption. }
  unfold wpa_driver_wext_driver_cmd in Hrun.
  assert (Hg : negb (driver_is_started drv) && negb (os_strcasecmp cmd "START" =? 0) = false).
  { destruct Hguard as [->| ->]; [reflexivity|]. apply andb_false_r. }
  rewrite Hg in Hrun.
  destruct (driver_cmd_rewrite E drv log cmd buf 0) as [r|] eqn:Hrw;
    cbn [mbind option_bind] in Hrun; [|discriminate].
  pose proof (driver_cmd_rewrite_cases E drv log cmd buf r Hrw Hpno) as Hcases.
  destruct r as [o|[[[d l] c] ret]].
  { injection Hrun as <-. destruct Hcases as (H1 & H2 & H3). auto. }
  destruct Hcases as (Hret & Hl & Hd).
  destruct (os_memcpy buf 0 _) as [b|]; cbn [mbind option_bind] in Hrun; [|discriminate].
  destruct (os_strncasecmp c "CSCAN" 5 =? 0).
  - destruct (ctx d) as [wpa_s|]; cbn [mbind option_bind] in Hrun; [|discriminate].
    destruct (_ && _).
    + destruct (wpa_driver_wext_set_cscan_params b buf_len c) as [[[b' c'] n]|];
        cbn [mbind option_bind] in Hrun; [|discriminate].
      destruct (sys_ioctl E b' (to_u16 n)) as [ioctl_ret reply].
      destruct (Hfin _ _ _ _ _ _ Hrun) as (H1 & H2 & H3).
      rewrite hanged_count_app in H3. cbn in H3.
      repeat split; auto. left. lia.
    + cbn [mbind option_bind] in Hrun. injection Hrun as <-. cbn.
      repeat split; auto.
  - cbn [mbind option_bind] in Hrun.
    destruct (sys_ioctl E b (to_u16 buf_len)) as [ioctl_ret reply].
    destruct (Hfin _ _ _ _ _ _ Hrun) as (H1 & H2 & H3).
    rewrite hanged_count_app in H3. cbn in H3.
    repeat split; auto. left. lia.
Qed.

(** *** The call returns *)

Lemma count_ioctl_result_ctx (ret : Z) (drv : wpa_driver_wext_data) (log : list event) :
  ctx (count_ioctl_result ret drv log).1 = ctx drv.
Proof.
  unfold count_ioctl_result.
  destruct (ret <? 0); [|reflexivity]. now destruct (_ >? _).
Qed.

Lemma driver_cmd_rewrite_returns
    (E : environment) (drv : wpa_driver_wext_data) (log : list event)
    (cmd : string) (buf : list Z) :
  pno_macros_ok ->
  strlen cmd + 1 <= Z.of_nat (length buf) ->
  11 <= Z.of_nat (length buf) ->
  exists r, driver_cmd_rewrite E drv log cmd buf 0 = Some r
            /\ match r with
               | inl _ => True
               | inr (d, _, c, _) => ctx d = ctx drv /\ strlen c + 1 <= Z.of_nat (length buf)
               end.
Proof.
  intros Hok Hfit Hlen. unfold driver_cmd_rewrite.
  assert (Htake : forall (n : nat) (src : string),
            (String.length src <= 10)%nat ->
            strlen (str_take n src) + 1 <= Z.of_nat (length buf)).
  { intros n src Hsrc. unfold strlen. pose proof (str_take_length src n). lia. }
  assert (Hcopy : forall lit src : string,
            lit_nonzero lit = true ->
            (String.length src <= String.length lit)%nat ->
            os_strcasecmp cmd lit = 0 ->
            exists c : string,
              os_strncpy cmd src MAX_DRV_CMD_SIZE = Some c
              /\ strlen c + 1 <= Z.of_nat (length buf)).
  { intros lit src Hnz Hsrc Hcmp.
    pose proof (lower_prefix_length lit cmd (strcasecmp_prefix lit cmd Hnz Hcmp)) as Hlit.
    destruct (os_strncpy_over cmd src MAX_DRV_CMD_SIZE) as (c & Hc & Hclen); [lia|].
    exists c. split; [exact Hc|]. unfold strlen in *. lia. }
  destruct (Z.eqb_spec (os_strcasecmp cmd "RSSI-APPROX") 0) as [Hrssi|_].
  { destruct (Hcopy "RSSI-APPROX"%string RSSI_CMD eq_refl) as (c & -> & Hc);
      [cbn; lia|exact Hrssi|].
    cbn [mbind option_bind]. eexists. split; [reflexivity|]. now split. }
  destruct (os_strncasecmp cmd "SCAN-CHANNELS" 13 =? 0).
  { eexists. split; [reflexivity|]. split; [reflexivity|]. apply Htake.
    destruct (country_code_cases (atoi (str_drop 13 cmd))) as [H|[H|H]]; rewrite H; cbn; lia. }
  destruct (os_strcasecmp cmd "STOP" =? 0).
  { eexists. split; [reflexivity|]. now split. }
  destruct (os_strcasecmp cmd "RELOAD" =? 0).
  { eexists. split; [reflexivity|]. exact I. }
  destruct (Z.eqb_spec (os_strcasecmp cmd "BGSCAN-START") 0) as [Hstart|_].
  - assert (Hset : exists d l ret,
              wpa_driver_set_backgroundscan_params E (Some drv) log = Some (Some d, l, ret)
              /\ ctx d = ctx drv).
    { destruct (ctx drv) as [wpa_s|] eqn:Hctx.
      2:{ unfold wpa_driver_set_backgroundscan_params. rewrite Hctx. now eexists _, _, _. }
      destruct (conf wpa_s) as [ssid_conf|] eqn:Hconf.
      2:{ unfold wpa_driver_set_backgroundscan_params. rewrite Hctx, Hconf.
          now eexists _, _, _. }
      destruct (set_backgroundscan_params_run E drv log wpa_s ssid_conf Hok Hctx Hconf)
        as (b & len & Hrun). cbn zeta in Hrun.
      eexists _, _, _. split; [exact Hrun|].
      now rewrite count_ioctl_result_ctx. }
    destruct Hset as (d & l & ret & -> & Hd). cbn [mbind option_bind default].
    destruct (ret <? 0).
    + eexists. split; [reflexivity|]. exact I.
    + destruct (Hcopy "BGSCAN-START"%string "PNOFORCE 1"%string eq_refl) as (c & -> & Hc);
        [cbn; lia|exact Hstart|].
      cbn [mbind option_bind]. eexists. split; [reflexivity|]. split; [exact Hd|exact Hc].
  - destruct (Z.eqb_spec (os_strcasecmp cmd "BGSCAN-STOP") 0) as [Hstop|_].
    + destruct (Hcopy "BGSCAN-STOP"%string "PNOFORCE 0"%string eq_refl) as (c & -> & Hc);
        [cbn; lia|exact Hstop|].
      cbn [mbind option_bind]. eexists. split; [reflexivity|]. now split.
    + eexists. split; [reflexivity|]. now split.
Qed.

(** A call on a driver with a session attached returns, when the reply
    buffer holds the command, a rewritten command and a minimal CSCAN
    request, [buf_len] is the size of the buffer, the CSCAN header holds
    a NUL, and the kernel leaves a NUL-terminated reply. *)
Lemma driver_cmd_returns
    (E : environment) (drv : wpa_driver_wext_data) (log : list event)
    (cmd : string) (buf : list Z) (wpa_s : wpa_supplicant) :
  cscan_macros_ok -> pno_macros_ok ->
  ctx drv = Some wpa_s ->
  strlen cmd + 1 <= Z.of_nat (length buf) ->
  11 <= Z.of_nat (length buf) ->
  WEXT_CSCAN_HEADER_SIZE + 10 <= Z.of_nat (length buf) ->
  keeps_nul E ->
  In 0 WEXT_CSCAN_HEADER ->
  exists out : outcome,
    wpa_driver_wext_driver_cmd E drv log cmd buf (Z.of_nat (length buf)) = Some out.
Proof.
  intros Hcs Hpno Hctx Hfit Hlen Hcap Hnul Hhdr. unfold wpa_driver_wext_driver_cmd.
  destruct (_ && _); [now eexists|].
  destruct (driver_cmd_rewrite_returns E drv log cmd buf Hpno Hfit Hlen) as (r & -> & Hr).
  cbn [mbind option_bind].
  destruct r as [o|[[[d l] c] ret]]; [now eexists|].
  destruct Hr as [Hd Hc]. rewrite Hctx in Hd.
  rewrite memcpy_command by exact Hc. cbn [mbind option_bind].
  set (b := (bytes_of_string c ++ [0]) ++ drop (String.length c + 1) buf).
  assert (Hb : length b = length buf).
  { subst b. unfold strlen in Hc.
    rewrite !length_app, bytes_of_string_length, length_drop. cbn [length]. lia. }
  assert (Hb0 : In 0 b).
  { subst b. apply in_or_app. left. apply in_or_app. right. now left. }
  assert (Hquery : forall (c0 : string) (b0 : list Z) (l0 : list event) (r0 : Z),
            In 0 b0 ->
            exists out, driver_cmd_finish r0 d l0 c0 b0 = Some out).
  { intros c0 b0 l0 r0 Hin. unfold driver_cmd_finish. cbn [Z.ltb Z.compare].
    destruct (buf_strlen_some b0 Hin) as (n & ->).
    destruct (_ || _); [now eexists|].
    destruct (os_strcasecmp c0 "START" =? 0); [now eexists|].
    destruct (os_strcasecmp c0 "STOP" =? 0); [now eexists|].
    destruct (os_strncasecmp c0 "CSCAN" 5 =? 0); [|now eexists].
    change (ctx (set_errors d 0)) with (ctx d). rewrite Hd. cbn [mbind option_bind].
    unfold wpa_supplicant_notify_scanning. now eexists. }
  destruct (Z.eqb_spec (os_strncasecmp c "CSCAN" 5) 0) as [Hcscan|Hother].
  - rewrite Hd. cbn [mbind option_bind].
    destruct (_ && _); [|now eexists].
    destruct (cscan_parse c) as [[c' dwell] channel] eqn:Hparse.
    rewrite <- Hb in Hcap |- *.
    destruct (set_cscan_params_layout b c c' dwell channel Hcs Hparse Hcap) as [Hrun _].
    cbn zeta in Hrun. rewrite Hrun. cbn [mbind option_bind].
    match goal with |- context [sys_ioctl E ?req ?n] =>
      assert (Hreq : In 0 req)
        by (apply in_or_app; left; unfold cscan_layout; apply in_or_app; now left);
      pose proof (Hnul req n Hreq) as Hreply;
      destruct (sys_ioctl E req n) as [ioctl_ret reply]
    end.
    apply Hquery. exact Hreply.
  - cbn [mbind option_bind].
    destruct (sys_ioctl E b (to_u16 (Z.of_nat (length buf)))) as [ioctl_ret reply] eqn:Hio.
    apply Hquery.
    specialize (Hnul b (to_u16 (Z.of_nat (length buf))) Hb0). now rewrite Hio in Hnul.
Qed.

(** C1: the status of the private ioctl never reaches the caller nor the
    error counter.  The stage after the ioctl is the same for every
    status; it yields a status that is not negative, resets the error
    counter and sends no HANGED notification.  Hence a call that passes
    the Stopped-state guard and, for BGSCAN-START, the PNO step returns a
    status that is not negative, whatever status the kernel answers; it
    leaves the error counter at 0 or as it was, and sends a HANGED
    notification only for RELOAD.  The call returns when the kernel leaves
    a NUL in a reply buffer that had one, which is what the [strlen(buf)]
    of line 368 needs; the CSCAN header holds a NUL for that.  *)
Theorem driver_cmd_ioctl_status_overridden
    (E : environment) (drv : wpa_driver_wext_data) (log : list event)
    (cmd : string) (buf : list Z) (wpa_s : wpa_supplicant) :
  cscan_macros_ok -> pno_macros_ok ->
  ctx drv = Some wpa_s ->
  strlen cmd + 1 <= Z.of_nat (length buf) ->
  11 <= Z.of_nat (length buf) ->
  WEXT_CSCAN_HEADER_SIZE + 10 <= Z.of_nat (length buf) ->
  keeps_nul E ->
  In 0 WEXT_CSCAN_HEADER ->
  driver_is_started drv = true \/ os_strcasecmp cmd "START" = 0 ->
  (os_strcasecmp cmd "BGSCAN-START" = 0 ->
   forall priv' log' ret,
     wpa_driver_set_backgroundscan_params E (Some drv) log = Some (priv', log', ret) ->
     0 <= ret) ->
  (exists out : outcome,
      wpa_driver_wext_driver_cmd E drv log cmd buf (Z.of_nat (length buf)) = Some out
      /\ 0 <= o_ret out
      /\ (errors (o_drv out) = 0 \/ errors (o_drv out) = errors drv)
      /\ (hanged_count (o_log out) = hanged_count log \/ os_strcasecmp cmd "RELOAD" = 0))
  /\ (forall (r : Z) (d : wpa_driver_wext_data) (l : list event) (c : string) (b : list Z),
        driver_cmd_finish r d l c b = driver_cmd_finish 0 d l c b)
  /\ (forall (r : Z) (d : wpa_driver_wext_data) (l : list event) (c : string) (b : list Z)
             (o : outcome),
        driver_cmd_finish r d l c b = Some o ->
        0 <= o_ret o /\ errors (o_drv o) = 0 /\ hanged_count (o_log o) = hanged_count l).
Proof.
  intros Hcs Hpno Hctx Hfit Hlen Hcap Hnul Hhdr Hguard Hstep.
  destruct (driver_cmd_returns E drv log cmd buf wpa_s Hcs Hpno Hctx Hfit Hlen Hcap Hnul Hhdr)
    as (out & Hrun).
  destruct (driver_cmd_status_nonneg E drv log cmd buf _ out Hrun Hguard Hstep)
    as (H1 & H2 & H3 & H4 & H5).
  split; [|split; assumption].
  exists out. auto.
Qed.

End DispatchProofs.

(** * The statements at the Android valuation *)

Lemma android_cscan_macros_ok : @cscan_macros_ok android_macros.
Proof. unfold cscan_macros_ok. cbn. lia. Defined.

Lemma android_pno_macros_ok : @pno_macros_ok android_macros.
Proof. unfold pno_macros_ok. cbn. lia. Defined.

Lemma cscan_params_within_capacity_witness :
  @cscan_macros_ok android_macros
  /\ @cscan_parse android_macros "CSCAN 6,TIME=1000" = ("CSCAN 6"%string, 1000, 6)
  /\ @WEXT_CSCAN_HEADER_SIZE android_macros + 10 <= Z.of_nat (length (replicate 40 0))
  /\ exists (buf' : list Z) (bp : Z),
       @wpa_driver_wext_set_cscan_params android_macros (replicate 40 0)
         (Z.of_nat (length (replicate 40 0))) "CSCAN 6,TIME=1000"
       = Some (buf', "CSCAN 6"%string, bp)
       /\ 0 <= bp <= Z.of_nat (length (replicate 40 0))
       /\ length buf' = length (replicate 40 0).
Proof.
  assert (Hparse : @cscan_parse android_macros "CSCAN 6,TIME=1000" = ("CSCAN 6"%string, 1000, 6))
    by reflexivity.
  assert (Hcap : @WEXT_CSCAN_HEADER_SIZE android_macros + 10 <= Z.of_nat (length (replicate 40 0)))
    by (cbn; lia).
  split; [exact android_cscan_macros_ok|]. split; [exact Hparse|]. split; [exact Hcap|].
  destruct (@cscan_params_within_capacity android_macros (replicate 40 0)
              "CSCAN 6,TIME=1000" "CSCAN 6" 1000 6 android_cscan_macros_ok Hparse Hcap)
    as (buf' & bp & n & d & Hrun & Hbp & Hlen & _).
  exists buf', bp. auto.
Defined.

Lemma cscan_all_channels_clamps_dwell_witness :
  @cscan_macros_ok android_macros
  /\ @cscan_parse android_macros "CSCAN 0,TIME=5000" = ("CSCAN 0"%string, 5000, 0)
  /\ @WEXT_CSCAN_HEADER_SIZE android_macros + 10 <= Z.of_nat (length (replicate 40 0))
  /\ exists (buf' : list Z) (bp lo hi : Z),
       @wpa_driver_wext_set_cscan_params android_macros (replicate 40 0)
         (Z.of_nat (length (replicate 40 0))) "CSCAN 0,TIME=5000"
       = Some (buf', "CSCAN 0"%string, bp)
       /\ le16 lo hi = Z.min 5000 (@WEXT_CSCAN_PASV_DWELL_TIME_MAX android_macros).
Proof.
  assert (Hparse : @cscan_parse android_macros "CSCAN 0,TIME=5000" = ("CSCAN 0"%string, 5000, 0))
    by reflexivity.
  assert (Hcap : @WEXT_CSCAN_HEADER_SIZE android_macros + 10 <= Z.of_nat (length (replicate 40 0)))
    by (cbn; lia).
  split; [exact android_cscan_macros_ok|]. split; [exact Hparse|]. split; [exact Hcap|].
  destruct (@cscan_all_channels_clamps_dwell android_macros (replicate 40 0)
              "CSCAN 0,TIME=5000" "CSCAN 0" 5000 android_cscan_macros_ok Hparse Hcap)
    as (buf' & bp & lo & hi & Hrun & _ & _ & _ & Hle).
  exists buf', bp, lo, hi. auto.
Defined.

Lemma cscan_channel_dwell_is_default_witness :
  @cscan_macros_ok android_macros
  /\ @cscan_parse android_macros "CSCAN 6,TIME=1000" = ("CSCAN 6"%string, 1000, 6)
  /\ 6 <> 0
  /\ @WEXT_CSCAN_HEADER_SIZE android_macros + 10 <= Z.of_nat (length (replicate 40 0))
  /\ exists (buf' : list Z) (bp lo hi : Z),
       @wpa_driver_wext_set_cscan_params android_macros (replicate 40 0)
         (Z.of_nat (length (replicate 40 0))) "CSCAN 6,TIME=1000"
       = Some (buf', "CSCAN 6"%string, bp)
       /\ le16 lo hi = @WEXT_CSCAN_PASV_DWELL_TIME_DEF android_macros.
Proof.
  assert (Hparse : @cscan_parse android_macros "CSCAN 6,TIME=1000" = ("CSCAN 6"%string, 1000, 6))
    by reflexivity.
  assert (Hnz : 6 <> 0) by lia.
  assert (Hcap : @WEXT_CSCAN_HEADER_SIZE android_macros + 10 <= Z.of_nat (length (replicate 40 0)))
    by (cbn; lia).
  split; [exact android_cscan_macros_ok|]. split; [exact Hparse|].
  split; [exact Hnz|]. split; [exact Hcap|].
  destruct (@cscan_channel_dwell_is_default android_macros (replicate 40 0)
              "CSCAN 6,TIME=1000" "CSCAN 6" 1000 6 android_cscan_macros_ok Hparse Hnz Hcap)
    as (buf' & bp & lo & hi & Hrun & _ & _ & _ & Hle & _).
  exists buf', bp, lo, hi. auto.
Defined.

Lemma pno_setup_within_capacity_witness :
  @pno_macros_ok android_macros
  /\ Z.of_nat (length (replicate 565 0)) = @WEXT_PNO_MAX_COMMAND_SIZE android_macros
  /\ exists (buf' : list Z) (bp : Z),
       @pno_setup_buffer android_macros (replicate 17 long_ssid_network) (replicate 565 0)
       = Some (buf', bp)
       /\ 0 <= bp <= @WEXT_PNO_MAX_COMMAND_SIZE android_macros.
Proof.
  assert (Hcap : Z.of_nat (length (replicate 565 0)) = @WEXT_PNO_MAX_COMMAND_SIZE android_macros)
    by reflexivity.
  split; [exact android_pno_macros_ok|]. split; [exact Hcap|].
  destruct (@pno_setup_within_capacity android_macros (replicate 17 long_ssid_network)
              (replicate 565 0) android_pno_macros_ok Hcap)
    as (buf' & bp & sel & Hrun & _ & Hbp & _).
  exists buf', bp. auto.
Defined.

Lemma pno_setup_ssid_sections_witness :
  @pno_macros_ok android_macros
  /\ Z.of_nat (length (replicate 565 0)) = @WEXT_PNO_MAX_COMMAND_SIZE android_macros
  /\ (exists (buf' : list Z) (bp : Z) (k : nat),
        @pno_setup_buffer android_macros (replicate 17 long_ssid_network) (replicate 565 0)
        = Some (buf', bp)
        /\ Z.of_nat k <= Z.max 0 (@WEXT_PNO_AMOUNT android_macros)
        /\ bp = 13 + 15 * 34 + 7 + 1)
  /\ @pno_emits_amount android_macros (replicate 17 short_ssid_network).
Proof.
  assert (Hcap : Z.of_nat (length (replicate 565 0)) = @WEXT_PNO_MAX_COMMAND_SIZE android_macros)
    by reflexivity.
  split; [exact android_pno_macros_ok|]. split; [exact Hcap|]. split.
  - destruct (@pno_setup_ssid_sections android_macros (replicate 17 long_ssid_network)
                (replicate 565 0) android_pno_macros_ok Hcap)
      as [(buf' & bp & k & Hrun & Hk & _) _].
    exists buf', bp, k. split; [exact Hrun|]. split; [exact Hk|].
    vm_compute in Hrun. now injection Hrun as _ <-.
  - apply (proj2 (@pno_setup_ssid_sections android_macros (replicate 17 short_ssid_network)
                    (replicate 565 0) android_pno_macros_ok Hcap)).
    + vm_compute. discriminate.
    + reflexivity.
Defined.

(** C5 at the stock values of the header: seventeen enabled networks with
    32-octet SSIDs are more than [WEXT_PNO_AMOUNT] = 16 eligible entries,
    yet the encoder emits fifteen sections.  The capacity check of line 228
    leaves the loop at cursor 523, although a sixteenth section of 34
    bytes, the closing sections and the terminating NUL end exactly at
    byte 565 of the 565-byte buffer, which is the room the comment of
    line 227 asks for. *)
Lemma pno_long_ssids_emit_fewer :
  @WEXT_PNO_AMOUNT android_macros
  < Z.of_nat (length (List.filter (@pno_eligible android_macros)
                                  (replicate 17 long_ssid_network)))
  /\ ~ @pno_emits_amount android_macros (replicate 17 long_ssid_network)
  /\ (exists buf',
        @pno_setup_buffer android_macros (replicate 17 long_ssid_network) (replicate 565 0)
        = Some (buf', 13 + 15 * 34 + 7 + 1))
  /\ @pno_no_room android_macros (13 + 15 * 34) = true
  /\ 13 + 16 * 34 + @WEXT_PNO_NONSSID_SECTIONS_SIZE android_macros + 1
     = @WEXT_PNO_MAX_COMMAND_SIZE android_macros.
Proof.
  split; [reflexivity|]. split; [|split; [|split; reflexivity]].
  - intros H. destruct (H (replicate 565 0) eq_refl) as (buf' & bp & Hrun & _ & Hbp).
    vm_compute in Hrun. injection Hrun as _ <-.
    vm_compute in Hbp. discriminate Hbp.
  - eexists. vm_compute. reflexivity.
Qed.

Lemma failing_kernel_keeps_nul : keeps_nul failing_kernel.
Proof.
  intros b n Hin. unfold kernel_write. cbn [sys_ioctl failing_kernel snd app length drop].
  now rewrite firstn_all.
Defined.

Lemma android_cscan_header_nul : In 0 (@WEXT_CSCAN_HEADER android_macros).
Proof. cbn. repeat (first [left; reflexivity | right]). Defined.

Lemma driver_cmd_ioctl_status_overridden_witness :
  @cscan_macros_ok android_macros /\ @pno_macros_ok android_macros
  /\ ctx (started_driver 2) = Some idle_session
  /\ strlen "POWERMODE 1" + 1 <= Z.of_nat (length (replicate 64 0))
  /\ 11 <= Z.of_nat (length (replicate 64 0))
  /\ @WEXT_CSCAN_HEADER_SIZE android_macros + 10 <= Z.of_nat (length (replicate 64 0))
  /\ keeps_nul failing_kernel
  /\ In 0 (@WEXT_CSCAN_HEADER android_macros)
  /\ (driver_is_started (started_driver 2) = true \/ os_strcasecmp "POWERMODE 1" "START" = 0)
  /\ exists out : outcome,
       @wpa_driver_wext_driver_cmd android_macros failing_kernel (started_driver 2) []
         "POWERMODE 1" (replicate 64 0) (Z.of_nat (length (replicate 64 0))) = Some out
       /\ 0 <= o_ret out
       /\ (errors (o_drv out) = 0 \/ errors (o_drv out) = errors (started_driver 2)).
Proof.
  assert (Hctx : ctx (started_driver 2) = Some idle_session) by reflexivity.
  assert (Hfit : strlen "POWERMODE 1" + 1 <= Z.of_nat (length (replicate 64 0)))
    by (unfold strlen; cbn; lia).
  assert (Hlen : 11 <= Z.of_nat (length (replicate 64 0))) by (cbn; lia).
  assert (Hcap : @WEXT_CSCAN_HEADER_SIZE android_macros + 10
                 <= Z.of_nat (length (replicate 64 0))) by (cbn; lia).
  assert (Hguard : driver_is_started (started_driver 2) = true
                   \/ os_strcasecmp "POWERMODE 1" "START" = 0) by (left; reflexivity).
  split; [exact android_cscan_macros_ok|]. split; [exact android_pno_macros_ok|].
  repeat (split; [assumption|]).
  split; [exact failing_kernel_keeps_nul|]. split; [exact android_cscan_header_nul|].
  split; [exact Hguard|].
  destruct (@driver_cmd_ioctl_status_overridden android_macros failing_kernel
              (started_driver 2) [] "POWERMODE 1" (replicate 64 0) idle_session
              android_cscan_macros_ok android_pno_macros_ok Hctx Hfit Hlen Hcap
              failing_kernel_keeps_nul android_cscan_header_nul Hguard)
    as [(out & Hrun & Hret & Herr & _) _].
  - intros Hbg. vm_compute in Hbg. discriminate Hbg.
  - exists out. auto.
Defined.

(** C2 as stated fails in [wpa_driver_wext_driver_cmd]: the private
    ioctl is issued and fails with -1, and the error counter, which stood
    at 2, is reset to 0 instead of going to 3. *)
Lemma failed_private_ioctl_resets_counter :
  exists (out : outcome) (payload : list Z),
    @wpa_driver_wext_driver_cmd android_macros failing_kernel (started_driver 2) []
      "POWERMODE 1" (replicate 64 0) 64 = Some out
    /\ o_log out = [IoctlPriv payload 64]
    /\ (sys_ioctl failing_kernel payload 64).1 = -1
    /\ errors (started_driver 2) = 2
    /\ errors (o_drv out) = 0
    /\ errors (o_drv out) <> errors (started_driver 2) + 1.
Proof.
  eexists _, _. split; [vm_compute; reflexivity|].
  cbn [o_log o_drv]. split; [reflexivity|]. split; [reflexivity|].
  split; [reflexivity|]. split; [reflexivity|]. cbn. lia.
Qed.

Lemma error_counter_policy_witness :
  @pno_macros_ok android_macros
  /\ ctx (started_driver 0) = Some idle_session
  /\ conf idle_session = Some []
  /\ exists (drv' : wpa_driver_wext_data) (log' : list event),
       @repeat_backgroundscan android_macros
         (S (Z.to_nat (@DRV_NUMBER_SEQUENTIAL_ERRORS android_macros)))
         failing_kernel (Some (started_driver 0)) []
       = Some (Some drv', log')
       /\ errors drv' = 0
       /\ hanged_count log' = 1%nat.
Proof.
  assert (Hctx : ctx (started_driver 0) = Some idle_session) by reflexivity.
  assert (Hconf : conf idle_session = Some []) by reflexivity.
  split; [exact android_pno_macros_ok|]. split; [exact Hctx|]. split; [exact Hconf|].
  destruct (@error_counter_policy android_macros failing_kernel (started_driver 0) []
              idle_session [] android_pno_macros_ok Hctx Hconf) as (_ & Hrep & _).
  destruct Hrep as (drv' & log' & Hrun & Herr & Hcount).
  - intros b n. cbn. lia.
  - reflexivity.
  - cbn. lia.
  - exists drv', log'. auto.
Defined.

Lemma driver_cmd_stopped_state_witness :
  driver_is_started stopped_driver = false
  /\ @wpa_driver_wext_driver_cmd android_macros failing_kernel stopped_driver []
       "STOP" (replicate 64 0) 64
     = Some {| o_drv := stopped_driver; o_cmd := "STOP"; o_buf := replicate 64 0;
               o_log := []; o_ret := -1 |}
  /\ exists out : outcome,
       @wpa_driver_wext_driver_cmd android_macros failing_kernel stopped_driver []
         "start" (replicate 64 0) 64 = Some out
       /\ driver_is_started (o_drv out) = true
       /\ o_ret out = 0.
Proof.
  assert (Hstopped : driver_is_started stopped_driver = false) by reflexivity.
  split; [exact Hstopped|].
  split.
  - apply (@driver_cmd_stopped_state android_macros failing_kernel stopped_driver []
             "STOP" (replicate 64 0) 64 Hstopped).
    vm_compute. discriminate.
  - destruct (@driver_cmd_stopped_state android_macros failing_kernel stopped_driver []
                "start" (replicate 64 0) 64 Hstopped) as [_ Hstart].
    destruct Hstart as [Hnul _].
    + reflexivity.
    + unfold strlen. cbn. lia.
    + destruct Hnul as (out & Hrun & Hs & Hret & _).
      * vm_compute. repeat (first [left; reflexivity | right]).
      * exists out. auto.
Defined.

Lemma cscan_while_scanning_is_noop_witness :
  driver_is_started scanning_driver = true
  /\ os_strncasecmp "CSCAN 6,TIME=1000" "CSCAN" 5 = 0
  /\ ctx scanning_driver = Some scanning_session
  /\ strlen "CSCAN 6,TIME=1000" + 1 <= Z.of_nat (length (replicate 64 0))
  /\ scanning scanning_session <> 0
  /\ @wpa_driver_wext_driver_cmd android_macros failing_kernel scanning_driver []
       "CSCAN 6,TIME=1000" (replicate 64 0) 64
     = Some {| o_drv := scanning_driver; o_cmd := "CSCAN 6,TIME=1000";
               o_buf := (bytes_of_string "CSCAN 6,TIME=1000" ++ [0])
                        ++ drop (String.length "CSCAN 6,TIME=1000" + 1) (replicate 64 0);
               o_log := []; o_ret := 0 |}.
Proof.
  assert (Hstarted : driver_is_started scanning_driver = true) by reflexivity.
  assert (Hcmd : os_strncasecmp "CSCAN 6,TIME=1000" "CSCAN" 5 = 0) by reflexivity.
  assert (Hctx : ctx scanning_driver = Some scanning_session) by reflexivity.
  assert (Hfit : strlen "CSCAN 6,TIME=1000" + 1 <= Z.of_nat (length (replicate 64 0)))
    by (unfold strlen; cbn; lia).
  assert (Hscan : scanning scanning_session <> 0) by (cbn; lia).
  repeat (split; [assumption|]).
  apply (@cscan_while_scanning_is_noop android_macros failing_kernel scanning_driver []
           "CSCAN 6,TIME=1000" (replicate 64 0) 64 scanning_session
           Hstarted Hcmd Hctx Hfit).
  left. exact Hscan.
Defined.

Lemma scan_channels_country_codes_witness :
  driver_is_started (started_driver 0) = true
  /\ os_strncasecmp "scan-channels13" "SCAN-CHANNELS" 13 = 0
  /\ 11 <= @MAX_DRV_CMD_SIZE android_macros
  /\ 11 <= Z.of_nat (length (replicate 64 0))
  /\ exists out : outcome,
       @wpa_driver_wext_driver_cmd android_macros failing_kernel (started_driver 0) []
         "scan-channels13" (replicate 64 0) 64 = Some out
       /\ o_ret out = 0
       /\ o_cmd out = "COUNTRY EU"%string.
Proof.
  assert (Hstarted : driver_is_started (started_driver 0) = true) by reflexivity.
  assert (Hcmd : os_strncasecmp "scan-channels13" "SCAN-CHANNELS" 13 = 0) by reflexivity.
  assert (Hmax : 11 <= @MAX_DRV_CMD_SIZE android_macros) by (cbn; lia).
  assert (Hfit : 11 <= Z.of_nat (length (replicate 64 0))) by (cbn; lia).
  repeat (split; [assumption|]).
  destruct (@scan_channels_country_codes android_macros failing_kernel (started_driver 0) []
              "scan-channels13" (replicate 64 0) 64 Hstarted Hcmd Hmax Hfit)
    as (_ & Hreply & _).
  destruct Hreply as (out & Hrun & Hret & _ & _ & _ & Hetsi & _).
  - vm_compute. repeat (first [left; reflexivity | right]).
  - exists out. split; [exact Hrun|]. split; [exact Hret|]. apply Hetsi. reflexivity.
Defined.

(** C8 as stated fails where the header defines the ETSI count as 13 and
    the MKK1 count as 14: SCAN-CHANNELS14 is then rewritten to COUNTRY JP,
    not to COUNTRY EU. *)
Lemma scan_channels14_is_japan :
  @WEXT_NUMBER_SCAN_CHANNELS_ETSI android_macros = 13
  /\ @WEXT_NUMBER_SCAN_CHANNELS_MKK1 android_macros = 14
  /\ exists out : outcome,
       @wpa_driver_wext_driver_cmd android_macros failing_kernel (started_driver 0) []
         "SCAN-CHANNELS14" (replicate 64 0) 64 = Some out
       /\ o_cmd out = "COUNTRY JP"%string
       /\ o_cmd out <> "COUNTRY EU"%string.
Proof.
  split; [reflexivity|]. split; [reflexivity|].
  eexists. split; [vm_compute; reflexivity|].
  cbn [o_cmd]. split; [reflexivity|discriminate].
Qed.

(** * Further properties of the shim *)

(** ** Scan timeouts *)

Lemma pending_scan_timeouts_app (l1 l2 : list event) : forall pending : list Z,
  pending_scan_timeouts (l1 ++ l2) pending
  = pending_scan_timeouts l2 (pending_scan_timeouts l1 pending).
Proof.
  induction l1 as [|e l1 IH]; intros pending; cbn [app pending_scan_timeouts]; [reflexivity|].
  destruct e; apply IH.
Qed.

Lemma scan_timer_events_app (l1 l2 : list scan_effect) :
  scan_timer_events (l1 ++ l2) = scan_timer_events l1 ++ scan_timer_events l2.
Proof.
  induction l1 as [|e l1 IH]; cbn [app scan_timer_events]; [reflexivity|].
  destruct e; cbn [app]; now rewrite IH.
Qed.

(** X1: whatever the event loop held before, after
    [wpa_driver_wext_set_scan_timeout] exactly one scan timeout is
    pending: the earlier ones are cancelled and one of 30 seconds (the
    driver reports scan completion) or 10 seconds (it does not) is
    registered. *)
Theorem set_scan_timeout_leaves_one_pending
    (drv : wpa_driver_wext_data) (log : list event) (pending : list Z) :
  pending_scan_timeouts (wpa_driver_wext_set_scan_timeout drv log) pending
  = [scan_timeout_secs drv]
  /\ (scan_complete_events drv <> 0 -> scan_timeout_secs drv = 30)
  /\ (scan_complete_events drv = 0 -> scan_timeout_secs drv = 10).
Proof.
  unfold wpa_driver_wext_set_scan_timeout, scan_timeout_secs.
  rewrite pending_scan_timeouts_app. cbn [pending_scan_timeouts app].
  split; [reflexivity|].
  destruct (Z.eqb_spec (scan_complete_events drv) 0); cbn [negb]; split; intros; congruence.
Qed.

(** ** wpa_driver_wext_combo_scan *)

Section ComboScanProofs.
Context `{M : wext_macros} `{L : linux_macros}.

Lemma os_memcpy_fresh (n : nat) (src : list Z) :
  (length src <= n)%nat ->
  os_memcpy (replicate n 0) 0 src = Some (src ++ replicate (n - length src) 0).
Proof.
  intros Hlen.
  pose proof (os_memcpy_at src [] (replicate n 0)) as H.
  cbn [app length] in H. change (Z.of_nat 0) with 0 in H.
  rewrite H by (rewrite length_replicate; lia).
  now rewrite drop_replicate.
Qed.

(** X2: a scan request with an SSID longer than [IW_ESSID_MAX_SIZE] is
    refused with -1 before anything happens: no ioctl, no timeout.  A
    wildcard request (no SSID, or length 0) within the limit sends an
    ioctl without scan request, length 0 and flags 0; it returns 0 when
    the ioctl succeeds and -1 when it fails, and in both cases cancels
    the scan timeout and registers a new one, so that exactly one is
    pending afterwards. *)
Theorem combo_scan_wildcard_or_refused
    (ioctl_scan : iwreq -> Z) (ifname : string) (drv : wpa_driver_wext_data)
    (params : wpa_driver_scan_ssid) (log : list scan_effect) :
  (IW_ESSID_MAX_SIZE < sc_ssid_len params ->
   wpa_driver_wext_combo_scan ioctl_scan ifname drv params log = Some (log, -1))
  /\ (sc_ssid_len params <= IW_ESSID_MAX_SIZE ->
      sc_ssid params = None \/ sc_ssid_len params = 0 ->
      let iwr := {| ifr_name := os_strlcpy ifname IFNAMSIZ; u_data_pointer := None;
                    u_data_length := 0; u_data_flags := 0 |} in
      let log' := log ++ [ScanIoctl iwr; ScanTimer CancelScanTimeout;
                          ScanTimer (RegisterScanTimeout (scan_timeout_secs drv))] in
      wpa_driver_wext_combo_scan ioctl_scan ifname drv params log
      = Some (log', if ioctl_scan iwr <? 0 then -1 else 0)
      /\ forall pending : list Z,
           pending_scan_timeouts (scan_timer_events log') pending = [scan_timeout_secs drv]).
Proof.
  unfold wpa_driver_wext_combo_scan. split.
  - intros Hlong. destruct (Z.gtb_spec (sc_ssid_len params) IW_ESSID_MAX_SIZE); [reflexivity|lia].
  - intros Hlen Hwild. cbn zeta.
    destruct (Z.gtb_spec (sc_ssid_len params) IW_ESSID_MAX_SIZE); [lia|].
    split.
    + destruct Hwild as [-> | ->]; [reflexivity|].
      destruct (sc_ssid params); reflexivity.
    + intros pending. rewrite scan_timer_events_app, pending_scan_timeouts_app. reflexivity.
Qed.

(** X3: a scan request for one SSID of 1 to [IW_ESSID_MAX_SIZE] octets
    never overflows the request it builds: the ESSID field keeps its
    [IW_ESSID_MAX_SIZE] bytes, holds the SSID followed by zeros, and
    [essid_len] is the SSID length, so that the first [essid_len] bytes of
    the field are the SSID again; the BSSID is the broadcast address.
    The ioctl is sent with this request and the flag
    [IW_SCAN_THIS_ESSID]; the call returns 0 or -1 with the status of the
    ioctl, and registers the scan timeout in both cases. *)
Theorem combo_scan_ssid_request
    (ioctl_scan : iwreq -> Z) (ifname : string) (drv : wpa_driver_wext_data)
    (octets : list Z) (ssid_len : Z) (log : list scan_effect) :
  linux_macros_ok ->
  IW_ESSID_MAX_SIZE < 256 ->
  0 < ssid_len <= IW_ESSID_MAX_SIZE ->
  ssid_len <= Z.of_nat (length octets) ->
  exists (iwr : iwreq) (req : iw_scan_req),
    wpa_driver_wext_combo_scan ioctl_scan ifname drv
      {| sc_ssid := Some octets; sc_ssid_len := ssid_len |} log
    = Some (log ++ [ScanIoctl iwr; ScanTimer CancelScanTimeout;
                    ScanTimer (RegisterScanTimeout (scan_timeout_secs drv))],
            if ioctl_scan iwr <? 0 then -1 else 0)
    /\ u_data_pointer iwr = Some req
    /\ u_data_flags iwr = to_u16 IW_SCAN_THIS_ESSID
    /\ req_essid_len req = ssid_len
    /\ Z.of_nat (length (req_essid req)) = IW_ESSID_MAX_SIZE
    /\ req_essid req
       = take (Z.to_nat ssid_len) octets
         ++ replicate (Z.to_nat (IW_ESSID_MAX_SIZE - ssid_len)) 0
    /\ take (Z.to_nat (req_essid_len req)) (req_essid req) = take (Z.to_nat ssid_len) octets
    /\ req_bssid_sa_family req = ARPHRD_ETHER
    /\ req_bssid_sa_data req
       = replicate (Z.to_nat ETH_ALEN) 255 ++ replicate (Z.to_nat (SA_DATA_LEN - ETH_ALEN)) 0.
Proof.
  intros [Heth Hiw] Hu8 Hlen Hsrc.
  unfold wpa_driver_wext_combo_scan. cbn [sc_ssid sc_ssid_len].
  destruct (Z.gtb_spec ssid_len IW_ESSID_MAX_SIZE); [lia|].
  destruct (Z.eqb_spec ssid_len 0); [lia|]. cbn [negb].
  unfold combo_scan_request.
  rewrite os_memcpy_fresh by (rewrite length_replicate; lia). cbn [mbind option_bind].
  unfold read_bytes.
  destruct (Z.leb_spec 0 ssid_len); [|lia].
  destruct (Z.leb_spec ssid_len (Z.of_nat (length octets))); [|lia].
  cbn [andb mbind option_bind].
  assert (Htake : length (take (Z.to_nat ssid_len) octets) = Z.to_nat ssid_len)
    by (rewrite length_take; lia).
  rewrite os_memcpy_fresh by lia. cbn [mbind option_bind].
  rewrite Htake, length_replicate.
  eexists _, _. split; [reflexivity|].
  cbn [u_data_pointer u_data_flags req_essid_len req_essid req_bssid_sa_family
       req_bssid_sa_data].
  assert (Hu : to_u8 ssid_len = ssid_len) by (unfold to_u8; apply Z.mod_small; lia).
  rewrite Hu.
  replace (Z.to_nat IW_ESSID_MAX_SIZE - Z.to_nat ssid_len)%nat
    with (Z.to_nat (IW_ESSID_MAX_SIZE - ssid_len)) by lia.
  replace (Z.to_nat SA_DATA_LEN - Z.to_nat ETH_ALEN)%nat
    with (Z.to_nat (SA_DATA_LEN - ETH_ALEN)) by lia.
  repeat split; cbn [req_essid_len req_essid].
  - rewrite length_app, Htake, length_replicate. lia.
  - rewrite take_app_length'; [reflexivity|symmetry; exact Htake].
Qed.

End ComboScanProofs.

(** ** Commands of the dispatcher *)

(** A command equal to the literal [a] up to case differs from every
    literal that [a] differs from. *)
Lemma strcasecmp_differs (a : string) : forall b cmd : string,
  lit_nonzero a = true -> lit_nonzero b = true ->
  os_strcasecmp cmd a = 0 -> (os_strcasecmp a b =? 0) = false ->
  (os_strcasecmp cmd b =? 0) = false.
Proof.
  induction a as [|x a IH]; intros b cmd Ha Hb Hcmp Hab.
  - destruct cmd as [|c cmd]; [exact Hab|].
    cbn [os_strcasecmp] in Hcmp.
    destruct b as [|y b]; [discriminate Hab|].
    cbn [lit_nonzero] in Hb. apply andb_true_iff in Hb as [Hy _].
    apply negb_true_iff, Z.eqb_neq in Hy.
    cbn [os_strcasecmp]. rewrite Hcmp.
    destruct (Z.eqb_spec 0 (tolower (char_code y))); [lia|].
    apply Z.eqb_neq. lia.
  - cbn [lit_nonzero] in Ha. apply andb_true_iff in Ha as [Hx Ha].
    apply negb_true_iff, Z.eqb_neq in Hx.
    destruct cmd as [|c cmd]; cbn [os_strcasecmp] in Hcmp; [lia|].
    destruct (Z.eqb_spec (tolower (char_code c)) (tolower (char_code x))) as [Hc|]; [|lia].
    destruct b as [|y b]; cbn [os_strcasecmp] in Hab |- *.
    + apply Z.eqb_neq. lia.
    + cbn [lit_nonzero] in Hb. apply andb_true_iff in Hb as [_ Hb].
      rewrite Hc.
      destruct (Z.eqb_spec (tolower (char_code x)) (tolower (char_code y)));
        [now apply IH|exact Hab].
Qed.

Lemma strncasecmp_of_prefix (lit : string) : forall cmd : string,
  lower_prefix lit cmd -> os_strncasecmp cmd lit (String.length lit) = 0.
Proof.
  induction lit as [|l lit IH]; intros cmd Hpre; [now destruct cmd|].
  cbn [lower_prefix] in Hpre. destruct cmd as [|c cmd]; [contradiction|].
  destruct Hpre as [Hc Hpre].
  change (String.length (String l lit)) with (S (String.length lit)).
  cbn [os_strncasecmp]. rewrite Hc, Z.eqb_refl. now apply IH.
Qed.

(** [strlen] on a buffer yields the offset of its first NUL. *)
Lemma buf_strlen_spec (b : list Z) : forall n : Z,
  buf_strlen b = Some n ->
  exists pre rest : list Z,
    b = pre ++ 0 :: rest /\ Forall (fun x => x <> 0) pre /\ n = Z.of_nat (length pre).
Proof.
  induction b as [|x b IH]; intros n; cbn [buf_strlen]; [discriminate|].
  destruct (Z.eqb_spec x 0) as [->|Hx].
  - intros [= <-]. now exists [], b.
  - destruct (buf_strlen b) as [m|]; cbn; [|discriminate].
    intros [= <-]. destruct (IH m eq_refl) as (pre & rest & -> & Hpre & ->).
    exists (x :: pre), rest. split; [reflexivity|]. split; [now constructor|].
    cbn [length]. lia.
Qed.

Lemma buf_strlen_none (b : list Z) : ~ In 0 b -> buf_strlen b = None.
Proof.
  induction b as [|x b IH]; cbn [In buf_strlen]; [reflexivity|].
  intros Hnot. destruct (Z.eqb_spec x 0) as [->|_]; [tauto|].
  rewrite IH by tauto. reflexivity.
Qed.

Lemma kernel_write_length (buf reply : list Z) :
  length (kernel_write buf reply) = length buf.
Proof. unfold kernel_write. rewrite length_take, length_app, length_drop. lia. Qed.

Section CommandProofs.
Context `{M : wext_macros}.

(** The payload handed to the private ioctl for the command [c]: the
    command and its NUL over the start of the reply buffer. *)
Lemma driver_cmd_after_rewrite
    (E : environment) (drv d : wpa_driver_wext_data) (log l : list event)
    (cmd c : string) (buf : list Z) (buf_len ret : Z) :
  driver_is_started drv = true ->
  driver_cmd_rewrite E drv log cmd buf 0 = Some (inr (d, l, c, ret)) ->
  (os_strncasecmp c "CSCAN" 5 =? 0) = false ->
  strlen c + 1 <= Z.of_nat (length buf) ->
  let payload := (bytes_of_string c ++ [0]) ++ drop (String.length c + 1) buf in
  let r := sys_ioctl E payload (to_u16 buf_len) in
  wpa_driver_wext_driver_cmd E drv log cmd buf buf_len
  = driver_cmd_finish r.1 d (l ++ [IoctlPriv payload (to_u16 buf_len)]) c
      (kernel_write payload r.2).
Proof.
  intros Hstarted Hrw Hcscan Hfit payload r.
  unfold wpa_driver_wext_driver_cmd. rewrite Hstarted. cbn [negb andb].
  rewrite Hrw. cbn [mbind option_bind].
  rewrite memcpy_command by exact Hfit. cbn [mbind option_bind].
  rewrite Hcscan. cbn [mbind option_bind]. fold payload.
  subst r. now destruct (sys_ioctl E payload (to_u16 buf_len)).
Qed.

(** A command equal up to case to a literal that is none of the rewritten
    commands is passed on as it is. *)
Lemma driver_cmd_rewrite_literal
    (a : string) (E : environment) (drv : wpa_driver_wext_data) (log : list event)
    (cmd : string) (buf : list Z) (ret : Z) :
  lit_nonzero a = true ->
  os_strcasecmp cmd a = 0 ->
  (os_strcasecmp a "RSSI-APPROX" =? 0) = false ->
  lit_clash 13 a "SCAN-CHANNELS" = true ->
  (os_strcasecmp a "STOP" =? 0) = false ->
  (os_strcasecmp a "RELOAD" =? 0) = false ->
  (os_strcasecmp a "BGSCAN-START" =? 0) = false ->
  (os_strcasecmp a "BGSCAN-STOP" =? 0) = false ->
  driver_cmd_rewrite E drv log cmd buf ret = Some (inr (drv, log, cmd, ret)).
Proof.
  intros Ha Hcmp H1 H2 H3 H4 H5 H6. unfold driver_cmd_rewrite.
  assert (Hpre : lower_prefix a cmd) by (now apply strcasecmp_prefix).
  rewrite (strcasecmp_differs a "RSSI-APPROX" cmd Ha eq_refl Hcmp H1).
  rewrite (strncasecmp_clash 13 a "SCAN-CHANNELS" cmd Hpre H2).
  rewrite (strcasecmp_differs a "STOP" cmd Ha eq_refl Hcmp H3).
  rewrite (strcasecmp_differs a "RELOAD" cmd Ha eq_refl Hcmp H4).
  rewrite (strcasecmp_differs a "BGSCAN-START" cmd Ha eq_refl Hcmp H5).
  rewrite (strcasecmp_differs a "BGSCAN-STOP" cmd Ha eq_refl Hcmp H6).
  reflexivity.
Qed.

(** After the ioctl a query command yields the length of the reply. *)
Lemma driver_cmd_finish_query
    (q : string) (r : Z) (d : wpa_driver_wext_data) (l : list event) (c : string)
    (b : list Z) :
  In q query_commands ->
  os_strcasecmp c q = 0 ->
  driver_cmd_finish r d l c b
  = (ret ← buf_strlen b;
     Some {| o_drv := set_errors d 0; o_cmd := c; o_buf := b; o_log := l; o_ret := ret |}).
Proof.
  intros Hq Hcmp. unfold driver_cmd_finish. cbn [Z.ltb Z.compare].
  assert (Hany : (os_strcasecmp c RSSI_CMD =? 0) || (os_strcasecmp c LINKSPEED_CMD =? 0)
                 || (os_strcasecmp c "MACADDR" =? 0) || (os_strcasecmp c "GETPOWER" =? 0)
                 || (os_strcasecmp c "GETBAND" =? 0) = true).
  { cbn [query_commands In] in Hq.
    destruct Hq as [<-|[<-|[<-|[<-|[<-|[]]]]]]; rewrite Hcmp; cbn [Z.eqb orb];
      rewrite ?orb_true_r; reflexivity. }
  rewrite Hany. now destruct (buf_strlen b).
Qed.

(** X4: for a started driver RELOAD never reaches the kernel: the call
    reports the driver as hung with one HANGED notification and returns 0
    at once; no ioctl is issued, the reply buffer is not written to
    (whatever its size) and the driver data is unchanged. *)
Theorem reload_only_reports_hanged
    (E : environment) (drv : wpa_driver_wext_data) (log : list event)
    (cmd : string) (buf : list Z) (buf_len : Z) :
  driver_is_started drv = true ->
  os_strcasecmp cmd "RELOAD" = 0 ->
  wpa_driver_wext_driver_cmd E drv log cmd buf buf_len
  = Some {| o_drv := drv; o_cmd := cmd; o_buf := buf;
            o_log := log ++ [DriverStateHanged]; o_ret := 0 |}.
Proof.
  intros Hstarted Hcmp.
  unfold wpa_driver_wext_driver_cmd. rewrite Hstarted. cbn [negb andb].
  assert (Hpre : lower_prefix "RELOAD" cmd) by (now apply strcasecmp_prefix).
  unfold driver_cmd_rewrite.
  rewrite (strcasecmp_clash 13 "RELOAD" "RSSI-APPROX" cmd Hpre eq_refl).
  rewrite (strncasecmp_clash 13 "RELOAD" "SCAN-CHANNELS" cmd Hpre eq_refl).
  rewrite (strcasecmp_clash 13 "RELOAD" "STOP" cmd Hpre eq_refl).
  rewrite Hcmp. reflexivity.
Qed.

(** X5: STOP on a started driver brings the interface down before the
    private ioctl is issued and hands the command to the ioctl unchanged.
    When the reply buffer holds a NUL after the ioctl, the call returns 0
    and leaves the driver in the Stopped state, whatever status the ioctl
    answers; from then on every command other than START is answered with
    -1 and has no effect.  When the reply buffer holds no NUL, the
    [strlen(buf)] of line 368 reads past its end. *)
Theorem stop_then_only_start
    (E : environment) (drv : wpa_driver_wext_data) (log : list event)
    (cmd : string) (buf : list Z) (buf_len : Z) :
  driver_is_started drv = true ->
  os_strcasecmp cmd "STOP" = 0 ->
  strlen cmd + 1 <= Z.of_nat (length buf) ->
  let payload := (bytes_of_string cmd ++ [0]) ++ drop (String.length cmd + 1) buf in
  let reply := kernel_write payload (sys_ioctl E payload (to_u16 buf_len)).2 in
  (In 0 reply ->
   exists out : outcome,
     wpa_driver_wext_driver_cmd E drv log cmd buf buf_len = Some out
     /\ o_ret out = 0
     /\ driver_is_started (o_drv out) = false
     /\ o_cmd out = cmd
     /\ o_buf out = reply
     /\ o_log out = log ++ [SetIfaceFlags 0; IoctlPriv payload (to_u16 buf_len)]
     /\ forall (E' : environment) (cmd' : string) (buf' : list Z) (buf_len' : Z),
          os_strcasecmp cmd' "START" <> 0 ->
          wpa_driver_wext_driver_cmd E' (o_drv out) (o_log out) cmd' buf' buf_len'
          = Some {| o_drv := o_drv out; o_cmd := cmd'; o_buf := buf';
                    o_log := o_log out; o_ret := -1 |})
  /\ (~ In 0 reply -> wpa_driver_wext_driver_cmd E drv log cmd buf buf_len = None).
Proof.
  intros Hstarted Hcmp Hfit payload reply.
  assert (Hpre : lower_prefix "STOP" cmd) by (now apply strcasecmp_prefix).
  assert (Hrw : driver_cmd_rewrite E drv log cmd buf 0
                = Some (inr (drv, log ++ [SetIfaceFlags 0], cmd, 0))).
  { unfold driver_cmd_rewrite.
    rewrite (strcasecmp_clash 13 "STOP" "RSSI-APPROX" cmd Hpre eq_refl).
    rewrite (strncasecmp_clash 13 "STOP" "SCAN-CHANNELS" cmd Hpre eq_refl).
    now rewrite Hcmp. }
  rewrite (driver_cmd_after_rewrite E drv drv log _ cmd cmd buf buf_len 0 Hstarted Hrw)
    by (exact Hfit || exact (strncasecmp_clash_le 5 5 "STOP" "CSCAN" cmd (le_n 5) Hpre eq_refl)).
  cbn zeta. fold payload. fold reply.
  split.
  - intros Hnul. rewrite (driver_cmd_finish_stop _ _ _ _ _ Hcmp Hnul).
    eexists. split; [reflexivity|].
    cbn [o_ret o_drv o_cmd o_buf o_log set_driver_is_started driver_is_started].
    split; [reflexivity|]. split; [reflexivity|]. split; [reflexivity|].
    split; [reflexivity|].
    split; [now rewrite <- app_assoc|].
    intros E' cmd' buf' buf_len' Hne. apply Z.eqb_neq in Hne.
    unfold wpa_driver_wext_driver_cmd. cbn [driver_is_started negb andb].
    now rewrite Hne.
  - intros Hnone. apply driver_cmd_finish_no_nul. now apply buf_strlen_none.
Qed.

(** For a command that is not special after the ioctl the call ends with
    status 0 and the error counter at 0, once the reply buffer holds a
    NUL. *)
Lemma driver_cmd_finish_plain
    (r : Z) (d : wpa_driver_wext_data) (l : list event) (c : string) (b : list Z) :
  plain_after_ioctl c = true ->
  In 0 b ->
  driver_cmd_finish r d l c b
  = Some {| o_drv := set_errors d 0; o_cmd := c; o_buf := b; o_log := l; o_ret := 0 |}.
Proof.
  unfold plain_after_ioctl, query_commands. cbn [existsb].
  rewrite !andb_true_iff, !negb_true_iff, !orb_false_iff.
  intros ((((H1 & H2 & H3 & H4 & H5 & _) & Hstart) & Hstop) & Hcscan) Hnul.
  apply driver_cmd_finish_other; try assumption.
  now rewrite H1, H2, H3, H4, H5.
Qed.

(** The rewriting stage for BGSCAN-START, once the PNO-setup buffer is
    built: the ioctl is issued and counted, and its status decides. *)
Lemma bgscan_start_rewrite
    (E : environment) (drv : wpa_driver_wext_data) (log : list event)
    (cmd : string) (buf pno : list Z) (bp : Z)
    (wpa_s : wpa_supplicant) (ssid_conf : list wpa_ssid) :
  os_strcasecmp cmd "BGSCAN-START" = 0 ->
  ctx drv = Some wpa_s ->
  conf wpa_s = Some ssid_conf ->
  pno_setup_buffer ssid_conf (local_array E WEXT_PNO_MAX_COMMAND_SIZE) = Some (pno, bp) ->
  let status := (sys_ioctl E pno (to_u16 bp)).1 in
  let r := count_ioctl_result status drv (log ++ [IoctlPriv pno (to_u16 bp)]) in
  driver_cmd_rewrite E drv log cmd buf 0
  = if status <? 0
    then Some (inl {| o_drv := r.1; o_cmd := cmd; o_buf := buf; o_log := r.2;
                      o_ret := status |})
    else c ← os_strncpy cmd "PNOFORCE 1" MAX_DRV_CMD_SIZE;
         Some (inr (set_bgscan_enabled r.1 1, r.2, c, status)).
Proof.
  intros Hcmp Hctx Hconf Hpno status r.
  assert (Hpre : lower_prefix "BGSCAN-START" cmd) by (now apply strcasecmp_prefix).
  unfold driver_cmd_rewrite.
  rewrite (strcasecmp_clash 13 "BGSCAN-START" "RSSI-APPROX" cmd Hpre eq_refl).
  rewrite (strncasecmp_clash 13 "BGSCAN-START" "SCAN-CHANNELS" cmd Hpre eq_refl).
  rewrite (strcasecmp_clash 13 "BGSCAN-START" "STOP" cmd Hpre eq_refl).
  rewrite (strcasecmp_clash 13 "BGSCAN-START" "RELOAD" cmd Hpre eq_refl).
  rewrite Hcmp. cbn [Z.eqb].
  unfold wpa_driver_set_backgroundscan_params. rewrite Hctx, Hconf, Hpno.
  cbn [mbind option_bind]. fold status. subst r.
  destruct (count_ioctl_result status drv (log ++ [IoctlPriv pno (to_u16 bp)])) as [d l].
  cbn [mbind option_bind default fst snd]. reflexivity.
Qed.

(** X6: BGSCAN-START on a started driver with a session and a network
    list first sends the PNO-setup buffer built from the list.  When that
    ioctl succeeds, the command is rewritten to "PNOFORCE 1" (the command
    buffer holds at least the 11 bytes of that text and its NUL) and sent
    in a second ioctl; when the reply buffer holds a NUL after it,
    background scanning is marked enabled and the call returns 0, and when
    it holds none the [strlen(buf)] of line 368 reads past its end.  When
    the first ioctl fails, the call returns its negative status at once:
    no second ioctl, the command and the reply buffer as they were, and
    the background-scan flag unchanged; the failure is counted, which may
    add one HANGED notification. *)
Theorem bgscan_start_sets_up_pno
    (E : environment) (drv : wpa_driver_wext_data) (log : list event)
    (cmd : string) (buf : list Z) (buf_len : Z)
    (wpa_s : wpa_supplicant) (ssid_conf : list wpa_ssid) :
  pno_macros_ok ->
  driver_is_started drv = true ->
  os_strcasecmp cmd "BGSCAN-START" = 0 ->
  ctx drv = Some wpa_s ->
  conf wpa_s = Some ssid_conf ->
  11 <= MAX_DRV_CMD_SIZE ->
  11 <= Z.of_nat (length buf) ->
  let payload := (bytes_of_string "PNOFORCE 1" ++ [0]) ++ drop 11 buf in
  let reply := kernel_write payload (sys_ioctl E payload (to_u16 buf_len)).2 in
  exists (pno : list Z) (bp : Z),
    pno_setup_buffer ssid_conf (local_array E WEXT_PNO_MAX_COMMAND_SIZE) = Some (pno, bp)
    /\ (0 <= (sys_ioctl E pno (to_u16 bp)).1 -> In 0 reply ->
        exists out : outcome,
          wpa_driver_wext_driver_cmd E drv log cmd buf buf_len = Some out
          /\ o_ret out = 0
          /\ o_cmd out = "PNOFORCE 1"%string
          /\ o_buf out = reply
          /\ bgscan_enabled (o_drv out) = 1
          /\ errors (o_drv out) = 0
          /\ o_log out = log ++ [IoctlPriv pno (to_u16 bp); IoctlPriv payload (to_u16 buf_len)])
    /\ (0 <= (sys_ioctl E pno (to_u16 bp)).1 -> ~ In 0 reply ->
        wpa_driver_wext_driver_cmd E drv log cmd buf buf_len = None)
    /\ ((sys_ioctl E pno (to_u16 bp)).1 < 0 ->
        exists out : outcome,
          wpa_driver_wext_driver_cmd E drv log cmd buf buf_len = Some out
          /\ o_ret out = (sys_ioctl E pno (to_u16 bp)).1
          /\ o_cmd out = cmd
          /\ o_buf out = buf
          /\ bgscan_enabled (o_drv out) = bgscan_enabled drv
          /\ (o_log out = log ++ [IoctlPriv pno (to_u16 bp)]
              \/ o_log out = log ++ [IoctlPriv pno (to_u16 bp); DriverStateHanged])).
Proof.
  intros Hok Hstarted Hcmp Hctx Hconf Hmax Hfit payload reply.
  assert (Hsize : 0 <= WEXT_PNO_MAX_COMMAND_SIZE).
  { destruct Hok as (Hh & Hshs & Hil & Hrl & Hml & Hnon & Hmin). lia. }
  destruct (pno_setup_buffer_run ssid_conf (local_array E WEXT_PNO_MAX_COMMAND_SIZE) Hok
              (local_array_length E _ Hsize)) as (pno & Hpno & _).
  eexists pno, _. split; [exact Hpno|].
  set (bp := Z.of_nat _ + _ + 1) in *. clearbody bp.
  pose proof (bgscan_start_rewrite E drv log cmd buf pno bp wpa_s ssid_conf
                Hcmp Hctx Hconf Hpno) as Hrw.
  cbn zeta in Hrw.
  set (status := (sys_ioctl E pno (to_u16 bp)).1) in *.
  set (log1 := log ++ [IoctlPriv pno (to_u16 bp)]) in *.
  destruct (count_ioctl_result_spec status drv log1) as (Hinc & Hhang & Hsucc).
  assert (Hforce : os_strncpy cmd "PNOFORCE 1" MAX_DRV_CMD_SIZE = Some "PNOFORCE 1"%string).
  { apply os_strncpy_fits. unfold strlen. cbn. lia. }
  assert (Hsent : 0 <= status ->
            wpa_driver_wext_driver_cmd E drv log cmd buf buf_len
            = driver_cmd_finish (sys_ioctl E payload (to_u16 buf_len)).1
                (set_bgscan_enabled drv 1) (log1 ++ [IoctlPriv payload (to_u16 buf_len)])
                "PNOFORCE 1" reply).
  { intros Hstatus. rewrite (Hsucc Hstatus) in Hrw. cbn [fst snd] in Hrw.
    destruct (Z.ltb_spec status 0); [lia|].
    rewrite Hforce in Hrw. cbn [mbind option_bind] in Hrw.
    rewrite (driver_cmd_after_rewrite E drv _ log _ cmd _ buf buf_len _ Hstarted Hrw)
      by (reflexivity || (unfold strlen; cbn; lia)).
    reflexivity. }
  split; [|split].
  - intros Hstatus Hnul. rewrite (Hsent Hstatus).
    rewrite driver_cmd_finish_plain by (reflexivity || exact Hnul).
    eexists. split; [reflexivity|].
    cbn [o_ret o_cmd o_buf o_drv o_log set_errors set_bgscan_enabled bgscan_enabled errors].
    repeat split.
    subst log1. now rewrite <- app_assoc.
  - intros Hstatus Hnone. rewrite (Hsent Hstatus).
    apply driver_cmd_finish_no_nul. now apply buf_strlen_none.
  - intros Hstatus.
    destruct (Z.ltb_spec status 0); [|lia].
    unfold wpa_driver_wext_driver_cmd. rewrite Hstarted. cbn [negb andb].
    rewrite Hrw. cbn [mbind option_bind].
    eexists. split; [reflexivity|]. cbn [o_ret o_cmd o_buf o_drv o_log].
    split; [reflexivity|]. split; [reflexivity|]. split; [reflexivity|].
    destruct (Z.le_gt_cases (errors drv + 1) DRV_NUMBER_SEQUENTIAL_ERRORS) as [Hle|Hgt].
    + rewrite (Hinc Hstatus Hle). cbn [fst snd set_errors bgscan_enabled].
      split; [reflexivity|now left].
    + rewrite (Hhang Hstatus Hgt). cbn [fst snd set_errors bgscan_enabled].
      split; [reflexivity|right]. subst log1. now rewrite <- app_assoc.
Qed.

(** X7: BGSCAN-START without a session, or with a session that has no
    configuration, fails with -1 before anything is sent: no ioctl, no
    notification, and the driver data, the command and the reply buffer
    stay as they were. *)
Theorem bgscan_start_needs_session
    (E : environment) (drv : wpa_driver_wext_data) (log : list event)
    (cmd : string) (buf : list Z) (buf_len : Z) :
  driver_is_started drv = true ->
  os_strcasecmp cmd "BGSCAN-START" = 0 ->
  ctx drv = None \/ (exists wpa_s : wpa_supplicant, ctx drv = Some wpa_s /\ conf wpa_s = None) ->
  wpa_driver_wext_driver_cmd E drv log cmd buf buf_len
  = Some {| o_drv := drv; o_cmd := cmd; o_buf := buf; o_log := log; o_ret := -1 |}.
Proof.
  intros Hstarted Hcmp Hnone.
  assert (Hpre : lower_prefix "BGSCAN-START" cmd) by (now apply strcasecmp_prefix).
  unfold wpa_driver_wext_driver_cmd. rewrite Hstarted. cbn [negb andb].
  unfold driver_cmd_rewrite.
  rewrite (strcasecmp_clash 13 "BGSCAN-START" "RSSI-APPROX" cmd Hpre eq_refl).
  rewrite (strncasecmp_clash 13 "BGSCAN-START" "SCAN-CHANNELS" cmd Hpre eq_refl).
  rewrite (strcasecmp_clash 13 "BGSCAN-START" "STOP" cmd Hpre eq_refl).
  rewrite (strcasecmp_clash 13 "BGSCAN-START" "RELOAD" cmd Hpre eq_refl).
  rewrite Hcmp. cbn [Z.eqb].
  unfold wpa_driver_set_backgroundscan_params.
  destruct Hnone as [->|(wpa_s & -> & ->)]; reflexivity.
Qed.

(** X8: BGSCAN-STOP on a started driver is rewritten to "PNOFORCE 0" (the
    command buffer holds at least the 11 bytes of that text and its NUL)
    and sent in one ioctl.  When the reply buffer holds a NUL after the
    ioctl, background scanning is marked disabled and the call returns 0,
    whatever status the ioctl answers; when it holds none, the
    [strlen(buf)] of line 368 reads past its end. *)
Theorem bgscan_stop_forces_pno_off
    (E : environment) (drv : wpa_driver_wext_data) (log : list event)
    (cmd : string) (buf : list Z) (buf_len : Z) :
  driver_is_started drv = true ->
  os_strcasecmp cmd "BGSCAN-STOP" = 0 ->
  11 <= MAX_DRV_CMD_SIZE ->
  11 <= Z.of_nat (length buf) ->
  let payload := (bytes_of_string "PNOFORCE 0" ++ [0]) ++ drop 11 buf in
  let reply := kernel_write payload (sys_ioctl E payload (to_u16 buf_len)).2 in
  (In 0 reply ->
   exists out : outcome,
     wpa_driver_wext_driver_cmd E drv log cmd buf buf_len = Some out
     /\ o_ret out = 0
     /\ o_cmd out = "PNOFORCE 0"%string
     /\ o_buf out = reply
     /\ bgscan_enabled (o_drv out) = 0
     /\ driver_is_started (o_drv out) = true
     /\ errors (o_drv out) = 0
     /\ o_log out = log ++ [IoctlPriv payload (to_u16 buf_len)])
  /\ (~ In 0 reply -> wpa_driver_wext_driver_cmd E drv log cmd buf buf_len = None).
Proof.
  intros Hstarted Hcmp Hmax Hfit payload reply.
  assert (Hpre : lower_prefix "BGSCAN-STOP" cmd) by (now apply strcasecmp_prefix).
  assert (Hforce : os_strncpy cmd "PNOFORCE 0" MAX_DRV_CMD_SIZE = Some "PNOFORCE 0"%string).
  { apply os_strncpy_fits. unfold strlen. cbn. lia. }
  assert (Hrw : driver_cmd_rewrite E drv log cmd buf 0
                = Some (inr (set_bgscan_enabled drv 0, log, "PNOFORCE 0"%string, 0))).
  { unfold driver_cmd_rewrite.
    rewrite (strcasecmp_clash 13 "BGSCAN-STOP" "RSSI-APPROX" cmd Hpre eq_refl).
    rewrite (strncasecmp_clash 13 "BGSCAN-STOP" "SCAN-CHANNELS" cmd Hpre eq_refl).
    rewrite (strcasecmp_clash 13 "BGSCAN-STOP" "STOP" cmd Hpre eq_refl).
    rewrite (strcasecmp_clash 13 "BGSCAN-STOP" "RELOAD" cmd Hpre eq_refl).
    rewrite (strcasecmp_clash 13 "BGSCAN-STOP" "BGSCAN-START" cmd Hpre eq_refl).
    now rewrite Hcmp, Hforce. }
  rewrite (driver_cmd_after_rewrite E drv _ log _ cmd _ buf buf_len _ Hstarted Hrw)
    by (reflexivity || (unfold strlen; cbn; lia)).
  cbn zeta.
  change ((bytes_of_string "PNOFORCE 0" ++ [0]) ++ drop (String.length "PNOFORCE 0" + 1) buf)
    with payload.
  fold reply.
  split.
  - intros Hnul. rewrite driver_cmd_finish_plain by (reflexivity || exact Hnul).
    eexists. split; [reflexivity|].
    cbn [o_ret o_cmd o_buf o_drv o_log set_errors set_bgscan_enabled bgscan_enabled
         driver_is_started errors].
    repeat split. exact Hstarted.
  - intros Hnone. apply driver_cmd_finish_no_nul. now apply buf_strlen_none.
Qed.

(** A query command is none of the rewritten commands and no CSCAN
    request. *)
Lemma query_command_sent
    (q : string) (E : environment) (drv : wpa_driver_wext_data) (log : list event)
    (cmd : string) (buf : list Z) (buf_len : Z) :
  In q query_commands ->
  os_strcasecmp cmd q = 0 ->
  driver_is_started drv = true ->
  strlen cmd + 1 <= Z.of_nat (length buf) ->
  let payload := (bytes_of_string cmd ++ [0]) ++ drop (String.length cmd + 1) buf in
  let r := sys_ioctl E payload (to_u16 buf_len) in
  wpa_driver_wext_driver_cmd E drv log cmd buf buf_len
  = driver_cmd_finish r.1 drv (log ++ [IoctlPriv payload (to_u16 buf_len)]) cmd
      (kernel_write payload r.2).
Proof.
  intros Hq Hcmp Hstarted Hfit.
  cbn [query_commands In] in Hq.
  destruct Hq as [<-|[<-|[<-|[<-|[<-|[]]]]]];
    (apply (driver_cmd_after_rewrite E drv drv log log cmd cmd buf buf_len 0);
     [exact Hstarted
     |match type of Hcmp with os_strcasecmp _ ?a = 0 =>
        apply (driver_cmd_rewrite_literal a E drv log cmd buf 0 eq_refl Hcmp); reflexivity
      end
     |match type of Hcmp with os_strcasecmp _ ?a = 0 =>
        apply (strncasecmp_clash_le 5 5 a "CSCAN" cmd (le_n 5)
                 (strcasecmp_prefix a cmd eq_refl Hcmp) eq_refl)
      end
     |exact Hfit]).
Qed.

(** X9: for RSSI, LINKSPEED, MACADDR, GETPOWER and GETBAND (compared up
    to case) on a started driver, the command is sent unchanged and the
    call returns the length of the text the driver left in the reply
    buffer: the offset of the first NUL, which lies inside the buffer.
    When the driver leaves no NUL in the buffer, the [strlen] of line 355
    reads past its end. *)
Theorem query_returns_reply_length
    (E : environment) (drv : wpa_driver_wext_data) (log : list event)
    (cmd q : string) (buf : list Z) (buf_len : Z) :
  In q query_commands ->
  os_strcasecmp cmd q = 0 ->
  driver_is_started drv = true ->
  strlen cmd + 1 <= Z.of_nat (length buf) ->
  let payload := (bytes_of_string cmd ++ [0]) ++ drop (String.length cmd + 1) buf in
  let reply := kernel_write payload (sys_ioctl E payload (to_u16 buf_len)).2 in
  (In 0 reply ->
   exists (out : outcome) (text rest : list Z),
     wpa_driver_wext_driver_cmd E drv log cmd buf buf_len = Some out
     /\ o_buf out = reply
     /\ reply = text ++ 0 :: rest
     /\ Forall (fun b => b <> 0) text
     /\ o_ret out = Z.of_nat (length text)
     /\ 0 <= o_ret out < Z.of_nat (length buf)
     /\ o_cmd out = cmd
     /\ o_log out = log ++ [IoctlPriv payload (to_u16 buf_len)])
  /\ (~ In 0 reply -> wpa_driver_wext_driver_cmd E drv log cmd buf buf_len = None).
Proof.
  intros Hq Hcmp Hstarted Hfit payload reply.
  rewrite (query_command_sent q E drv log cmd buf buf_len Hq Hcmp Hstarted Hfit).
  cbn zeta. fold payload. fold reply.
  rewrite (driver_cmd_finish_query q) by assumption.
  assert (Hlen : length reply = length buf).
  { subst reply. rewrite kernel_write_length. subst payload. unfold strlen in Hfit.
    rewrite !length_app, bytes_of_string_length, length_drop. cbn [length]. lia. }
  split.
  - intros Hnul. destruct (buf_strlen_some reply Hnul) as (n & Hn).
    destruct (buf_strlen_spec reply n Hn) as (text & rest & Hreply & Htext & ->).
    rewrite Hn. cbn [mbind option_bind].
    eexists _, text, rest. split; [reflexivity|]. cbn [o_buf o_ret o_cmd o_log].
    repeat split; try assumption; try lia.
    rewrite <- Hlen, Hreply, length_app. cbn [length]. lia.
  - intros Hnone. now rewrite (buf_strlen_none reply Hnone).
Qed.

(** X10: RSSI-APPROX on a started driver is rewritten to RSSI before it
    is sent (the command buffer holds at least the 5 bytes of that text
    and its NUL), and answered like RSSI: the call returns the length of
    the text the driver left in the reply buffer.  When the driver leaves
    no NUL in the buffer, the [strlen] of line 355 reads past its end. *)
Theorem rssi_approx_is_sent_as_rssi
    (E : environment) (drv : wpa_driver_wext_data) (log : list event)
    (cmd : string) (buf : list Z) (buf_len : Z) :
  driver_is_started drv = true ->
  os_strcasecmp cmd "RSSI-APPROX" = 0 ->
  5 <= MAX_DRV_CMD_SIZE ->
  5 <= Z.of_nat (length buf) ->
  let payload := (bytes_of_string "RSSI" ++ [0]) ++ drop 5 buf in
  let reply := kernel_write payload (sys_ioctl E payload (to_u16 buf_len)).2 in
  (In 0 reply ->
   exists (out : outcome) (text rest : list Z),
     wpa_driver_wext_driver_cmd E drv log cmd buf buf_len = Some out
     /\ o_cmd out = "RSSI"%string
     /\ o_log out = log ++ [IoctlPriv payload (to_u16 buf_len)]
     /\ o_buf out = reply
     /\ reply = text ++ 0 :: rest
     /\ Forall (fun b => b <> 0) text
     /\ o_ret out = Z.of_nat (length text))
  /\ (~ In 0 reply -> wpa_driver_wext_driver_cmd E drv log cmd buf buf_len = None).
Proof.
  intros Hstarted Hcmp Hmax Hfit payload reply.
  assert (Hrssi : os_strncpy cmd RSSI_CMD MAX_DRV_CMD_SIZE = Some "RSSI"%string).
  { apply os_strncpy_fits. unfold strlen. cbn. lia. }
  assert (Hrw : driver_cmd_rewrite E drv log cmd buf 0
                = Some (inr (drv, log, "RSSI"%string, 0))).
  { unfold driver_cmd_rewrite. now rewrite Hcmp, Hrssi. }
  rewrite (driver_cmd_after_rewrite E drv _ log _ cmd _ buf buf_len _ Hstarted Hrw)
    by (reflexivity || (unfold strlen; cbn; lia)).
  cbn zeta.
  change ((bytes_of_string "RSSI" ++ [0]) ++ drop (String.length "RSSI" + 1) buf)
    with payload.
  fold reply.
  rewrite (driver_cmd_finish_query RSSI_CMD) by (reflexivity || now left).
  split.
  - intros Hnul. destruct (buf_strlen_some reply Hnul) as (n & Hn).
    destruct (buf_strlen_spec reply n Hn) as (text & rest & Hreply & Htext & ->).
    rewrite Hn. cbn [mbind option_bind].
    eexists _, text, rest. split; [reflexivity|]. cbn [o_buf o_ret o_cmd o_log].
    repeat split; assumption.
  - intros Hnone. now rewrite (buf_strlen_none reply Hnone).
Qed.

(** Cutting the command at ",TIME=" leaves the CSCAN prefix in place. *)
Lemma cscan_parse_keeps_prefix (c c' : string) (dwell channel : Z) :
  lower_prefix "CSCAN" c ->
  cscan_parse c = (c', dwell, channel) ->
  lower_prefix "CSCAN" c'.
Proof.
  intros Hpre Hparse. unfold cscan_parse in Hparse.
  destruct (os_strstr c ",TIME=") as [k|] eqn:Hfind.
  - injection Hparse as <- _ _. apply lower_prefix_take; [exact Hpre|].
    now apply (strstr_past_prefix "CSCAN" c k).
  - now injection Hparse as <- _ _.
Qed.

(** A CSCAN request on a started driver whose session is busy returns 0
    after copying the command to the reply buffer. *)
Lemma cscan_when_busy
    (E : environment) (drv : wpa_driver_wext_data) (log : list event)
    (cmd : string) (buf : list Z) (buf_len : Z) (wpa_s : wpa_supplicant) :
  driver_is_started drv = true ->
  os_strncasecmp cmd "CSCAN" 5 = 0 ->
  ctx drv = Some wpa_s ->
  strlen cmd + 1 <= Z.of_nat (length buf) ->
  scanning wpa_s <> 0 ->
  wpa_driver_wext_driver_cmd E drv log cmd buf buf_len
  = Some {| o_drv := drv; o_cmd := cmd;
            o_buf := (bytes_of_string cmd ++ [0]) ++ drop (String.length cmd + 1) buf;
            o_log := log; o_ret := 0 |}.
Proof.
  intros Hstarted Hcscan Hctx Hfit Hbusy.
  unfold wpa_driver_wext_driver_cmd. rewrite Hstarted. cbn [negb andb].
  assert (Hpre : lower_prefix "CSCAN" cmd) by (now apply strncasecmp_prefix).
  rewrite (driver_cmd_rewrite_passthrough "CSCAN") by (exact Hpre || reflexivity).
  cbn [mbind option_bind].
  rewrite memcpy_command by exact Hfit. cbn [mbind option_bind].
  rewrite Hcscan, Hctx. cbn [Z.eqb mbind option_bind].
  apply Z.eqb_neq in Hbusy. now rewrite Hbusy.
Qed.

(** X11: a CSCAN request on a started driver whose session is idle (not
    scanning, state at most [WPA_SCANNING] or at least [WPA_COMPLETED])
    sends the encoded request, which starts with the CSCAN header, with
    the number of encoded bytes as data length.  When the reply buffer
    holds a NUL after the ioctl, the call cancels and registers the scan
    timeout and marks the session as scanning; it returns 0 whatever
    status the ioctl answers, and exactly one scan timeout is pending
    afterwards.  The supplicant state and the configuration of the session
    are untouched.  A further CSCAN request that arrives in the state
    reached is answered with 0 and has no effect.  When the reply buffer
    holds no NUL, the [strlen(buf)] of line 368 reads past its end. *)
Theorem cscan_starts_scan
    (E : environment) (drv : wpa_driver_wext_data) (log : list event)
    (cmd : string) (buf : list Z) (wpa_s : wpa_supplicant) :
  cscan_macros_ok ->
  driver_is_started drv = true ->
  os_strncasecmp cmd "CSCAN" 5 = 0 ->
  ctx drv = Some wpa_s ->
  scanning wpa_s = 0 ->
  wpa_state wpa_s <= WPA_SCANNING \/ WPA_COMPLETED <= wpa_state wpa_s ->
  strlen cmd + 1 <= Z.of_nat (length buf) ->
  WEXT_CSCAN_HEADER_SIZE + 10 <= Z.of_nat (length buf) ->
  exists (req : list Z) (bp : Z),
    WEXT_CSCAN_HEADER_SIZE + 10 <= bp <= Z.of_nat (length buf)
    /\ length req = length buf
    /\ take (length WEXT_CSCAN_HEADER) req = WEXT_CSCAN_HEADER
    /\ (In 0 (kernel_write req (sys_ioctl E req (to_u16 bp)).2) ->
        exists out : outcome,
          wpa_driver_wext_driver_cmd E drv log cmd buf (Z.of_nat (length buf)) = Some out
          /\ o_ret out = 0
          /\ o_cmd out = (cscan_parse cmd).1.1
          /\ o_buf out = kernel_write req (sys_ioctl E req (to_u16 bp)).2
          /\ o_log out
             = log ++ [IoctlPriv req (to_u16 bp); CancelScanTimeout;
                       RegisterScanTimeout (scan_timeout_secs drv); NotifyScanning 1]
          /\ ctx (o_drv out)
             = Some {| scanning := 1; wpa_state := wpa_state wpa_s; conf := conf wpa_s |}
          /\ (forall pending : list Z,
                pending_scan_timeouts (o_log out) pending = [scan_timeout_secs drv])
          /\ forall (E' : environment) (cmd' : string) (buf' : list Z) (buf_len' : Z),
               os_strncasecmp cmd' "CSCAN" 5 = 0 ->
               strlen cmd' + 1 <= Z.of_nat (length buf') ->
               exists out' : outcome,
                 wpa_driver_wext_driver_cmd E' (o_drv out) (o_log out) cmd' buf' buf_len'
                 = Some out'
                 /\ o_ret out' = 0 /\ o_log out' = o_log out /\ o_drv out' = o_drv out)
    /\ (~ In 0 (kernel_write req (sys_ioctl E req (to_u16 bp)).2) ->
        wpa_driver_wext_driver_cmd E drv log cmd buf (Z.of_nat (length buf)) = None).
Proof.
  intros Hok Hstarted Hcscan Hctx Hidle Hstate Hfit Hcap.
  assert (Hpre : lower_prefix "CSCAN" cmd) by (now apply strncasecmp_prefix).
  unfold wpa_driver_wext_driver_cmd. rewrite Hstarted. cbn [negb andb].
  rewrite (driver_cmd_rewrite_passthrough "CSCAN") by (exact Hpre || reflexivity).
  cbn [mbind option_bind].
  rewrite memcpy_command by exact Hfit. cbn [mbind option_bind].
  rewrite Hcscan, Hctx. cbn [Z.eqb mbind option_bind].
  assert (Hgate : (scanning wpa_s =? 0)
                  && ((wpa_state wpa_s <=? WPA_SCANNING) || (wpa_state wpa_s >=? WPA_COMPLETED))
                  = true).
  { rewrite Hidle. cbn [Z.eqb andb]. destruct Hstate as [Hlo|Hhi].
    - destruct (Z.leb_spec (wpa_state wpa_s) WPA_SCANNING); [reflexivity|lia].
    - destruct (Z.geb_spec (wpa_state wpa_s) WPA_COMPLETED); [apply orb_true_r|lia]. }
  rewrite Hgate.
  set (b := (bytes_of_string cmd ++ [0]) ++ drop (String.length cmd + 1) buf).
  assert (Hb : length b = length buf).
  { subst b. unfold strlen in Hfit.
    rewrite !length_app, bytes_of_string_length, length_drop. cbn [length]. lia. }
  destruct (cscan_parse cmd) as [[c' dwell] channel] eqn:Hparse.
  pose proof (cscan_parse_keeps_prefix cmd c' dwell channel Hpre Hparse) as Hpre'.
  rewrite <- Hb in Hcap |- *.
  destruct (set_cscan_params_layout b cmd c' dwell channel Hok Hparse Hcap) as [Hrun Hle].
  cbn zeta in Hrun, Hle.
  set (lay := cscan_layout _ channel _) in *.
  assert (Hlay : (length WEXT_CSCAN_HEADER + 10 <= length lay)%nat)
    by (subst lay; rewrite cscan_layout_length; lia).
  assert (Hcut : take (length WEXT_CSCAN_HEADER) lay = WEXT_CSCAN_HEADER)
    by (subst lay; unfold cscan_layout; now rewrite take_app_length).
  clearbody lay.
  rewrite Hrun. cbn [mbind option_bind].
  set (req := lay ++ drop (length lay) b).
  exists req, (Z.of_nat (length lay)).
  destruct Hok as (Hhdr & _).
  split; [lia|].
  split; [subst req; rewrite length_app, length_drop; lia|].
  split; [subst req; rewrite take_app_le by lia; exact Hcut|].
  destruct (sys_ioctl E req (to_u16 (Z.of_nat (length lay)))) as [ioctl_ret reply].
  cbn [snd].
  split.
  - intros Hnul. destruct (buf_strlen_some _ Hnul) as (n & Hn).
    unfold driver_cmd_finish. cbn [Z.ltb Z.compare].
    rewrite (not_a_query "CSCAN") by (exact Hpre' || reflexivity).
    rewrite (strcasecmp_clash 13 "CSCAN" "START" c' Hpre' eq_refl).
    rewrite (strcasecmp_clash 13 "CSCAN" "STOP" c' Hpre' eq_refl).
    pose proof (strncasecmp_of_prefix "CSCAN" c' Hpre') as Hcscan'.
    change (String.length "CSCAN") with 5%nat in Hcscan'.
    rewrite Hcscan'. cbn [Z.eqb].
    change (ctx (set_errors drv 0)) with (ctx drv). rewrite Hctx.
    cbn [mbind option_bind wpa_supplicant_notify_scanning].
    rewrite Hn. cbn [mbind option_bind].
    unfold wpa_driver_wext_set_scan_timeout.
    change (scan_complete_events (set_errors drv 0)) with (scan_complete_events drv).
    fold (scan_timeout_secs drv).
    eexists. split; [reflexivity|].
    cbn [o_ret o_cmd o_buf o_log o_drv set_ctx ctx fst].
    split; [reflexivity|]. split; [reflexivity|]. split; [reflexivity|].
    split; [now rewrite <- !app_assoc|].
    split; [reflexivity|].
    split.
    { intros pending. rewrite !pending_scan_timeouts_app. reflexivity. }
    intros E' cmd' buf' buf_len' Hcmd' Hfit'.
    eexists. split.
    + apply (cscan_when_busy E' _ _ cmd' buf' buf_len'
               {| scanning := 1; wpa_state := wpa_state wpa_s; conf := conf wpa_s |});
        [exact Hstarted|exact Hcmd'|reflexivity|exact Hfit'|cbn; lia].
    + now cbn.
  - intros Hnone. apply driver_cmd_finish_no_nul. now apply buf_strlen_none.
Qed.

(** X12: a command that none of the tests of the dispatcher recognises
    is forwarded to the driver byte for byte, NUL included, in one private
    ioctl whose data length is [buf_len] cut to 16 bits.  When the reply
    buffer holds a NUL after the ioctl, the call returns 0 and resets the
    error counter whatever status the ioctl answers, and leaves what the
    driver wrote in the reply buffer; when it holds none, the
    [strlen(buf)] of line 368 reads past its end. *)
Theorem plain_command_is_forwarded
    (E : environment) (drv : wpa_driver_wext_data) (log : list event)
    (cmd : string) (buf : list Z) (buf_len : Z) :
  driver_is_started drv = true ->
  plain_command cmd = true ->
  strlen cmd + 1 <= Z.of_nat (length buf) ->
  let payload := (bytes_of_string cmd ++ [0]) ++ drop (String.length cmd + 1) buf in
  let reply := kernel_write payload (sys_ioctl E payload (to_u16 buf_len)).2 in
  (In 0 reply ->
   wpa_driver_wext_driver_cmd E drv log cmd buf buf_len
   = Some {| o_drv := set_errors drv 0; o_cmd := cmd; o_buf := reply;
             o_log := log ++ [IoctlPriv payload (to_u16 buf_len)]; o_ret := 0 |})
  /\ (~ In 0 reply -> wpa_driver_wext_driver_cmd E drv log cmd buf buf_len = None).
Proof.
  intros Hstarted Hplain Hfit payload reply.
  unfold plain_command in Hplain.
  rewrite !andb_true_iff, !negb_true_iff in Hplain.
  destruct Hplain as (((((H1 & H2) & H3) & H4) & H5) & Hafter).
  pose proof Hafter as Hafter'.
  unfold plain_after_ioctl in Hafter'.
  rewrite !andb_true_iff, !negb_true_iff in Hafter'.
  destruct Hafter' as (((_ & _) & Hstop) & Hcscan).
  assert (Hrw : driver_cmd_rewrite E drv log cmd buf 0 = Some (inr (drv, log, cmd, 0))).
  { unfold driver_cmd_rewrite. now rewrite H1, H2, Hstop, H3, H4, H5. }
  rewrite (driver_cmd_after_rewrite E drv _ log _ cmd _ buf buf_len _ Hstarted Hrw Hcscan Hfit).
  cbn zeta. fold payload. fold reply.
  split.
  - intros Hnul. now rewrite driver_cmd_finish_plain.
  - intros Hnone. apply driver_cmd_finish_no_nul. now apply buf_strlen_none.
Qed.

End CommandProofs.

(** ** Stores that succeed *)

Lemma store_some (buf : list Z) (i v : Z) (b : list Z) :
  store buf i v = Some b -> length b = length buf /\ 0 <= i < Z.of_nat (length buf).
Proof.
  unfold store.
  destruct (Z.leb_spec 0 i); [|discriminate].
  destruct (Z.ltb_spec i (Z.of_nat (length buf))); [|discriminate].
  cbn [andb]. intros [= <-]. rewrite length_insert. lia.
Qed.

Lemma putc_some (v : Z) (w w' : cursor) :
  putc v w = Some w' ->
  length w'.1 = length w.1 /\ w'.2 = w.2 + 1 /\ 0 <= w.2 < Z.of_nat (length w.1).
Proof.
  unfold putc. destruct (store w.1 w.2 v) as [b|] eqn:Hst; cbn [mbind option_bind];
    [|discriminate].
  intros [= <-]. cbn [fst snd]. destruct (store_some _ _ _ _ Hst). auto.
Qed.

Lemma os_memcpy_some (src : list Z) : forall (buf : list Z) (off : Z) (b : list Z),
  os_memcpy buf off src = Some b ->
  length b = length buf
  /\ (src <> [] -> 0 <= off /\ off + Z.of_nat (length src) <= Z.of_nat (length buf)).
Proof.
  induction src as [|x src IH]; intros buf off b; cbn [os_memcpy].
  - intros [= <-]. split; [reflexivity|congruence].
  - destruct (store buf off x) as [b1|] eqn:Hst; cbn [mbind option_bind]; [|discriminate].
    intros Hcpy. destruct (store_some _ _ _ _ Hst) as [Hlen Hoff].
    destruct (IH b1 (off + 1) b Hcpy) as [Hlen' Hrest].
    split; [congruence|]. intros _. cbn [length].
    destruct src as [|y src]; [cbn [length]; lia|].
    destruct Hrest as [_ Hrest]; [discriminate|]. cbn [length] in *. lia.
Qed.

Section EncoderBounds.
Context `{M : wext_macros}.

(** The repetition loop, whatever [buf_len] is: it stays inside the buffer
    it is given, and when it has stored anything, the capacity check
    passed just before. *)
Lemma cscan_repeat_some (i : nat) (channel buf_len : Z) : forall w w' : cursor,
  cscan_repeat i channel buf_len w = Some w' ->
  length w'.1 = length w.1
  /\ (w'.2 = w.2 \/ (w.2 < w'.2 /\ w'.2 + 10 < buf_len /\ w'.2 <= Z.of_nat (length w.1))).
Proof.
  induction i as [|i IH]; intros w w'; cbn [cscan_repeat].
  - intros [= <-]. auto.
  - destruct (Z.geb_spec (w.2 + 12) buf_len) as [|Hroom]; [intros [= <-]; auto|].
    destruct (putc WEXT_CSCAN_CHANNEL_SECTION w) as [w1|] eqn:H1; cbn [mbind option_bind];
      [|discriminate].
    destruct (putc channel w1) as [w2|] eqn:H2; cbn [mbind option_bind]; [|discriminate].
    intros Hrep.
    destruct (putc_some _ _ _ H1) as (L1 & P1 & B1).
    destruct (putc_some _ _ _ H2) as (L2 & P2 & B2).
    destruct (IH w2 w' Hrep) as (L & Hpos).
    split; [congruence|]. right. lia.
Qed.

Lemma cscan_repeat_total (i : nat) (channel buf_len : Z) : forall w : cursor,
  0 <= w.2 -> buf_len <= Z.of_nat (length w.1) ->
  exists w' : cursor, cscan_repeat i channel buf_len w = Some w'.
Proof.
  induction i as [|i IH]; intros w Hpos Hlen; cbn [cscan_repeat]; [now eexists|].
  destruct (Z.geb_spec (w.2 + 12) buf_len) as [|Hroom]; [now eexists|].
  destruct (putc_in_range w WEXT_CSCAN_CHANNEL_SECTION) as (b1 & -> & S1); [lia|].
  cbn [mbind option_bind].
  assert (L1 : length b1 = length w.1) by apply S1.
  destruct (putc_in_range (b1, w.2 + 1) channel) as (b2 & -> & S2); [cbn [fst snd]; lia|].
  cbn [mbind option_bind fst snd].
  assert (L2 : length b2 = length w.1) by (destruct S2; cbn [fst] in *; congruence).
  apply IH; cbn [fst snd]; lia.
Qed.

(** A cursor inside its buffer, seen as what lies before and after it. *)
Lemma cursor_split (w : cursor) :
  0 <= w.2 <= Z.of_nat (length w.1) ->
  w = at_cursor (take (Z.to_nat w.2) w.1) (drop (Z.to_nat w.2) w.1).
Proof.
  intros Hw. destruct w as [b bp]. cbn [fst snd] in *. unfold at_cursor.
  rewrite take_drop, length_take. f_equal. lia.
Qed.

Ltac putc_case H :=
  match type of H with
  | context [putc ?v ?w] =>
      let w' := fresh "w" in
      let Hp := fresh "Hp" in
      destruct (putc v w) as [w'|] eqn:Hp; cbn [mbind option_bind] in H;
      [|discriminate H];
      apply putc_some in Hp; destruct Hp as (? & ? & ?)
  end.

(** What a returning call of the CSCAN encoder has done, whatever
    [buf_len] is. *)
Lemma set_cscan_params_some
    (buf : list Z) (buf_len : Z) (cmd : string) (b : list Z) (c : string) (bp : Z) :
  wpa_driver_wext_set_cscan_params buf buf_len cmd = Some (b, c, bp) ->
  length b = length buf
  /\ WEXT_CSCAN_HEADER_SIZE + 10 <= bp <= Z.of_nat (length buf)
  /\ bp <= Z.max (WEXT_CSCAN_HEADER_SIZE + 10) (buf_len - 3)
  /\ c = (cscan_parse cmd).1.1.
Proof.
  unfold wpa_driver_wext_set_cscan_params.
  destruct (cscan_parse cmd) as [[c0 dwell] channel]. cbn [fst].
  destruct (literal_bytes WEXT_CSCAN_HEADER WEXT_CSCAN_HEADER_SIZE) as [hdr|];
    cbn [mbind option_bind]; [|discriminate].
  destruct (os_memcpy buf 0 hdr) as [b0|] eqn:Hcpy; cbn [mbind option_bind]; [|discriminate].
  destruct (os_memcpy_some _ _ _ _ Hcpy) as [L0 _].
  intros H. do 2 putc_case H. cbn [fst snd] in *.
  destruct (Z.eqb_spec channel 0) as [Hz|Hnz]; cbn [negb mbind option_bind] in H.
  - do 8 putc_case H. injection H as <- <- <-.
    split; [congruence|]. split; [lia|]. split; [lia|reflexivity].
  - destruct (cscan_repeat _ channel buf_len w0) as [w1|] eqn:Hrep;
      cbn [mbind option_bind] in H; [|discriminate].
    destruct (cscan_repeat_some _ _ _ _ _ Hrep) as (L & Hpos).
    do 8 putc_case H. injection H as <- <- <-.
    split; [congruence|]. split; [lia|]. split; [lia|reflexivity].
Qed.

Lemma set_cscan_params_total (buf : list Z) (buf_len : Z) (cmd : string) :
  cscan_macros_ok ->
  WEXT_CSCAN_HEADER_SIZE + 10 <= Z.of_nat (length buf) ->
  buf_len <= Z.of_nat (length buf) ->
  exists r, wpa_driver_wext_set_cscan_params buf buf_len cmd = Some r.
Proof.
  intros (Hhdr & Hdef & Hmax) Hcap Hlen.
  unfold wpa_driver_wext_set_cscan_params.
  destruct (cscan_parse cmd) as [[c0 dwell] channel].
  rewrite Hhdr in *. rewrite literal_bytes_exact. cbn [mbind option_bind].
  pose proof (os_memcpy_at WEXT_CSCAN_HEADER [] buf) as Hcpy.
  cbn [app length] in Hcpy. change (Z.of_nat 0) with 0 in Hcpy. rewrite Hcpy by lia.
  clear Hcpy. cbn [mbind option_bind].
  set (hdr := WEXT_CSCAN_HEADER) in *.
  change (hdr ++ drop (length hdr) buf, Z.of_nat (length hdr))
    with (at_cursor hdr (drop (length hdr) buf)).
  do 2 step_putc.
  set (pre := (hdr ++ [WEXT_CSCAN_CHANNEL_SECTION]) ++ [channel]).
  set (rest := drop (length hdr + 1 + 1) buf).
  assert (Hpre : length pre = (length hdr + 2)%nat).
  { subst pre. rewrite !length_app. cbn [length]. lia. }
  assert (Hrest : length rest = (length buf - length hdr - 2)%nat).
  { subst rest. rewrite !length_drop. lia. }
  destruct (Z.eqb_spec channel 0) as [Hz|Hnz]; cbn [negb mbind option_bind].
  - rewrite cscan_tail_at by lia. now eexists.
  - match goal with |- context [cscan_repeat ?i channel buf_len ?w] =>
      destruct (cscan_repeat_total i channel buf_len w) as (w' & Hrep);
        [unfold at_cursor; cbn [fst snd]; lia
        |unfold at_cursor; cbn [fst snd]; rewrite length_app; lia|];
      rewrite Hrep; destruct (cscan_repeat_some _ _ _ _ _ Hrep) as (L & Hpos)
    end.
    cbn [mbind option_bind].
    unfold at_cursor in L, Hpos. cbn [fst snd] in L, Hpos. rewrite length_app in L, Hpos.
    rewrite (cursor_split w') by lia.
    rewrite cscan_tail_at by (rewrite length_drop; lia). now eexists.
Qed.

(** X14: the CSCAN encoder consults [buf_len] only in the loop that
    repeats the channel section; the header, the first channel section
    and the three closing sections, [WEXT_CSCAN_HEADER_SIZE] + 10 bytes,
    are stored without any capacity check.  So with a buffer of at least
    that size and a [buf_len] that does not exceed the buffer, the encoder
    returns, stays inside the buffer and reports between
    [WEXT_CSCAN_HEADER_SIZE] + 10 and max([WEXT_CSCAN_HEADER_SIZE] + 10,
    [buf_len] - 3) bytes, which is more than [buf_len] when [buf_len] is
    small; with a shorter buffer it stores past the end, whatever
    [buf_len] and the command are. *)
Theorem cscan_params_mandatory_part (buf : list Z) (buf_len : Z) (cmd : string) :
  cscan_macros_ok ->
  (WEXT_CSCAN_HEADER_SIZE + 10 <= Z.of_nat (length buf) ->
   buf_len <= Z.of_nat (length buf) ->
   exists (buf' : list Z) (bp : Z),
     wpa_driver_wext_set_cscan_params buf buf_len cmd = Some (buf', (cscan_parse cmd).1.1, bp)
     /\ length buf' = length buf
     /\ WEXT_CSCAN_HEADER_SIZE + 10 <= bp <= Z.of_nat (length buf)
     /\ bp <= Z.max (WEXT_CSCAN_HEADER_SIZE + 10) (buf_len - 3))
  /\ (Z.of_nat (length buf) < WEXT_CSCAN_HEADER_SIZE + 10 ->
      wpa_driver_wext_set_cscan_params buf buf_len cmd = None).
Proof.
  intros Hok. split.
  - intros Hcap Hlen.
    destruct (set_cscan_params_total buf buf_len cmd Hok Hcap Hlen) as ([[b c] bp] & Hrun).
    destruct (set_cscan_params_some _ _ _ _ _ _ Hrun) as (H1 & H2 & H3 & ->).
    now exists b, bp.
  - intros Hshort.
    destruct (wpa_driver_wext_set_cscan_params buf buf_len cmd) as [[[b c] bp]|] eqn:Hrun;
      [|reflexivity].
    destruct (set_cscan_params_some _ _ _ _ _ _ Hrun) as (_ & H2 & _). lia.
Qed.

(** X15: for a channel other than 0, when the buffer has room for them
    all, the encoder emits one channel section per default dwell period
    needed to cover the requested dwell time: 1 + (dwell - 1) /
    [WEXT_CSCAN_PASV_DWELL_TIME_DEF] sections, the least number whose
    periods add up to at least the dwell time; the request takes
    [WEXT_CSCAN_HEADER_SIZE] + 10 bytes plus 2 per extra section. *)
Theorem cscan_channel_sections_cover_dwell
    (buf : list Z) (cmd cmd' : string) (dwell channel : Z) :
  cscan_macros_ok ->
  cscan_parse cmd = (cmd', dwell, channel) ->
  channel <> 0 ->
  WEXT_CSCAN_HEADER_SIZE + 13 + 2 * ((dwell - 1) ÷ WEXT_CSCAN_PASV_DWELL_TIME_DEF)
  <= Z.of_nat (length buf) ->
  let i := (dwell - 1) ÷ WEXT_CSCAN_PASV_DWELL_TIME_DEF in
  exists (buf' : list Z) (bp : Z),
    wpa_driver_wext_set_cscan_params buf (Z.of_nat (length buf)) cmd = Some (buf', cmd', bp)
    /\ bp = WEXT_CSCAN_HEADER_SIZE + 10 + 2 * i
    /\ take (Z.to_nat bp) buf'
       = WEXT_CSCAN_HEADER
         ++ encode_cscan_sections
              (replicate (S (Z.to_nat i)) (ChannelSection channel)
               ++ [PasvDwellSection WEXT_CSCAN_PASV_DWELL_TIME_DEF;
                   HomeDwellSection WEXT_CSCAN_HOME_DWELL_TIME;
                   TypeSection WEXT_CSCAN_TYPE_PASSIVE])
    /\ 0 <= i
    /\ i * WEXT_CSCAN_PASV_DWELL_TIME_DEF < dwell <= (i + 1) * WEXT_CSCAN_PASV_DWELL_TIME_DEF.
Proof.
  intros Hok Hparse Hnz Hroom i.
  pose proof (cscan_parse_dwell_pos _ _ _ _ Hok Hparse) as Hd.
  pose proof Hok as (Hhdr & Hdef & Hmax).
  assert (Hi : i = (dwell - 1) / WEXT_CSCAN_PASV_DWELL_TIME_DEF)
    by (subst i; apply Z.quot_div_nonneg; lia).
  assert (Hi0 : 0 <= i) by (rewrite Hi; apply Z.div_pos; lia).
  assert (Hcover : i * WEXT_CSCAN_PASV_DWELL_TIME_DEF < dwell
                   <= (i + 1) * WEXT_CSCAN_PASV_DWELL_TIME_DEF).
  { rewrite Hi. clear Hroom Hi Hi0. clearbody i. Z.div_mod_to_equations. nia. }
  fold i in Hroom.
  assert (Hcap : WEXT_CSCAN_HEADER_SIZE + 10 <= Z.of_nat (length buf)) by lia.
  destruct (set_cscan_params_layout buf cmd cmd' dwell channel Hok Hparse Hcap) as [Hrun Hle].
  cbn zeta in Hrun, Hle.
  destruct (Z.eqb_spec channel 0) as [|_]; [contradiction|].
  assert (Hreps : Z.to_nat (cscan_repetitions dwell (Z.of_nat (length buf))) = Z.to_nat i).
  { unfold cscan_repetitions, cscan_fit. fold i. f_equal.
    clear Hrun Hle Hcover Hi. clearbody i. Z.div_mod_to_equations. lia. }
  rewrite Hreps in Hrun, Hle.
  set (lay := cscan_layout (Z.to_nat i) channel WEXT_CSCAN_PASV_DWELL_TIME_DEF) in *.
  assert (Hlay : length lay = (length WEXT_CSCAN_HEADER + 2 * Z.to_nat i + 10)%nat)
    by apply cscan_layout_length.
  exists (lay ++ drop (length lay) buf), (Z.of_nat (length lay)).
  split; [exact Hrun|]. split; [lia|].
  split; [|split; assumption].
  rewrite Nat2Z.id, take_app_length. reflexivity.
Qed.

End EncoderBounds.

(** ** What a command leaves alone *)

Lemma same_wiring_refl (drv : wpa_driver_wext_data) : same_wiring drv drv.
Proof. now repeat split. Qed.

Lemma same_wiring_trans (d1 d2 d3 : wpa_driver_wext_data) :
  same_wiring d1 d2 -> same_wiring d2 d3 -> same_wiring d1 d3.
Proof. intros (A1 & A2 & A3) (B1 & B2 & B3). repeat split; congruence. Qed.

Section FrameProofs.
Context `{M : wext_macros}.

Lemma count_ioctl_result_frame (ret : Z) (drv : wpa_driver_wext_data) (log : list event) :
  same_wiring drv (count_ioctl_result ret drv log).1
  /\ exists l : list event, (count_ioctl_result ret drv log).2 = log ++ l.
Proof.
  unfold count_ioctl_result.
  destruct (ret <? 0); [destruct (_ >? _)|]; cbn [fst snd]; (split; [now repeat split|]).
  - now eexists.
  - exists []. now rewrite app_nil_r.
  - exists []. now rewrite app_nil_r.
Qed.

Lemma driver_cmd_rewrite_frame
    (E : environment) (drv : wpa_driver_wext_data) (log : list event)
    (cmd : string) (buf : list Z) (ret : Z)
    (r : outcome + wpa_driver_wext_data * list event * string * Z) :
  driver_cmd_rewrite E drv log cmd buf ret = Some r ->
  match r with
  | inl o => o_buf o = buf /\ same_wiring drv (o_drv o)
             /\ exists l : list event, o_log o = log ++ l
  | inr (d, l, _, _) => same_wiring drv d /\ exists l' : list event, l = log ++ l'
  end.
Proof.
  assert (Hnil : exists l : list event, log = log ++ l)
    by (exists []; now rewrite app_nil_r).
  unfold driver_cmd_rewrite. intros Hrun.
  destruct (os_strcasecmp cmd "RSSI-APPROX" =? 0).
  { strncpy_case Hrun. injection Hrun as <-. split; [apply same_wiring_refl|exact Hnil]. }
  destruct (os_strncasecmp cmd "SCAN-CHANNELS" 13 =? 0).
  { injection Hrun as <-. split; [apply same_wiring_refl|exact Hnil]. }
  destruct (os_strcasecmp cmd "STOP" =? 0).
  { injection Hrun as <-. split; [apply same_wiring_refl|now eexists]. }
  destruct (os_strcasecmp cmd "RELOAD" =? 0).
  { injection Hrun as <-. cbn [o_buf o_drv o_log].
    split; [reflexivity|]. split; [apply same_wiring_refl|now eexists]. }
  destruct (os_strcasecmp cmd "BGSCAN-START" =? 0).
  - destruct (wpa_driver_set_backgroundscan_params E (Some drv) log)
      as [[[priv' log'] ret']|] eqn:Hset; cbn [mbind option_bind] in Hrun; [|discriminate].
    assert (Hframe : same_wiring drv (default drv priv')
                     /\ exists l : list event, log' = log ++ l).
    { unfold wpa_driver_set_backgroundscan_params in Hset.
      destruct (ctx drv) as [wpa_s|] eqn:Hctx.
      2:{ injection Hset as <- <- _. split; [apply same_wiring_refl|exact Hnil]. }
      destruct (conf wpa_s) as [ssid_conf|].
      2:{ injection Hset as <- <- _. split; [apply same_wiring_refl|exact Hnil]. }
      destruct (pno_setup_buffer _ _) as [[b bp]|]; cbn [mbind option_bind] in Hset;
        [|discriminate].
      destruct (count_ioctl_result_frame (sys_ioctl E b (to_u16 bp)).1 drv
                  (log ++ [IoctlPriv b (to_u16 bp)])) as (Hw & l & Hl).
      destruct (count_ioctl_result _ _ _) as [d0 l0]. cbn [fst snd] in Hw, Hl.
      injection Hset as <- <- _. cbn [default].
      split; [exact Hw|]. exists ([IoctlPriv b (to_u16 bp)] ++ l).
      now rewrite Hl, <- app_assoc. }
    destruct Hframe as [Hw Hl].
    destruct (ret' <? 0).
    + injection Hrun as <-. cbn [o_buf o_drv o_log]. auto.
    + strncpy_case Hrun. injection Hrun as <-.
      split; [|exact Hl]. destruct Hw as (W1 & W2 & W3). now repeat split.
  - destruct (os_strcasecmp cmd "BGSCAN-STOP" =? 0).
    + strncpy_case Hrun. injection Hrun as <-.
      split; [now repeat split|exact Hnil].
    + injection Hrun as <-. split; [apply same_wiring_refl|exact Hnil].
Qed.

Lemma driver_cmd_finish_frame
    (r : Z) (d : wpa_driver_wext_data) (l : list event) (c : string) (b : list Z)
    (o : outcome) :
  driver_cmd_finish r d l c b = Some o ->
  o_buf o = b /\ same_wiring d (o_drv o) /\ exists l' : list event, o_log o = l ++ l'.
Proof.
  assert (Hnil : exists l' : list event, l = l ++ l')
    by (exists []; now rewrite app_nil_r).
  unfold driver_cmd_finish. cbn [Z.ltb Z.compare].
  destruct (buf_strlen b) as [n|] eqn:Hn.
  2:{ intros Hrun. exfalso. revert Hrun.
      destruct (_ || _); [discriminate|].
      destruct (os_strcasecmp c "START" =? 0); [discriminate|].
      destruct (os_strcasecmp c "STOP" =? 0); [discriminate|].
      destruct (os_strncasecmp c "CSCAN" 5 =? 0); [|discriminate].
      change (ctx (set_errors d 0)) with (ctx d).
      destruct (ctx d); discriminate. }
  destruct (_ || _).
  - cbn [mbind option_bind].
    intros [= <-]. cbn [o_buf o_drv o_log]. split; [reflexivity|].
    split; [now repeat split|exact Hnil].
  - destruct (os_strcasecmp c "START" =? 0).
    { intros [= <-]. cbn [o_buf o_drv o_log]. split; [reflexivity|].
      split; [now repeat split|now eexists]. }
    destruct (os_strcasecmp c "STOP" =? 0).
    { intros [= <-]. cbn [o_buf o_drv o_log]. split; [reflexivity|].
      split; [now repeat split|exact Hnil]. }
    destruct (os_strncasecmp c "CSCAN" 5 =? 0).
    + change (ctx (set_errors d 0)) with (ctx d).
      destruct (ctx d) as [wpa_s|] eqn:Hctx; cbn [mbind option_bind]; [|discriminate].
      unfold wpa_supplicant_notify_scanning, wpa_driver_wext_set_scan_timeout.
      intros [= <-]. cbn [o_buf o_drv o_log]. split; [reflexivity|].
      split.
      * unfold same_wiring. cbn [set_ctx set_errors scan_complete_events ctx].
        rewrite Hctx. now repeat split.
      * eexists. rewrite <- app_assoc. reflexivity.
    + intros [= <-]. cbn [o_buf o_drv o_log]. split; [reflexivity|].
      split; [now repeat split|exact Hnil].
Qed.

(** X13: what [wpa_driver_wext_driver_cmd] leaves alone.  Whatever the
    command, the state of the driver and the answers of the kernel, a
    call that returns has kept the size of the reply buffer, has not
    touched [scan_complete_events], has left the session attached with
    its supplicant state and its configuration as they were, and has only
    added to the record of its effects.  And the call does return when a
    session is attached, the reply buffer holds the command, a rewritten
    command and a minimal CSCAN request, [buf_len] is the size of the
    buffer, the kernel leaves a NUL in a reply buffer that had one, which
    is what the [strlen(buf)] of line 368 needs, and the CSCAN header
    holds a NUL. *)
Theorem driver_cmd_frame
    (E : environment) (drv : wpa_driver_wext_data) (log : list event)
    (cmd : string) (buf : list Z) :
  (forall (buf_len : Z) (out : outcome),
     wpa_driver_wext_driver_cmd E drv log cmd buf buf_len = Some out ->
     length (o_buf out) = length buf
     /\ same_wiring drv (o_drv out)
     /\ exists l : list event, o_log out = log ++ l)
  /\ (cscan_macros_ok -> pno_macros_ok ->
      (exists wpa_s : wpa_supplicant, ctx drv = Some wpa_s) ->
      strlen cmd + 1 <= Z.of_nat (length buf) ->
      11 <= Z.of_nat (length buf) ->
      WEXT_CSCAN_HEADER_SIZE + 10 <= Z.of_nat (length buf) ->
      keeps_nul E ->
      In 0 WEXT_CSCAN_HEADER ->
      exists out : outcome,
        wpa_driver_wext_driver_cmd E drv log cmd buf (Z.of_nat (length buf)) = Some out).
Proof.
  split.
  2:{ intros Hcs Hpno (wpa_s & Hctx) Hfit Hlen Hcap Hnul Hhdr.
      exact (driver_cmd_returns E drv log cmd buf wpa_s Hcs Hpno Hctx Hfit Hlen Hcap Hnul
               Hhdr). }
  intros buf_len out Hrun.
  assert (Hnil : exists l : list event, log = log ++ l)
    by (exists []; now rewrite app_nil_r).
  unfold wpa_driver_wext_driver_cmd in Hrun.
  destruct (_ && _).
  { injection Hrun as <-. cbn [o_buf o_drv o_log].
    split; [reflexivity|]. split; [apply same_wiring_refl|exact Hnil]. }
  destruct (driver_cmd_rewrite E drv log cmd buf 0) as [r|] eqn:Hrw;
    cbn [mbind option_bind] in Hrun; [|discriminate].
  pose proof (driver_cmd_rewrite_frame E drv log cmd buf 0 r Hrw) as Hframe.
  destruct r as [o|[[[d l] c] ret]].
  { injection Hrun as <-. destruct Hframe as (-> & Hw & Hl). auto. }
  destruct Hframe as (Hw & l1 & ->).
  destruct (os_memcpy buf 0 _) as [b|] eqn:Hcpy; cbn [mbind option_bind] in Hrun;
    [|discriminate].
  destruct (os_memcpy_some _ _ _ _ Hcpy) as [Hb _].
  destruct (os_strncasecmp c "CSCAN" 5 =? 0).
  - destruct (ctx d) as [wpa_s|]; cbn [mbind option_bind] in Hrun; [|discriminate].
    destruct (_ && _).
    + destruct (wpa_driver_wext_set_cscan_params b buf_len c) as [[[b' c'] n]|] eqn:Hset;
        cbn [mbind option_bind] in Hrun; [|discriminate].
      destruct (set_cscan_params_some _ _ _ _ _ _ Hset) as (Hb' & _).
      destruct (sys_ioctl E b' (to_u16 n)) as [ioctl_ret reply].
      destruct (driver_cmd_finish_frame _ _ _ _ _ _ Hrun) as (Hbuf & Hw' & l2 & Hl).
      split; [rewrite Hbuf, kernel_write_length; congruence|].
      split; [exact (same_wiring_trans _ _ _ Hw Hw')|].
      eexists. rewrite Hl, <- !app_assoc. reflexivity.
    + cbn [mbind option_bind] in Hrun. injection Hrun as <-. cbn [o_buf o_drv o_log].
      split; [exact Hb|]. split; [exact Hw|now eexists].
  - cbn [mbind option_bind] in Hrun.
    destruct (sys_ioctl E b (to_u16 buf_len)) as [ioctl_ret reply].
    destruct (driver_cmd_finish_frame _ _ _ _ _ _ Hrun) as (Hbuf & Hw' & l2 & Hl).
    split; [rewrite Hbuf, kernel_write_length; congruence|].
    split; [exact (same_wiring_trans _ _ _ Hw Hw')|].
    eexists. rewrite Hl, <- !app_assoc. reflexivity.
Qed.

End FrameProofs.

(** ** The closing sections of the PNO-setup buffer *)

Section PnoClosingProofs.
Context `{M : wext_macros}.

Lemma pno_hex_field_length (len v : Z) :
  0 <= len <= Z.of_nat (length (format_x v)) ->
  Z.of_nat (length (pno_hex_field len v)) = len.
Proof. intros H. unfold pno_hex_field. rewrite length_take. lia. Qed.

(** [os_snprintf] of a filled field at the cursor, and the cursor moved
    past the field: the NUL it stores is the next byte. *)
Lemma os_snprintf_x_at (pre rest : list Z) (len v : Z) :
  0 <= len <= Z.of_nat (length (format_x v)) ->
  len + 1 <= Z.of_nat (length rest) ->
  exists buf : list Z,
    os_snprintf_x (pre ++ rest) (Z.of_nat (length pre)) (len + 1) v = Some buf
    /\ (buf, Z.of_nat (length pre) + len)
       = at_cursor (pre ++ pno_hex_field len v) (0 :: drop (Z.to_nat len + 1) rest).
Proof.
  intros Hlen Hfit. unfold os_snprintf_x.
  destruct (Z.leb_spec (len + 1) 0); [lia|].
  replace (len + 1 - 1) with len by lia. fold (pno_hex_field len v).
  pose proof (pno_hex_field_length len v Hlen) as Hfield.
  rewrite os_memcpy_at by (rewrite length_app; cbn [length]; lia).
  eexists. split; [reflexivity|].
  unfold at_cursor. f_equal.
  - rewrite length_app. cbn [length]. rewrite <- !app_assoc. cbn [app].
    do 2 f_equal.
    now replace (length (pno_hex_field len v) + 1)%nat with (Z.to_nat len + 1)%nat by lia.
  - rewrite length_app. lia.
Qed.

(** The closing sections written at the cursor. *)
Lemma pno_closing_at (pre rest : list Z) :
  pno_macros_ok -> pno_fields_filled ->
  Z.of_nat (length pre) + WEXT_PNO_NONSSID_SECTIONS_SIZE + 1
  <= Z.of_nat (length pre + length rest) ->
  pno_closing (at_cursor pre rest)
  = Some (at_cursor (pre ++ pno_closing_layout) (drop (length pno_closing_layout) rest))
  /\ Z.of_nat (length pno_closing_layout) = WEXT_PNO_NONSSID_SECTIONS_SIZE + 1.
Proof.
  intros (Hh & Hshs & Hil & Hrl & Hml & Hnon & Hmin) (F1 & F2 & F3) Hfit.
  pose proof (pno_hex_field_length WEXT_PNO_SCAN_INTERVAL_LENGTH WEXT_PNO_SCAN_INTERVAL
                (conj Hil F1)) as L1.
  pose proof (pno_hex_field_length WEXT_PNO_REPEAT_LENGTH WEXT_PNO_REPEAT (conj Hrl F2)) as L2.
  pose proof (pno_hex_field_length WEXT_PNO_MAX_REPEAT_LENGTH WEXT_PNO_MAX_REPEAT
                (conj Hml F3)) as L3.
  set (f1 := pno_hex_field WEXT_PNO_SCAN_INTERVAL_LENGTH WEXT_PNO_SCAN_INTERVAL) in *.
  set (f2 := pno_hex_field WEXT_PNO_REPEAT_LENGTH WEXT_PNO_REPEAT) in *.
  set (f3 := pno_hex_field WEXT_PNO_MAX_REPEAT_LENGTH WEXT_PNO_MAX_REPEAT) in *.
  assert (Hlay : pno_closing_layout
                 = [WEXT_PNO_SCAN_INTERVAL_SECTION] ++ f1 ++ [WEXT_PNO_REPEAT_SECTION] ++ f2
                   ++ [WEXT_PNO_MAX_REPEAT_SECTION] ++ f3 ++ [0]) by reflexivity.
  assert (Hsize : Z.of_nat (length pno_closing_layout) = WEXT_PNO_NONSSID_SECTIONS_SIZE + 1).
  { rewrite Hlay, !length_app. cbn [length]. lia. }
  split; [|exact Hsize].
  unfold pno_closing.
  (* scan interval *)
  rewrite putc_at by lia. cbn [mbind option_bind].
  set (p1 := pre ++ [WEXT_PNO_SCAN_INTERVAL_SECTION]).
  set (r1 := drop 1 rest).
  assert (P1 : length p1 = (length pre + 1)%nat)
    by (subst p1; rewrite length_app; cbn [length]; lia).
  assert (R1 : length r1 = (length rest - 1)%nat) by (subst r1; now rewrite length_drop).
  unfold at_cursor at 1 2 3. cbn [fst snd].
  destruct (os_snprintf_x_at p1 r1 WEXT_PNO_SCAN_INTERVAL_LENGTH WEXT_PNO_SCAN_INTERVAL)
    as (b1 & -> & Hcur); [lia|lia|]. cbn [mbind option_bind]. rewrite Hcur. clear Hcur.
  fold f1.
  (* repeat *)
  rewrite putc_at by (cbn [length]; lia). cbn [mbind option_bind drop]. rewrite drop_0.
  set (p2 := (p1 ++ f1) ++ [WEXT_PNO_REPEAT_SECTION]).
  set (r2 := drop (Z.to_nat WEXT_PNO_SCAN_INTERVAL_LENGTH + 1) r1).
  assert (P2 : length p2 = (length p1 + length f1 + 1)%nat)
    by (subst p2; rewrite !length_app; cbn [length]; lia).
  assert (R2 : length r2 = (length r1 - (Z.to_nat WEXT_PNO_SCAN_INTERVAL_LENGTH + 1))%nat)
    by (subst r2; now rewrite length_drop).
  unfold at_cursor at 1 2 3. cbn [fst snd].
  destruct (os_snprintf_x_at p2 r2 WEXT_PNO_REPEAT_LENGTH WEXT_PNO_REPEAT)
    as (b2 & -> & Hcur); [lia|lia|]. cbn [mbind option_bind]. rewrite Hcur. clear Hcur.
  fold f2.
  (* maximum repeat *)
  rewrite putc_at by (cbn [length]; lia). cbn [mbind option_bind drop]. rewrite drop_0.
  set (p3 := (p2 ++ f2) ++ [WEXT_PNO_MAX_REPEAT_SECTION]).
  set (r3 := drop (Z.to_nat WEXT_PNO_REPEAT_LENGTH + 1) r2).
  assert (P3 : length p3 = (length p2 + length f2 + 1)%nat)
    by (subst p3; rewrite !length_app; cbn [length]; lia).
  assert (R3 : length r3 = (length r2 - (Z.to_nat WEXT_PNO_REPEAT_LENGTH + 1))%nat)
    by (subst r3; now rewrite length_drop).
  unfold at_cursor at 1 2 3. cbn [fst snd].
  destruct (os_snprintf_x_at p3 r3 WEXT_PNO_MAX_REPEAT_LENGTH WEXT_PNO_MAX_REPEAT)
    as (b3 & -> & Hcur); [lia|lia|]. cbn [mbind option_bind]. fold f3 in Hcur.
  injection Hcur as -> _.
  assert (E1 : (p3 ++ f3) ++ [0] = pre ++ pno_closing_layout)
    by (rewrite Hlay; subst p3 p2 p1; now rewrite <- !app_assoc).
  assert (E2 : drop (Z.to_nat WEXT_PNO_MAX_REPEAT_LENGTH + 1) r3
               = drop (length pno_closing_layout) rest).
  { subst r3 r2 r1. rewrite !drop_drop.
    match goal with |- drop ?a _ = drop ?b _ => now replace a with b by lia end. }
  unfold at_cursor. do 2 f_equal.
  - rewrite <- E1, <- E2, <- !app_assoc. reflexivity.
  - rewrite <- E1, !length_app. cbn [length]. lia.
Qed.

(** X16: the whole PNO-setup request.  On its buffer of
    [WEXT_PNO_MAX_COMMAND_SIZE] bytes the encoder returns, for every
    network list, with the buffer holding the header and the TLV
    preamble, the SSID sections of the selected entries, and the closing
    sections: the tags of scan interval, repeat and maximum repeat, each
    followed by its value in hexadecimal digits, and a final NUL.  The
    length it reports counts that NUL; the bytes beyond it are as they
    were.  When no entry of the list is enabled with an SSID of at most
    [IW_ESSID_MAX_SIZE] octets, the request has no SSID section at all. *)
Theorem pno_setup_full_layout (ssid_conf : list wpa_ssid) (buf : list Z) :
  pno_macros_ok -> pno_fields_filled ->
  Z.of_nat (length buf) = WEXT_PNO_MAX_COMMAND_SIZE ->
  let request :=
    pno_preamble
    ++ encode_pno_ssids (pno_selected ssid_conf 0 (WEXT_PNOSETUP_HEADER_SIZE + 4))
    ++ pno_closing_layout in
  pno_setup_buffer ssid_conf buf
  = Some (request ++ drop (length request) buf, Z.of_nat (length request))
  /\ Z.of_nat (length request) <= WEXT_PNO_MAX_COMMAND_SIZE
  /\ last request = Some 0
  /\ (List.filter pno_eligible ssid_conf = [] ->
      request = pno_preamble ++ pno_closing_layout).
Proof.
  intros Hok Hfilled Hcap request.
  pose proof Hok as (Hh & Hshs & Hil & Hrl & Hml & Hnon & Hmin).
  assert (Hrun : pno_setup_buffer ssid_conf buf
                 = Some (request ++ drop (length request) buf, Z.of_nat (length request))
                 /\ Z.of_nat (length request) <= WEXT_PNO_MAX_COMMAND_SIZE).
  { subst request. unfold pno_setup_buffer.
    rewrite Hh in *. rewrite literal_bytes_exact. cbn [mbind option_bind].
    pose proof (os_memcpy_at WEXT_PNOSETUP_HEADER [] buf) as Hcpy.
    cbn [app length] in Hcpy. change (Z.of_nat 0) with 0 in Hcpy. rewrite Hcpy by lia.
    clear Hcpy. cbn [mbind option_bind].
    set (hdr := WEXT_PNOSETUP_HEADER) in *.
    change (hdr ++ drop (length hdr) buf, Z.of_nat (length hdr))
      with (at_cursor hdr (drop (length hdr) buf)).
    do 4 step_putc.
    set (pre := (((hdr ++ [WEXT_PNO_TLV_PREFIX]) ++ [WEXT_PNO_TLV_VERSION])
                 ++ [WEXT_PNO_TLV_SUBVERSION]) ++ [WEXT_PNO_TLV_RESERVED]).
    set (rest := drop (length hdr + 1 + 1 + 1 + 1) buf).
    assert (Hpre : length pre = (length hdr + 4)%nat).
    { subst pre. rewrite !length_app. cbn [length]. lia. }
    assert (Hrest : length rest = (length buf - length hdr - 4)%nat).
    { subst rest. rewrite length_drop. lia. }
    assert (Epre : pre = pno_preamble).
    { subst pre. unfold pno_preamble. fold hdr. now rewrite <- !app_assoc. }
    destruct (pno_ssid_loop_at ssid_conf 0 pre rest Hok) as [Hloop Hpost]; [lia|lia|].
    replace (Z.of_nat (length pre)) with (Z.of_nat (length hdr) + 4) in Hloop, Hpost by lia.
    set (out := encode_pno_ssids (pno_selected ssid_conf 0 (Z.of_nat (length hdr) + 4))) in *.
    rewrite Hloop. cbn [mbind option_bind].
    destruct (pno_closing_at (pre ++ out) (drop (length out) rest) Hok Hfilled)
      as [Hclose Hsize].
    { rewrite !length_app, length_drop. lia. }
    rewrite Hclose, <- Epre. unfold at_cursor.
    assert (Hreq : (pre ++ out) ++ pno_closing_layout = pre ++ out ++ pno_closing_layout)
      by (now rewrite <- app_assoc).
    rewrite Hreq.
    assert (Hlen : length (pre ++ out ++ pno_closing_layout)
                   = (length pre + length out + length pno_closing_layout)%nat)
      by (rewrite !length_app; lia).
    split; [|rewrite Hlen; clearbody out pre rest hdr; lia].
    do 2 f_equal. subst rest. rewrite !drop_drop, Hlen, Hpre.
    match goal with |- _ ++ drop ?a _ = _ ++ drop ?b _ => now replace a with b by lia end. }
  destruct Hrun as [Hrun Hle].
  split; [exact Hrun|]. split; [exact Hle|]. split.
  - subst request. unfold pno_closing_layout. rewrite !app_assoc. apply last_snoc.
  - intros Hnone. subst request.
    destruct (pno_selected_prefix ssid_conf 0 (WEXT_PNOSETUP_HEADER_SIZE + 4)) as (k & -> & _).
    rewrite Hnone, take_nil. reflexivity.
Qed.

End PnoClosingProofs.

(** ** STOP followed by START *)

Section RoundTripProofs.
Context `{M : wext_macros}.

Lemma stop_command_sent
    (E : environment) (drv : wpa_driver_wext_data) (log : list event)
    (cmd : string) (buf : list Z) (buf_len : Z) :
  driver_is_started drv = true ->
  os_strcasecmp cmd "STOP" = 0 ->
  strlen cmd + 1 <= Z.of_nat (length buf) ->
  let payload := (bytes_of_string cmd ++ [0]) ++ drop (String.length cmd + 1) buf in
  let reply := kernel_write payload (sys_ioctl E payload (to_u16 buf_len)).2 in
  wpa_driver_wext_driver_cmd E drv log cmd buf buf_len
  = driver_cmd_finish (sys_ioctl E payload (to_u16 buf_len)).1 drv
      ((log ++ [SetIfaceFlags 0]) ++ [IoctlPriv payload (to_u16 buf_len)]) cmd reply.
Proof.
  intros Hstarted Hcmp Hfit payload reply.
  assert (Hpre : lower_prefix "STOP" cmd) by (now apply strcasecmp_prefix).
  assert (Hrw : driver_cmd_rewrite E drv log cmd buf 0
                = Some (inr (drv, log ++ [SetIfaceFlags 0], cmd, 0))).
  { unfold driver_cmd_rewrite.
    rewrite (strcasecmp_clash 13 "STOP" "RSSI-APPROX" cmd Hpre eq_refl).
    rewrite (strncasecmp_clash 13 "STOP" "SCAN-CHANNELS" cmd Hpre eq_refl).
    now rewrite Hcmp. }
  rewrite (driver_cmd_after_rewrite E drv drv log _ cmd cmd buf buf_len 0 Hstarted Hrw)
    by (exact Hfit || exact (strncasecmp_clash_le 5 5 "STOP" "CSCAN" cmd (le_n 5) Hpre eq_refl)).
  reflexivity.
Qed.

Lemma start_command_sent
    (E : environment) (drv : wpa_driver_wext_data) (log : list event)
    (cmd : string) (buf : list Z) (buf_len : Z) :
  os_strcasecmp cmd "START" = 0 ->
  strlen cmd + 1 <= Z.of_nat (length buf) ->
  let payload := (bytes_of_string cmd ++ [0]) ++ drop (String.length cmd + 1) buf in
  let reply := kernel_write payload (sys_ioctl E payload (to_u16 buf_len)).2 in
  wpa_driver_wext_driver_cmd E drv log cmd buf buf_len
  = driver_cmd_finish (sys_ioctl E payload (to_u16 buf_len)).1 drv
      (log ++ [IoctlPriv payload (to_u16 buf_len)]) cmd reply.
Proof.
  intros Hcmp Hfit payload reply.
  assert (Hpre : lower_prefix "START" cmd) by (now apply strcasecmp_prefix).
  unfold wpa_driver_wext_driver_cmd. rewrite Hcmp. cbn [Z.eqb negb]. rewrite andb_false_r.
  rewrite (driver_cmd_rewrite_passthrough "START") by (exact Hpre || reflexivity).
  cbn [mbind option_bind].
  rewrite memcpy_command by exact Hfit. cbn [mbind option_bind].
  rewrite (strncasecmp_clash_le 5 5 "START" "CSCAN" cmd) by (lia || exact Hpre || reflexivity).
  cbn [mbind option_bind]. fold payload. subst reply.
  now destruct (sys_ioctl E payload (to_u16 buf_len)) as [ioctl_ret reply].
Qed.

(** X17: STOP followed by START takes a started driver back to where it
    was.  When the reply buffer holds a NUL after each of the two ioctls,
    both calls return 0 whatever status the ioctls answer; in between the
    driver is in the Stopped state; afterwards the driver data is as
    before the STOP, but for the error counter, which is 0.  The
    interface is brought down before the STOP is sent and up after the
    START has been sent.  When the reply buffer holds no NUL after the
    first ioctl, or after the second, the [strlen(buf)] of line 368 of
    that call reads past its end. *)
Theorem stop_start_round_trip
    (E : environment) (drv : wpa_driver_wext_data) (log : list event)
    (stop start : string) (buf : list Z) (buf_len : Z) :
  driver_is_started drv = true ->
  os_strcasecmp stop "STOP" = 0 ->
  os_strcasecmp start "START" = 0 ->
  strlen stop + 1 <= Z.of_nat (length buf) ->
  strlen start + 1 <= Z.of_nat (length buf) ->
  let p1 := (bytes_of_string stop ++ [0]) ++ drop (String.length stop + 1) buf in
  let b1 := kernel_write p1 (sys_ioctl E p1 (to_u16 buf_len)).2 in
  let p2 := (bytes_of_string start ++ [0]) ++ drop (String.length start + 1) b1 in
  let b2 := kernel_write p2 (sys_ioctl E p2 (to_u16 buf_len)).2 in
  (~ In 0 b1 -> wpa_driver_wext_driver_cmd E drv log stop buf buf_len = None)
  /\ (In 0 b1 ->
      exists out1 : outcome,
        wpa_driver_wext_driver_cmd E drv log stop buf buf_len = Some out1
        /\ o_ret out1 = 0
        /\ o_buf out1 = b1
        /\ driver_is_started (o_drv out1) = false
        /\ (~ In 0 b2 ->
            wpa_driver_wext_driver_cmd E (o_drv out1) (o_log out1) start b1 buf_len = None)
        /\ (In 0 b2 ->
            exists out2 : outcome,
              wpa_driver_wext_driver_cmd E (o_drv out1) (o_log out1) start b1 buf_len
              = Some out2
              /\ o_ret out2 = 0
              /\ o_buf out2 = b2
              /\ o_drv out2 = set_errors drv 0
              /\ o_log out2
                 = log ++ [SetIfaceFlags 0; IoctlPriv p1 (to_u16 buf_len);
                           IoctlPriv p2 (to_u16 buf_len); SetIfaceFlags 1])).
Proof.
  intros Hstarted Hstop Hstart Hfit1 Hfit2 p1 b1 p2 b2.
  pose proof (stop_command_sent E drv log stop buf buf_len Hstarted Hstop Hfit1) as Hrun1.
  cbn zeta in Hrun1. fold p1 in Hrun1. fold b1 in Hrun1.
  assert (Hp1 : length p1 = length buf).
  { subst p1. unfold strlen in Hfit1.
    rewrite !length_app, bytes_of_string_length, length_drop. cbn [length]. lia. }
  assert (Hb1 : length b1 = length buf) by (subst b1; now rewrite kernel_write_length).
  rewrite Hrun1. split.
  { intros Hnone. apply driver_cmd_finish_no_nul. now apply buf_strlen_none. }
  intros Hnul1. rewrite (driver_cmd_finish_stop _ _ _ _ _ Hstop Hnul1).
  eexists. split; [reflexivity|]. cbn [o_ret o_buf o_drv o_log].
  split; [reflexivity|]. split; [reflexivity|]. split; [reflexivity|].
  set (d1 := set_driver_is_started (set_errors drv 0) false).
  set (l1 := (log ++ [SetIfaceFlags 0]) ++ [IoctlPriv p1 (to_u16 buf_len)]).
  pose proof (start_command_sent E d1 l1 start b1 buf_len Hstart) as Hrun2.
  cbn zeta in Hrun2. rewrite Hb1 in Hrun2. specialize (Hrun2 Hfit2).
  fold p2 in Hrun2. fold b2 in Hrun2. rewrite Hrun2. split.
  { intros Hnone. apply driver_cmd_finish_no_nul. now apply buf_strlen_none. }
  intros Hnul2. rewrite (driver_cmd_finish_start _ _ _ _ _ Hstart Hnul2).
  eexists. split; [reflexivity|]. cbn [o_ret o_buf o_drv o_log].
  split; [reflexivity|]. split; [reflexivity|].
  split.
  { subst d1. unfold set_driver_is_started, set_errors.
    cbn [driver_is_started bgscan_enabled errors scan_complete_events ctx].
    now rewrite Hstarted. }
  subst l1. now rewrite <- !app_assoc.
Qed.

End RoundTripProofs.

(** * The further statements at the Android valuation *)

Lemma linux_abi_macros_ok : @linux_macros_ok android_macros linux_abi.
Proof. unfold linux_macros_ok. cbn. lia. Defined.

Lemma android_pno_fields_filled : @pno_fields_filled android_macros.
Proof. unfold pno_fields_filled. vm_compute. repeat split; discriminate. Defined.

Lemma set_scan_timeout_leaves_one_pending_witness :
  scan_complete_events (started_driver 0) <> 0
  /\ pending_scan_timeouts
       (wpa_driver_wext_set_scan_timeout (started_driver 0) [RegisterScanTimeout 10]) [10]
     = [30].
Proof.
  assert (H : scan_complete_events (started_driver 0) <> 0) by (cbn; lia).
  split; [exact H|].
  destruct (set_scan_timeout_leaves_one_pending (started_driver 0) [RegisterScanTimeout 10] [10])
    as (Hp & H30 & _).
  rewrite Hp, (H30 H). reflexivity.
Defined.

Lemma combo_scan_wildcard_or_refused_witness :
  @IW_ESSID_MAX_SIZE android_macros < 33
  /\ @wpa_driver_wext_combo_scan android_macros linux_abi (fun _ => 0) "wlan0"
       (started_driver 0) {| sc_ssid := Some (replicate 33 65); sc_ssid_len := 33 |} []
     = Some ([], -1)
  /\ 0 <= @IW_ESSID_MAX_SIZE android_macros
  /\ (@None (list Z) = None \/ 0 = 0)
  /\ exists iwr : iwreq,
       @wpa_driver_wext_combo_scan android_macros linux_abi (fun _ => -1) "wlan0"
         (started_driver 0) {| sc_ssid := None; sc_ssid_len := 0 |} []
       = Some ([ScanIoctl iwr; ScanTimer CancelScanTimeout;
                ScanTimer (RegisterScanTimeout 30)], -1)
       /\ u_data_pointer iwr = None.
Proof.
  assert (Hlong : @IW_ESSID_MAX_SIZE android_macros < 33) by (cbn; lia).
  assert (Hlen : 0 <= @IW_ESSID_MAX_SIZE android_macros) by (cbn; lia).
  assert (Hwild : @None (list Z) = None \/ 0 = 0) by (left; reflexivity).
  split; [exact Hlong|]. split.
  - exact (proj1 (@combo_scan_wildcard_or_refused android_macros linux_abi (fun _ => 0) "wlan0"
                    (started_driver 0)
                    {| sc_ssid := Some (replicate 33 65); sc_ssid_len := 33 |} []) Hlong).
  - split; [exact Hlen|]. split; [exact Hwild|].
    destruct (proj2 (@combo_scan_wildcard_or_refused android_macros linux_abi (fun _ => -1)
                       "wlan0" (started_driver 0)
                       {| sc_ssid := None; sc_ssid_len := 0 |} []) Hlen Hwild) as [Hrun _].
    eexists. split; [exact Hrun|reflexivity].
Defined.

Lemma combo_scan_ssid_request_witness :
  @linux_macros_ok android_macros linux_abi
  /\ @IW_ESSID_MAX_SIZE android_macros < 256
  /\ 0 < 4 <= @IW_ESSID_MAX_SIZE android_macros
  /\ 4 <= Z.of_nat (length [104; 111; 109; 101])
  /\ exists (iwr : iwreq) (req : iw_scan_req),
       @wpa_driver_wext_combo_scan android_macros linux_abi (fun _ => 0) "wlan0"
         (started_driver 0) {| sc_ssid := Some [104; 111; 109; 101]; sc_ssid_len := 4 |} []
       = Some ([ScanIoctl iwr; ScanTimer CancelScanTimeout;
                ScanTimer (RegisterScanTimeout 30)], 0)
       /\ u_data_pointer iwr = Some req
       /\ req_essid req = [104; 111; 109; 101] ++ replicate 28 0
       /\ req_bssid_sa_data req = replicate 6 255 ++ replicate 8 0.
Proof.
  assert (Hu8 : @IW_ESSID_MAX_SIZE android_macros < 256) by (cbn; lia).
  assert (Hlen : 0 < 4 <= @IW_ESSID_MAX_SIZE android_macros) by (cbn; lia).
  assert (Hsrc : 4 <= Z.of_nat (length [104; 111; 109; 101])) by (cbn; lia).
  split; [exact linux_abi_macros_ok|]. split; [exact Hu8|]. split; [exact Hlen|].
  split; [exact Hsrc|].
  destruct (@combo_scan_ssid_request android_macros linux_abi (fun _ => 0) "wlan0"
              (started_driver 0) [104; 111; 109; 101] 4 [] linux_abi_macros_ok Hu8 Hlen Hsrc)
    as (iwr & req & Hrun & Hptr & _ & _ & _ & Hessid & _ & _ & Hbssid).
  exists iwr, req. split; [exact Hrun|]. split; [exact Hptr|].
  split; [exact Hessid|exact Hbssid].
Defined.

Lemma reload_only_reports_hanged_witness :
  driver_is_started (started_driver 0) = true
  /\ os_strcasecmp "reload" "RELOAD" = 0
  /\ @wpa_driver_wext_driver_cmd android_macros failing_kernel (started_driver 0) []
       "reload" [] 0
     = Some {| o_drv := started_driver 0; o_cmd := "reload"; o_buf := [];
               o_log := [DriverStateHanged]; o_ret := 0 |}.
Proof.
  assert (Hstarted : driver_is_started (started_driver 0) = true) by reflexivity.
  assert (Hcmd : os_strcasecmp "reload" "RELOAD" = 0) by reflexivity.
  split; [exact Hstarted|]. split; [exact Hcmd|].
  exact (@reload_only_reports_hanged android_macros failing_kernel (started_driver 0) []
           "reload" [] 0 Hstarted Hcmd).
Defined.

Lemma stop_then_only_start_witness :
  driver_is_started (started_driver 0) = true
  /\ os_strcasecmp "Stop" "STOP" = 0
  /\ strlen "Stop" + 1 <= Z.of_nat (length (replicate 64 0))
  /\ os_strcasecmp "RSSI" "START" <> 0
  /\ exists out : outcome,
       @wpa_driver_wext_driver_cmd android_macros failing_kernel (started_driver 0) []
         "Stop" (replicate 64 0) 64 = Some out
       /\ o_ret out = 0
       /\ driver_is_started (o_drv out) = false
       /\ @wpa_driver_wext_driver_cmd android_macros answering_kernel (o_drv out) (o_log out)
            "RSSI" (replicate 64 0) 64
          = Some {| o_drv := o_drv out; o_cmd := "RSSI"; o_buf := replicate 64 0;
                    o_log := o_log out; o_ret := -1 |}.
Proof.
  assert (Hstarted : driver_is_started (started_driver 0) = true) by reflexivity.
  assert (Hcmd : os_strcasecmp "Stop" "STOP" = 0) by reflexivity.
  assert (Hfit : strlen "Stop" + 1 <= Z.of_nat (length (replicate 64 0)))
    by (unfold strlen; cbn; lia).
  assert (Hne : os_strcasecmp "RSSI" "START" <> 0) by (vm_compute; discriminate).
  split; [exact Hstarted|]. split; [exact Hcmd|]. split; [exact Hfit|]. split; [exact Hne|].
  destruct (@stop_then_only_start android_macros failing_kernel (started_driver 0) []
              "Stop" (replicate 64 0) 64 Hstarted Hcmd Hfit) as [Hreply _].
  destruct Hreply as (out & Hrun & Hret & Hstopped & _ & _ & _ & Hnext).
  { vm_compute. repeat (first [left; reflexivity | right]). }
  exists out. split; [exact Hrun|]. split; [exact Hret|]. split; [exact Hstopped|].
  exact (Hnext answering_kernel "RSSI"%string (replicate 64 0) 64 Hne).
Defined.

Lemma bgscan_start_sets_up_pno_witness :
  @pno_macros_ok android_macros
  /\ driver_is_started (started_driver 0) = true
  /\ os_strcasecmp "BGSCAN-START" "BGSCAN-START" = 0
  /\ ctx (started_driver 0) = Some idle_session
  /\ conf idle_session = Some []
  /\ 11 <= @MAX_DRV_CMD_SIZE android_macros
  /\ 11 <= Z.of_nat (length (replicate 64 0))
  /\ (exists out : outcome,
        @wpa_driver_wext_driver_cmd android_macros answering_kernel (started_driver 0) []
          "BGSCAN-START" (replicate 64 0) 64 = Some out
        /\ o_ret out = 0
        /\ o_cmd out = "PNOFORCE 1"%string
        /\ bgscan_enabled (o_drv out) = 1)
  /\ (exists out : outcome,
        @wpa_driver_wext_driver_cmd android_macros failing_kernel (started_driver 0) []
          "BGSCAN-START" (replicate 64 0) 64 = Some out
        /\ o_ret out = -1
        /\ o_cmd out = "BGSCAN-START"%string
        /\ bgscan_enabled (o_drv out) = 0).
Proof.
  assert (Hstarted : driver_is_started (started_driver 0) = true) by reflexivity.
  assert (Hcmd : os_strcasecmp "BGSCAN-START" "BGSCAN-START" = 0) by reflexivity.
  assert (Hctx : ctx (started_driver 0) = Some idle_session) by reflexivity.
  assert (Hconf : conf idle_session = Some []) by reflexivity.
  assert (Hmax : 11 <= @MAX_DRV_CMD_SIZE android_macros) by (cbn; lia).
  assert (Hfit : 11 <= Z.of_nat (length (replicate 64 0))) by (cbn; lia).
  split; [exact android_pno_macros_ok|].
  split; [exact Hstarted|]. split; [exact Hcmd|]. split; [exact Hctx|].
  split; [exact Hconf|]. split; [exact Hmax|]. split; [exact Hfit|].
  split.
  - destruct (@bgscan_start_sets_up_pno android_macros answering_kernel (started_driver 0) []
                "BGSCAN-START" (replicate 64 0) 64 idle_session []
                android_pno_macros_ok Hstarted Hcmd Hctx Hconf Hmax Hfit)
      as (pno & bp & _ & Hsucc & _).
    destruct Hsucc as (out & Hrun & Hret & Hout & _ & Hbg & _); [cbn; lia| |].
    { vm_compute. repeat (first [left; reflexivity | right]). }
    exists out. auto.
  - destruct (@bgscan_start_sets_up_pno android_macros failing_kernel (started_driver 0) []
                "BGSCAN-START" (replicate 64 0) 64 idle_session []
                android_pno_macros_ok Hstarted Hcmd Hctx Hconf Hmax Hfit)
      as (pno & bp & _ & _ & _ & Hfail).
    destruct Hfail as (out & Hrun & Hret & Hout & _ & Hbg & _); [cbn; lia|].
    exists out. auto.
Defined.

Lemma bgscan_start_needs_session_witness :
  driver_is_started detached_driver = true
  /\ os_strcasecmp "bgscan-start" "BGSCAN-START" = 0
  /\ (ctx detached_driver = None
      \/ exists wpa_s : wpa_supplicant, ctx detached_driver = Some wpa_s /\ conf wpa_s = None)
  /\ @wpa_driver_wext_driver_cmd android_macros answering_kernel detached_driver []
       "bgscan-start" (replicate 64 0) 64
     = Some {| o_drv := detached_driver; o_cmd := "bgscan-start"; o_buf := replicate 64 0;
               o_log := []; o_ret := -1 |}.
Proof.
  assert (Hstarted : driver_is_started detached_driver = true) by reflexivity.
  assert (Hcmd : os_strcasecmp "bgscan-start" "BGSCAN-START" = 0) by reflexivity.
  assert (Hnone : ctx detached_driver = None
                  \/ exists wpa_s : wpa_supplicant,
                       ctx detached_driver = Some wpa_s /\ conf wpa_s = None)
    by (left; reflexivity).
  split; [exact Hstarted|]. split; [exact Hcmd|]. split; [exact Hnone|].
  exact (@bgscan_start_needs_session android_macros answering_kernel detached_driver []
           "bgscan-start" (replicate 64 0) 64 Hstarted Hcmd Hnone).
Defined.

Lemma bgscan_stop_forces_pno_off_witness :
  driver_is_started (started_driver 0) = true
  /\ os_strcasecmp "BGSCAN-STOP" "BGSCAN-STOP" = 0
  /\ 11 <= @MAX_DRV_CMD_SIZE android_macros
  /\ 11 <= Z.of_nat (length (replicate 64 0))
  /\ exists out : outcome,
       @wpa_driver_wext_driver_cmd android_macros failing_kernel (started_driver 0) []
         "BGSCAN-STOP" (replicate 64 0) 64 = Some out
       /\ o_ret out = 0
       /\ o_cmd out = "PNOFORCE 0"%string
       /\ bgscan_enabled (o_drv out) = 0.
Proof.
  assert (Hstarted : driver_is_started (started_driver 0) = true) by reflexivity.
  assert (Hcmd : os_strcasecmp "BGSCAN-STOP" "BGSCAN-STOP" = 0) by reflexivity.
  assert (Hmax : 11 <= @MAX_DRV_CMD_SIZE android_macros) by (cbn; lia).
  assert (Hfit : 11 <= Z.of_nat (length (replicate 64 0))) by (cbn; lia).
  split; [exact Hstarted|]. split; [exact Hcmd|]. split; [exact Hmax|]. split; [exact Hfit|].
  destruct (@bgscan_stop_forces_pno_off android_macros failing_kernel (started_driver 0) []
              "BGSCAN-STOP" (replicate 64 0) 64 Hstarted Hcmd Hmax Hfit) as [Hreply _].
  destruct Hreply as (out & Hrun & Hret & Hout & _ & Hbg & _).
  { vm_compute. repeat (first [left; reflexivity | right]). }
  exists out. auto.
Defined.

Lemma query_returns_reply_length_witness :
  In RSSI_CMD query_commands
  /\ os_strcasecmp "rssi" RSSI_CMD = 0
  /\ driver_is_started (started_driver 0) = true
  /\ strlen "rssi" + 1 <= Z.of_nat (length (replicate 16 0))
  /\ exists out : outcome,
       @wpa_driver_wext_driver_cmd android_macros answering_kernel (started_driver 0) []
         "rssi" (replicate 16 0) 16 = Some out
       /\ o_ret out = 8
       /\ take 8 (o_buf out) = bytes_of_string "rssi -60".
Proof.
  assert (Hq : In RSSI_CMD query_commands) by (left; reflexivity).
  assert (Hcmd : os_strcasecmp "rssi" RSSI_CMD = 0) by reflexivity.
  assert (Hstarted : driver_is_started (started_driver 0) = true) by reflexivity.
  assert (Hfit : strlen "rssi" + 1 <= Z.of_nat (length (replicate 16 0)))
    by (unfold strlen; cbn; lia).
  split; [exact Hq|]. split; [exact Hcmd|]. split; [exact Hstarted|]. split; [exact Hfit|].
  destruct (@query_returns_reply_length android_macros answering_kernel (started_driver 0) []
              "rssi" RSSI_CMD (replicate 16 0) 16 Hq Hcmd Hstarted Hfit) as [Hreply _].
  destruct Hreply as (out & text & rest & Hrun & Hbuf & _).
  { vm_compute. repeat (first [left; reflexivity | right]). }
  exists out. split; [exact Hrun|].
  vm_compute in Hrun. injection Hrun as <-. split; reflexivity.
Defined.

Lemma rssi_approx_is_sent_as_rssi_witness :
  driver_is_started (started_driver 0) = true
  /\ os_strcasecmp "rssi-approx" "RSSI-APPROX" = 0
  /\ 5 <= @MAX_DRV_CMD_SIZE android_macros
  /\ 5 <= Z.of_nat (length (replicate 16 0))
  /\ exists out : outcome,
       @wpa_driver_wext_driver_cmd android_macros answering_kernel (started_driver 0) []
         "rssi-approx" (replicate 16 0) 16 = Some out
       /\ o_cmd out = "RSSI"%string
       /\ o_ret out = 8.
Proof.
  assert (Hstarted : driver_is_started (started_driver 0) = true) by reflexivity.
  assert (Hcmd : os_strcasecmp "rssi-approx" "RSSI-APPROX" = 0) by reflexivity.
  assert (Hmax : 5 <= @MAX_DRV_CMD_SIZE android_macros) by (cbn; lia).
  assert (Hfit : 5 <= Z.of_nat (length (replicate 16 0))) by (cbn; lia).
  split; [exact Hstarted|]. split; [exact Hcmd|]. split; [exact Hmax|]. split; [exact Hfit|].
  destruct (@rssi_approx_is_sent_as_rssi android_macros answering_kernel (started_driver 0) []
              "rssi-approx" (replicate 16 0) 16 Hstarted Hcmd Hmax Hfit) as [Hreply _].
  destruct Hreply as (out & text & rest & Hrun & Hout & _).
  { vm_compute. repeat (first [left; reflexivity | right]). }
  exists out. split; [exact Hrun|]. split; [exact Hout|].
  vm_compute in Hrun. injection Hrun as <-. reflexivity.
Defined.

Lemma cscan_starts_scan_witness :
  @cscan_macros_ok android_macros
  /\ driver_is_started (started_driver 0) = true
  /\ os_strncasecmp "CSCAN 6,TIME=1000" "CSCAN" 5 = 0
  /\ ctx (started_driver 0) = Some idle_session
  /\ scanning idle_session = 0
  /\ (wpa_state idle_session <= @WPA_SCANNING android_macros
      \/ @WPA_COMPLETED android_macros <= wpa_state idle_session)
  /\ strlen "CSCAN 6,TIME=1000" + 1 <= Z.of_nat (length (replicate 64 0))
  /\ @WEXT_CSCAN_HEADER_SIZE android_macros + 10 <= Z.of_nat (length (replicate 64 0))
  /\ exists (out : outcome) (req : list Z) (bp : Z),
       @wpa_driver_wext_driver_cmd android_macros failing_kernel (started_driver 0) []
         "CSCAN 6,TIME=1000" (replicate 64 0) (Z.of_nat (length (replicate 64 0))) = Some out
       /\ o_ret out = 0
       /\ o_log out = [IoctlPriv req (to_u16 bp); CancelScanTimeout;
                       RegisterScanTimeout 30; NotifyScanning 1]
       /\ ctx (o_drv out) = Some scanning_session.
Proof.
  assert (Hstarted : driver_is_started (started_driver 0) = true) by reflexivity.
  assert (Hcmd : os_strncasecmp "CSCAN 6,TIME=1000" "CSCAN" 5 = 0) by reflexivity.
  assert (Hctx : ctx (started_driver 0) = Some idle_session) by reflexivity.
  assert (Hidle : scanning idle_session = 0) by reflexivity.
  assert (Hstate : wpa_state idle_session <= @WPA_SCANNING android_macros
                   \/ @WPA_COMPLETED android_macros <= wpa_state idle_session)
    by (right; cbn; lia).
  assert (Hfit : strlen "CSCAN 6,TIME=1000" + 1 <= Z.of_nat (length (replicate 64 0)))
    by (unfold strlen; cbn; lia).
  assert (Hcap : @WEXT_CSCAN_HEADER_SIZE android_macros + 10
                 <= Z.of_nat (length (replicate 64 0))) by (cbn; lia).
  split; [exact android_cscan_macros_ok|].
  split; [exact Hstarted|]. split; [exact Hcmd|]. split; [exact Hctx|]. split; [exact Hidle|].
  split; [exact Hstate|]. split; [exact Hfit|]. split; [exact Hcap|].
  destruct (@cscan_starts_scan android_macros failing_kernel (started_driver 0) []
              "CSCAN 6,TIME=1000" (replicate 64 0) idle_session android_cscan_macros_ok
              Hstarted Hcmd Hctx Hidle Hstate Hfit Hcap)
    as (req & bp & _ & _ & Hhdr & Hreply & _).
  destruct Hreply as (out & Hrun & Hret & _ & _ & Hlog & Hsession & _).
  { apply failing_kernel_keeps_nul.
    rewrite <- (take_drop (length (@WEXT_CSCAN_HEADER android_macros)) req), Hhdr.
    apply in_or_app. left. exact android_cscan_header_nul. }
  exists out, req, bp. split; [exact Hrun|]. split; [exact Hret|].
  split; [exact Hlog|exact Hsession].
Defined.

Lemma plain_command_is_forwarded_witness :
  driver_is_started (started_driver 2) = true
  /\ plain_command "POWERMODE 1" = true
  /\ strlen "POWERMODE 1" + 1 <= Z.of_nat (length (replicate 16 0))
  /\ @wpa_driver_wext_driver_cmd android_macros failing_kernel (started_driver 2) []
       "POWERMODE 1" (replicate 16 0) 65552
     = Some {| o_drv := started_driver 0; o_cmd := "POWERMODE 1";
               o_buf := bytes_of_string "POWERMODE 1" ++ replicate 5 0;
               o_log := [IoctlPriv (bytes_of_string "POWERMODE 1" ++ replicate 5 0) 16];
               o_ret := 0 |}.
Proof.
  assert (Hstarted : driver_is_started (started_driver 2) = true) by reflexivity.
  assert (Hplain : plain_command "POWERMODE 1" = true) by reflexivity.
  assert (Hfit : strlen "POWERMODE 1" + 1 <= Z.of_nat (length (replicate 16 0)))
    by (unfold strlen; cbn; lia).
  split; [exact Hstarted|]. split; [exact Hplain|]. split; [exact Hfit|].
  destruct (@plain_command_is_forwarded android_macros failing_kernel (started_driver 2) []
              "POWERMODE 1" (replicate 16 0) 65552 Hstarted Hplain Hfit) as [Hreply _].
  apply Hreply.
  vm_compute. repeat (first [left; reflexivity | right]).
Defined.

Lemma driver_cmd_frame_witness :
  (exists out : outcome,
     @wpa_driver_wext_driver_cmd android_macros failing_kernel (started_driver 2) []
       "CSCAN 6,TIME=1000" (replicate 64 0) 64 = Some out
     /\ length (o_buf out) = length (replicate 64 0)
     /\ same_wiring (started_driver 2) (o_drv out))
  /\ @cscan_macros_ok android_macros /\ @pno_macros_ok android_macros
  /\ (exists wpa_s : wpa_supplicant, ctx (started_driver 2) = Some wpa_s)
  /\ strlen "GETBAND" + 1 <= Z.of_nat (length (replicate 64 0))
  /\ 11 <= Z.of_nat (length (replicate 64 0))
  /\ @WEXT_CSCAN_HEADER_SIZE android_macros + 10 <= Z.of_nat (length (replicate 64 0))
  /\ keeps_nul failing_kernel
  /\ In 0 (@WEXT_CSCAN_HEADER android_macros)
  /\ exists out : outcome,
       @wpa_driver_wext_driver_cmd android_macros failing_kernel (started_driver 2) []
         "GETBAND" (replicate 64 0) (Z.of_nat (length (replicate 64 0))) = Some out.
Proof.
  assert (Hctx : exists wpa_s : wpa_supplicant, ctx (started_driver 2) = Some wpa_s)
    by (now exists idle_session).
  assert (Hfit : strlen "GETBAND" + 1 <= Z.of_nat (length (replicate 64 0)))
    by (unfold strlen; cbn; lia).
  assert (Hlen : 11 <= Z.of_nat (length (replicate 64 0))) by (cbn; lia).
  assert (Hcap : @WEXT_CSCAN_HEADER_SIZE android_macros + 10
                 <= Z.of_nat (length (replicate 64 0))) by (cbn; lia).
  split.
  - destruct (@wpa_driver_wext_driver_cmd android_macros failing_kernel (started_driver 2) []
                "CSCAN 6,TIME=1000" (replicate 64 0) 64) as [out|] eqn:Hrun;
      [|vm_compute in Hrun; discriminate Hrun].
    destruct (proj1 (@driver_cmd_frame android_macros failing_kernel (started_driver 2) []
                       "CSCAN 6,TIME=1000" (replicate 64 0)) 64 out Hrun)
      as (Hbuf & Hwiring & _).
    exists out. split; [reflexivity|]. split; [exact Hbuf|exact Hwiring].
  - split; [exact android_cscan_macros_ok|]. split; [exact android_pno_macros_ok|].
    split; [exact Hctx|]. split; [exact Hfit|]. split; [exact Hlen|]. split; [exact Hcap|].
    split; [exact failing_kernel_keeps_nul|]. split; [exact android_cscan_header_nul|].
    exact (proj2 (@driver_cmd_frame android_macros failing_kernel (started_driver 2) []
                    "GETBAND" (replicate 64 0))
             android_cscan_macros_ok android_pno_macros_ok Hctx Hfit Hlen Hcap
             failing_kernel_keeps_nul android_cscan_header_nul).
Defined.

Lemma cscan_params_mandatory_part_witness :
  @cscan_macros_ok android_macros
  /\ @WEXT_CSCAN_HEADER_SIZE android_macros + 10 <= Z.of_nat (length (replicate 40 0))
  /\ 8 <= Z.of_nat (length (replicate 40 0))
  /\ Z.of_nat (length (replicate 21 0)) < @WEXT_CSCAN_HEADER_SIZE android_macros + 10
  /\ (exists (buf' : list Z) (bp : Z),
        @wpa_driver_wext_set_cscan_params android_macros (replicate 40 0) 8 "CSCAN 6,TIME=1000"
        = Some (buf', "CSCAN 6"%string, bp)
        /\ bp = 22)
  /\ @wpa_driver_wext_set_cscan_params android_macros (replicate 21 0) 21 "CSCAN 6,TIME=1000"
     = None.
Proof.
  assert (Hcap : @WEXT_CSCAN_HEADER_SIZE android_macros + 10
                 <= Z.of_nat (length (replicate 40 0))) by (cbn; lia).
  assert (Hlen : 8 <= Z.of_nat (length (replicate 40 0))) by (cbn; lia).
  assert (Hshort : Z.of_nat (length (replicate 21 0))
                   < @WEXT_CSCAN_HEADER_SIZE android_macros + 10) by (cbn; lia).
  split; [exact android_cscan_macros_ok|]. split; [exact Hcap|]. split; [exact Hlen|].
  split; [exact Hshort|]. split.
  - destruct (proj1 (@cscan_params_mandatory_part android_macros (replicate 40 0) 8
                       "CSCAN 6,TIME=1000" android_cscan_macros_ok) Hcap Hlen)
      as (buf' & bp & Hrun & _ & Hlo & Hhi).
    exists buf', bp. split; [exact Hrun|].
    cbn in Hlo, Hhi. lia.
  - exact (proj2 (@cscan_params_mandatory_part android_macros (replicate 21 0) 21
                    "CSCAN 6,TIME=1000" android_cscan_macros_ok) Hshort).
Defined.

Lemma cscan_channel_sections_cover_dwell_witness :
  @cscan_macros_ok android_macros
  /\ @cscan_parse android_macros "CSCAN 6,TIME=1000" = ("CSCAN 6"%string, 1000, 6)
  /\ 6 <> 0
  /\ @WEXT_CSCAN_HEADER_SIZE android_macros + 13
     + 2 * ((1000 - 1) ÷ @WEXT_CSCAN_PASV_DWELL_TIME_DEF android_macros)
     <= Z.of_nat (length (replicate 40 0))
  /\ exists (buf' : list Z) (bp : Z),
       @wpa_driver_wext_set_cscan_params android_macros (replicate 40 0)
         (Z.of_nat (length (replicate 40 0))) "CSCAN 6,TIME=1000"
       = Some (buf', "CSCAN 6"%string, bp)
       /\ bp = 28.
Proof.
  assert (Hparse : @cscan_parse android_macros "CSCAN 6,TIME=1000" = ("CSCAN 6"%string, 1000, 6))
    by reflexivity.
  assert (Hnz : 6 <> 0) by lia.
  assert (Hroom : @WEXT_CSCAN_HEADER_SIZE android_macros + 13
                  + 2 * ((1000 - 1) ÷ @WEXT_CSCAN_PASV_DWELL_TIME_DEF android_macros)
                  <= Z.of_nat (length (replicate 40 0))) by (vm_compute; discriminate).
  split; [exact android_cscan_macros_ok|]. split; [exact Hparse|]. split; [exact Hnz|].
  split; [exact Hroom|].
  destruct (@cscan_channel_sections_cover_dwell android_macros (replicate 40 0)
              "CSCAN 6,TIME=1000" "CSCAN 6" 1000 6 android_cscan_macros_ok Hparse Hnz Hroom)
    as (buf' & bp & Hrun & Hbp & _).
  exists buf', bp. split; [exact Hrun|]. rewrite Hbp. reflexivity.
Defined.

Lemma pno_setup_full_layout_witness :
  @pno_macros_ok android_macros /\ @pno_fields_filled android_macros
  /\ Z.of_nat (length (replicate 565 0)) = @WEXT_PNO_MAX_COMMAND_SIZE android_macros
  /\ exists buf' : list Z,
       @pno_setup_buffer android_macros [short_ssid_network] (replicate 565 0)
       = Some (buf', 27)
       /\ take 27 buf'
          = bytes_of_string "PNOSETUP S120" ++ [83; 4; 104; 111; 109; 101]
            ++ bytes_of_string "T1eR4M3" ++ [0].
Proof.
  assert (Hcap : Z.of_nat (length (replicate 565 0)) = @WEXT_PNO_MAX_COMMAND_SIZE android_macros)
    by reflexivity.
  split; [exact android_pno_macros_ok|]. split; [exact android_pno_fields_filled|].
  split; [exact Hcap|].
  destruct (@pno_setup_full_layout android_macros [short_ssid_network] (replicate 565 0)
              android_pno_macros_ok android_pno_fields_filled Hcap) as (Hrun & _).
  eexists. split; [exact Hrun|]. vm_compute. reflexivity.
Defined.

Lemma stop_start_round_trip_witness :
  driver_is_started (started_driver 0) = true
  /\ os_strcasecmp "stop" "STOP" = 0
  /\ os_strcasecmp "start" "START" = 0
  /\ strlen "stop" + 1 <= Z.of_nat (length (replicate 16 0))
  /\ strlen "start" + 1 <= Z.of_nat (length (replicate 16 0))
  /\ exists out1 out2 : outcome,
       @wpa_driver_wext_driver_cmd android_macros failing_kernel (started_driver 0) []
         "stop" (replicate 16 0) 16 = Some out1
       /\ @wpa_driver_wext_driver_cmd android_macros failing_kernel (o_drv out1) (o_log out1)
            "start" (o_buf out1) 16 = Some out2
       /\ driver_is_started (o_drv out1) = false
       /\ o_drv out2 = started_driver 0.
Proof.
  assert (Hstarted : driver_is_started (started_driver 0) = true) by reflexivity.
  assert (Hstop : os_strcasecmp "stop" "STOP" = 0) by reflexivity.
  assert (Hstart : os_strcasecmp "start" "START" = 0) by reflexivity.
  assert (Hfit1 : strlen "stop" + 1 <= Z.of_nat (length (replicate 16 0)))
    by (unfold strlen; cbn; lia).
  assert (Hfit2 : strlen "start" + 1 <= Z.of_nat (length (replicate 16 0)))
    by (unfold strlen; cbn; lia).
  split; [exact Hstarted|]. split; [exact Hstop|]. split; [exact Hstart|].
  split; [exact Hfit1|]. split; [exact Hfit2|].
  destruct (@stop_start_round_trip android_macros failing_kernel (started_driver 0) []
              "stop" "start" (replicate 16 0) 16 Hstarted Hstop Hstart Hfit1 Hfit2)
    as [_ Hfirst].
  destruct Hfirst as (out1 & Hrun1 & _ & Hbuf1 & Hstopped & _ & Hsecond).
  { vm_compute. repeat (first [left; reflexivity | right]). }
  destruct Hsecond as (out2 & Hrun2 & _ & _ & Hdrv & _).
  { vm_compute. repeat (first [left; reflexivity | right]). }
  exists out1, out2. split; [exact Hrun1|]. split; [rewrite Hbuf1; exact Hrun2|].
  split; [exact Hstopped|exact Hdrv].
Defined.
